(** * The COCO dataset adapter of the Mask R-CNN example

    A shallow embedding of
    [pytorch_object_detection/mask_rcnn/my_dataset_coco.py]:
    the filter of images without usable annotations, the conversion of
    polygon segmentations into stacked masks, the construction of the
    dataset object and [parse_targets].

    Python exceptions are modelled by an error monad. A Python dictionary
    is an association list in insertion order, because the constructor
    enumerates the items of one. The elements of a float32 tensor are
    values of the IEEE-754 binary32 format of [SpecFloat], and a tensor is
    its dtype, its shape and the list of its entries along dimension 0.
    The encoder and decoder of the COCO toolkit, which rasterize polygons,
    are parameters. The [transforms] callable, which [parse_targets] and
    the filter do not use, is left out of the dataset object. *)

From Stdlib Require Import String Ascii.
From Stdlib Require Import ZArith List Bool Lia.
From Stdlib Require Import Permutation Sorted Orders Mergesort.
From Stdlib Require Import DecimalString DecimalZ.
From Stdlib Require Import SpecFloat.
Import ListNotations.

Local Open Scope string_scope.
Local Open Scope list_scope.
Local Open Scope Z_scope.

Set Implicit Arguments.

(* ================================================================== *)
(** * Python exceptions *)

Inductive exn : Type :=
  | AssertionError
  | TypeError
  | KeyError (key : string)
  | ValueError
  | IndexError
  | RuntimeError
  | OverflowError.

(** A computation either raises or returns. *)
Definition result (A : Type) : Type := (exn + A)%type.

Definition Raise {A : Type} (e : exn) : result A := inl e.
Definition Return {A : Type} (x : A) : result A := inr x.

Definition bind {A B : Type} (c : result A) (k : A -> result B) : result B :=
  match c with
  | inl e => inl e
  | inr x => k x
  end.

Declare Scope py_scope.
Delimit Scope py_scope with py.
Notation "x <- c ;; k" := (bind c (fun x => k))
  (at level 61, c at next level, right associativity) : py_scope.
Notation "c ;;; k" := (bind c (fun _ => k))
  (at level 61, right associativity) : py_scope.
Local Open Scope py_scope.

(** [assert b] with the exception Python raises when [b] is false. *)
Definition assert (b : bool) : result unit :=
  if b then Return tt else Raise AssertionError.

(** A list comprehension whose body may raise: the first failure wins. *)
Fixpoint mapM {A B : Type} (f : A -> result B) (l : list A) : result (list B) :=
  match l with
  | [] => Return []
  | x :: r => y <- f x ;; ys <- mapM f r ;; Return (y :: ys)
  end.

(* ================================================================== *)
(** * IEEE-754 numbers *)

Module Float.

Definition is_nan (x : spec_float) : bool :=
  match x with S754_nan => true | _ => false end.

Definition is_inf (x : spec_float) : bool :=
  match x with S754_infinity _ => true | _ => false end.

Definition gtb (x y : spec_float) : bool := SFltb y x.

End Float.

(** binary32, the element type of a [torch.float32] tensor. *)
Module F32.
Definition prec : Z := 24.
Definition emax : Z := 128.
Definition t : Type := spec_float.

Definition zero : t := S754_zero false.
Definition add (x y : t) : t := SFadd prec emax x y.
Definition ltb (x y : t) : bool := SFltb x y.
Definition leb (x y : t) : bool := SFleb x y.
Definition gtb (x y : t) : bool := Float.gtb x y.

(** Conversion of an integer scalar, rounding to nearest even. *)
Definition of_Z (z : Z) : t := binary_normalize prec emax z 0 false.

(** Narrowing of a binary64 value, rounding to nearest even. *)
Definition of_f64 (d : spec_float) : t :=
  match d with
  | S754_finite s m e => binary_normalize prec emax (cond_Zopp s (Zpos m)) e s
  | _ => d
  end.

(** [std::max] and [std::min] of the C++ library, which decide with [<]
    and return their first argument on a tie or on NaN. *)
Definition max (a b : t) : t := if ltb a b then b else a.
Definition min (a b : t) : t := if ltb b a then b else a.

(** [clamp_(min=lo, max=hi)] on one element. *)
Definition clamp (lo hi a : t) : t := min (max a lo) hi.
End F32.

(** binary64, the Python [float]. *)
Module F64.
Definition prec : Z := 53.
Definition emax : Z := 1024.
Definition of_Z (z : Z) : spec_float := binary_normalize prec emax z 0 false.
Definition leb (x y : spec_float) : bool := SFleb x y.
Definition ltb (x y : spec_float) : bool := SFltb x y.
End F64.

(** A JSON number as Python loads it: an [int] or a [float]. *)
Inductive pynum : Type :=
  | PyInt (z : Z)
  | PyFloat (d : spec_float).

(** [o <= k] and [o > k] for an integer literal [k]. *)
Definition py_le (o : pynum) (k : Z) : bool :=
  match o with
  | PyInt z => z <=? k
  | PyFloat d => F64.leb d (F64.of_Z k)
  end.

Definition py_gt (o : pynum) (k : Z) : bool :=
  match o with
  | PyInt z => k <? z
  | PyFloat d => F64.ltb (F64.of_Z k) d
  end.

Definition py_is_nan (o : pynum) : bool :=
  match o with
  | PyInt _ => false
  | PyFloat d => Float.is_nan d
  end.

(** [float(o)]: an [int] beyond the binary64 range raises. *)
Definition py_float (o : pynum) : result spec_float :=
  match o with
  | PyInt z =>
      let d := F64.of_Z z in
      if Float.is_inf d then Raise OverflowError else Return d
  | PyFloat d => Return d
  end.

(** The store of one Python number into a float32 tensor. *)
Definition as_float32 (o : pynum) : result F32.t :=
  d <- py_float o ;; Return (F32.of_f64 d).


(* ================================================================== *)
(** * [str] of a Python [int] *)

Definition str (z : Z) : string := NilZero.string_of_int (Z.to_int z).

(* ================================================================== *)
(** * Python dictionaries

    A [dict] keeps its keys in insertion order; assigning to a key that is
    present overwrites the value in place. *)

Module PyDict.
Section Dict.

Variables K V : Type.
Variable K_dec : forall x y : K, {x = y} + {x <> y}.

Definition t : Type := list (K * V).

Definition empty : t := [].

(** [d.get(k)] *)
Fixpoint get (k : K) (d : t) : option V :=
  match d with
  | [] => None
  | (k', v) :: r => if K_dec k k' then Some v else get k r
  end.

(** [d[k] = v] *)
Fixpoint set (k : K) (v : V) (d : t) : t :=
  match d with
  | [] => [(k, v)]
  | (k', v') :: r =>
      if K_dec k k' then (k, v) :: r else (k', v') :: set k v r
  end.

(** [dict(pairs)] *)
Definition of_list (pairs : list (K * V)) : t :=
  fold_left (fun d p => set (fst p) (snd p) d) pairs empty.

Definition items (d : t) : list (K * V) := d.
Definition keys (d : t) : list K := map fst d.
Definition values (d : t) : list V := map snd d.

End Dict.
End PyDict.

(* ================================================================== *)
(** * Tensors *)

Inductive dtype : Type := uint8 | int64 | float32.

(** A tensor: its dtype, its shape and its entries along dimension 0
    (an entry of a tensor of rank above one is kept flat, row-major). *)
Record tensor (R : Type) : Type := Tensor {
  dtype_of : dtype;
  shape : list nat;
  rows : list R
}.

(** An integer array (a numpy array, or one mask) kept flat, row-major. *)
Record array : Type := Array {
  a_dtype : dtype;
  a_shape : list nat;
  a_data : list Z
}.

(** An element of a tensor built by [torch.tensor] with an inferred dtype. *)
Inductive scalar : Type :=
  | SInt (z : Z)
  | SFloat (f : F32.t).

Definition fits_int64 (z : Z) : bool :=
  (- 2 ^ 63 <=? z) && (z <? 2 ^ 63).

Definition is_int (o : pynum) : bool :=
  match o with PyInt _ => true | PyFloat _ => false end.

(** [torch.tensor(l, dtype=torch.int64)] of Python ints. *)
Definition tensor_int64 (l : list Z) : result (tensor Z) :=
  if forallb fits_int64 l
  then Return (Tensor int64 [length l] l)
  else Raise ValueError.

(** [torch.tensor(l)] of a flat list of numbers: int64 when every element
    is an [int], the default float32 otherwise and for the empty list. *)
Definition tensor_infer (l : list pynum) : result (tensor scalar) :=
  match l with
  | [] => Return (Tensor float32 [0%nat] [])
  | _ :: _ =>
      if forallb is_int l then
        els <- mapM (fun o =>
                 match o with
                 | PyInt z => if fits_int64 z then Return (SInt z)
                              else Raise ValueError
                 | PyFloat _ => Raise TypeError
                 end) l ;;
        Return (Tensor int64 [length l] els)
      else
        els <- mapM (fun o => f <- as_float32 o ;; Return (SFloat f)) l ;;
        Return (Tensor float32 [length l] els)
  end.

(** [torch.as_tensor(data, dtype=torch.float32)] of a list of lists: the
    inner lists must have one length. *)
Definition as_tensor_float32 (data : list (list pynum))
  : result (tensor (list F32.t)) :=
  match data with
  | [] => Return (Tensor float32 [0%nat] [])
  | first :: _ =>
      if forallb (fun r => (length r =? length first)%nat) data then
        els <- mapM (mapM as_float32) data ;;
        Return (Tensor float32 [length data; length first] els)
      else Raise ValueError
  end.

Fixpoint group4 {A : Type} (l : list A) : list (list A) :=
  match l with
  | a :: b :: c :: d :: r => [a; b; c; d] :: group4 r
  | _ => []
  end.

(** [t.reshape(-1, 4)] *)
Definition reshape_4 {A : Type} (t : tensor (list A)) : result (tensor (list A)) :=
  let flat := concat (rows t) in
  if (length flat mod 4 =? 0)%nat
  then Return (Tensor (dtype_of t) [(length flat / 4)%nat; 4%nat] (group4 flat))
  else Raise RuntimeError.

Definition map_rows {A B : Type} (f : A -> B) (t : tensor A) : tensor B :=
  Tensor (dtype_of t) (shape t) (map f (rows t)).

Fixpoint zip_with {A B C : Type} (f : A -> B -> C) (l : list A) (m : list B)
  : list C :=
  match l, m with
  | a :: l', b :: m' => f a b :: zip_with f l' m'
  | _, _ => []
  end.

(** One row of [boxes[:, 2:] += boxes[:, :2]]. *)
Definition add_first_two (row : list F32.t) : list F32.t :=
  firstn 2 row ++ zip_with F32.add (skipn 2 row) (firstn 2 row).

Fixpoint map_from {A : Type} (f : A -> A) (i start step : nat) (l : list A)
  : list A :=
  match l with
  | [] => []
  | x :: r =>
      (if ((start <=? i) && ((i - start) mod step =? 0))%nat then f x else x)
        :: map_from f (S i) start step r
  end.

(** One row of [t[:, start::step].clamp_(min=lo, max=hi)]. *)
Definition clamp_stride (start step : nat) (lo hi : F32.t) (row : list F32.t)
  : list F32.t :=
  map_from (F32.clamp lo hi) 0 start step row.

(** The column [t[:, i]]. *)
Definition column (i : nat) (t : tensor (list F32.t)) : list F32.t :=
  map (fun row => nth i row S754_nan) (rows t).

Fixpoint select {A : Type} (keep : list bool) (l : list A) : list A :=
  match keep, l with
  | b :: keep', x :: l' => if b then x :: select keep' l' else select keep' l'
  | _, _ => []
  end.

Definition count_true (keep : list bool) : nat :=
  length (filter (fun b => b) keep).

(** [t[keep]] for a boolean mask over dimension 0. *)
Definition index_mask {R : Type} (t : tensor R) (keep : list bool)
  : result (tensor R) :=
  match shape t with
  | n :: rest =>
      if (length keep =? n)%nat
      then Return (Tensor (dtype_of t) (count_true keep :: rest)
                     (select keep (rows t)))
      else Raise IndexError
  | [] => Raise IndexError
  end.

(** [mask[..., None]] *)
Definition expand_last (m : array) : array :=
  Array (a_dtype m) (a_shape m ++ [1%nat]) (a_data m).

(** [torch.as_tensor(mask, dtype=torch.uint8)] of an integer array: the
    entries are taken modulo 256. *)
Definition as_tensor_uint8 (m : array) : array :=
  Array uint8 (a_shape m) (map (fun v => v mod 256) (a_data m)).

Definition prod (l : list nat) : nat := fold_right Nat.mul 1%nat l.

(** [m.any(dim=2)]: dimension 2 is reduced; a uint8 input gives uint8. *)
Definition any_dim2 (m : array) : result array :=
  match a_shape m with
  | a :: b :: n :: rest =>
      let block := prod rest in
      let cell (outer j : nat) : Z :=
        if existsb (fun i =>
             negb (nth ((outer * n + i) * block + j) (a_data m) 0 =? 0))
             (seq 0 n)
        then 1 else 0 in
      Return (Array (a_dtype m) (a :: b :: rest)
                (flat_map (fun outer => map (cell outer) (seq 0 block))
                   (seq 0 (a * b))))
  | _ => Raise IndexError
  end.

Definition shape_eqb (s1 s2 : list nat) : bool :=
  if list_eq_dec Nat.eq_dec s1 s2 then true else false.

(** [torch.stack(ms, dim=0)]: a non-empty list of tensors of one shape. *)
Definition stack (ms : list array) : result (tensor (list Z)) :=
  match ms with
  | [] => Raise RuntimeError
  | m :: _ =>
      if forallb (fun x => shape_eqb (a_shape x) (a_shape m)) ms
      then Return (Tensor (a_dtype m) (length ms :: a_shape m) (map a_data ms))
      else Raise RuntimeError
  end.

(** The stride of dimension 0 of a contiguous tensor whose other
    dimensions are [rest]; a dimension of 0 counts as 1. *)
Definition stride_0 (rest : list nat) : Z :=
  fold_right (fun n acc => Z.max (Z.of_nat n) 1 * acc) 1 rest.

(** [torch.zeros(shape, dtype=dt)] with a leading dimension of 0: every
    size must be within int64, and so must the strides. *)
Definition zeros_0 (rest : list nat) (dt : dtype) : result (tensor (list Z)) :=
  if forallb (fun n => Z.of_nat n <? 2 ^ 63) rest then
    if stride_0 rest <? 2 ^ 63
    then Return (Tensor dt (0%nat :: rest) [])
    else Raise RuntimeError
  else Raise TypeError.

(* ================================================================== *)
(** * The COCO annotation toolkit, as the adapter uses it *)

Inductive seg_value : Type :=
  | Polygons (polys : list (list pynum))
  | RunLength (size : list Z) (counts : list Z).

(** One annotation object of the COCO file. *)
Record annotation : Type := Annotation {
  bbox : list pynum;
  category_id : Z;
  segmentation : seg_value;
  area : pynum;
  iscrowd : Z
}.

Record category : Type := Category { cat_id : Z; cat_name : string }.

Record image : Type := Image { file_name : string; width : Z; height : Z }.

(** The [COCO] object: its indexes [cats] and [imgs], and the two queries
    the adapter calls. *)
Record COCO : Type := {
  cats : PyDict.t Z category;
  imgs : PyDict.t Z image;
  getAnnIds : Z -> list Z;
  loadAnns : list Z -> list annotation
}.

(* ================================================================== *)
(** * [_coco_remove_images_without_annotations] *)

Definition _has_only_empty_bbox (anno : list annotation) : bool :=
  forallb (fun obj => existsb (fun o => py_le o 1) (skipn 2 (bbox obj))) anno.

Definition _has_valid_annotation (anno : list annotation) : bool :=
  if (length anno =? 0)%nat then false
  else if _has_only_empty_bbox anno then false
  else true.

(** The state of the loop: [valid_ids], and the ids whose annotations were
    fetched from the dataset so far. *)
Definition remove_step (dataset : COCO) (st : list Z * list Z) (img_id : Z)
  : list Z * list Z :=
  let ann_ids := getAnnIds dataset img_id in
  let anno := loadAnns dataset ann_ids in
  (if _has_valid_annotation anno then fst st ++ [img_id] else fst st,
   snd st ++ [img_id]).

Definition remove_loop (dataset : COCO) (ids : list Z) : list Z * list Z :=
  fold_left (remove_step dataset) ids ([], []).

Definition _coco_remove_images_without_annotations
  (dataset : COCO) (ids : list Z) : list Z :=
  fst (remove_loop dataset ids).

(* ================================================================== *)
(** * [CocoDetection.__init__] *)

(** The order of the integers, for the merge sort of the library. *)
Module ZLeBool := OTF_to_TTLB BinInt.Z.
Module ZSort := Sort ZLeBool.

(** [sorted(l)] on integers. *)
Definition sorted (l : list Z) : list Z := ZSort.sort l.

Definition enumerate {A : Type} (l : list A) : list (nat * A) :=
  combine (seq 0 (length l)) l.

Fixpoint last_char (s : string) : option ascii :=
  match s with
  | EmptyString => None
  | String c EmptyString => Some c
  | String _ r => last_char r
  end.

(** [os.path.join(a, b)] on POSIX paths. *)
Definition path_join (a b : string) : string :=
  if String.prefix "/" b then b
  else match last_char a with
       | None => b
       | Some c => if Ascii.eqb c "/" then a ++ b else a ++ "/" ++ b
       end%string.

(** What the constructor reads from outside the program: the loader of
    the toolkit, [json.load] on a file, and whether a file can be opened
    and written; each may raise. *)
Record world : Type := {
  path_exists : string -> bool;
  COCO_load : string -> result COCO;
  json_load : string -> result (PyDict.t string Z);
  write_file : string -> result unit
}.

(** What it writes. *)
Inductive json_doc : Type :=
  | JsonIntMap (d : PyDict.t string Z)
  | JsonStrMap (d : PyDict.t string string).

Record CocoDetection : Type := {
  img_root : string;
  anno_path : string;
  mode : string;
  coco : COCO;
  coco91to80 : PyDict.t string Z;
  ids : list Z
}.

Definition coco_classes_of (c : COCO) : PyDict.t Z string :=
  PyDict.of_list Z.eq_dec
    (map (fun kv => (cat_id (snd kv), cat_name (snd kv))) (PyDict.items (cats c))).

Definition coco91to80_of (coco_classes : PyDict.t Z string) : PyDict.t string Z :=
  PyDict.of_list string_dec
    (map (fun ie => (str (fst (snd ie)), Z.of_nat (fst ie) + 1))
       (enumerate (PyDict.items coco_classes))).

Definition coco80_info_of (coco_classes : PyDict.t Z string)
  : PyDict.t string string :=
  PyDict.of_list string_dec
    (map (fun ie => (str (Z.of_nat (fst ie) + 1), snd (snd ie)))
       (enumerate (PyDict.items coco_classes))).

(** The constructor; it returns the object and the files written. The
    annotation file and the side file may fail to load, and a file may
    fail to be written. *)
Definition __init__ (env : world) (root dataset years : string)
  : result (CocoDetection * list (string * json_doc)) :=
  assert ((dataset =? "train")%string || (dataset =? "val")%string) ;;;
  let anno_file := ("instances_" ++ dataset ++ years ++ ".json")%string in
  assert (path_exists env root) ;;;
  let img_root := path_join root (dataset ++ years)%string in
  assert (path_exists env img_root) ;;;
  let anno_path := path_join (path_join root "annotations") anno_file in
  assert (path_exists env anno_path) ;;;
  coco <- COCO_load env anno_path ;;
  r <- (if (dataset =? "train")%string then
          let coco_classes := coco_classes_of coco in
          let coco91to80 := coco91to80_of coco_classes in
          write_file env "coco91_to_80.json" ;;;
          let coco80_info := coco80_info_of coco_classes in
          write_file env "coco80_indices.json" ;;;
          Return (coco91to80,
                  [("coco91_to_80.json", JsonIntMap coco91to80);
                   ("coco80_indices.json", JsonStrMap coco80_info)])
        else
          let coco91to80_path := "coco91_to_80.json" in
          assert (path_exists env coco91to80_path) ;;;
          coco91to80 <- json_load env coco91to80_path ;;
          Return (coco91to80, [])) ;;
  let ids := sorted (PyDict.keys (imgs coco)) in
  let ids := if (dataset =? "train")%string
             then _coco_remove_images_without_annotations coco ids
             else ids in
  Return ({| img_root := img_root; anno_path := anno_path; mode := dataset;
             coco := coco; coco91to80 := fst r; ids := ids |}, snd r).

(** [__len__] *)
Definition __len__ (self : CocoDetection) : nat := length (ids self).

(* ================================================================== *)
(** * [convert_coco_poly_mask] and [CocoDetection.parse_targets] *)

(** A value stored in the target dictionary. *)
Inductive tvalue : Type :=
  | VBoxes (t : tensor (list F32.t))
  | VInts (t : tensor Z)
  | VMasks (t : tensor (list Z))
  | VScalars (t : tensor scalar).

Definition target : Type := PyDict.t string tvalue.

(** [d[k]] *)
Definition getitem {V : Type} (d : PyDict.t string V) (k : string) : result V :=
  match PyDict.get string_dec k d with
  | Some v => Return v
  | None => Raise (KeyError k)
  end.

Definition setitem (k : string) (v : tvalue) (d : target) : target :=
  PyDict.set string_dec k v d.

(** [assert x > 0], where [x] may have been left at its default [None]. *)
Definition assert_gt_0 (x : option Z) : result Z :=
  match x with
  | None => Raise TypeError
  | Some z => assert (0 <? z) ;;; Return z
  end.

Definition non_crowd (coco_targets : list annotation) : list annotation :=
  filter (fun obj => iscrowd obj =? 0) coco_targets.

(** [(boxes[:, 3] > boxes[:, 1]) & (boxes[:, 2] > boxes[:, 0])] *)
Definition keep_mask (boxes : tensor (list F32.t)) : list bool :=
  zip_with andb
    (zip_with F32.gtb (column 3 boxes) (column 1 boxes))
    (zip_with F32.gtb (column 2 boxes) (column 0 boxes)).

(** A Python [int] passed as a bound of [clamp_]: it must fit a signed or
    an unsigned 64-bit integer, and is then converted to float32. *)
Definition clamp_bound (z : Z) : result F32.t :=
  if (- 2 ^ 63 <=? z) && (z <? 2 ^ 64)
  then Return (F32.of_Z z)
  else Raise OverflowError.

(** The box tensor of [parse_targets] before the keep mask is applied. *)
Definition convert_boxes (anno : list annotation) (w h : Z)
  : result (tensor (list F32.t)) :=
  let boxes := map bbox anno in
  boxes <- as_tensor_float32 boxes ;;
  boxes <- reshape_4 boxes ;;
  let boxes := map_rows add_first_two boxes in
  hi <- clamp_bound w ;;
  let boxes := map_rows (clamp_stride 0 2 (F32.of_Z 0) hi) boxes in
  hi <- clamp_bound h ;;
  let boxes := map_rows (clamp_stride 1 2 (F32.of_Z 0) hi) boxes in
  Return boxes.

Section Rasterizer.

(** The run-length encoder and decoder of the COCO toolkit; each may
    raise on an object it does not accept. *)
Variable RLEs : Type.
Variable frPyObjects : seg_value -> nat -> nat -> result RLEs.
Variable decode : RLEs -> result array.

(** The toolkit rasterizes [polygons] for an [h] by [w] image: the two
    calls return, and the array has the shape [(h, w)] or [(h, w, n)]. *)
Definition rasterizes (polygons : seg_value) (h w : nat) : Prop :=
  exists rles mask,
    frPyObjects polygons h w = Return rles /\
    decode rles = Return mask /\
    (a_shape mask = [h; w] \/ exists n, a_shape mask = [h; w; n]).

(** The body of the loop of [convert_coco_poly_mask]. *)
Definition convert_one (polygons : seg_value) (height width : nat)
  : result array :=
  rles <- frPyObjects polygons height width ;;
  mask <- decode rles ;;
  let mask := if (length (a_shape mask) <? 3)%nat
              then expand_last mask else mask in
  let mask := as_tensor_uint8 mask in
  any_dim2 mask.

Definition convert_coco_poly_mask
  (segmentations : list seg_value) (height width : nat)
  : result (tensor (list Z)) :=
  masks <- mapM (fun polygons => convert_one polygons height width)
             segmentations ;;
  match masks with
  | _ :: _ => stack masks
  | [] => zeros_0 [height; width] uint8
  end.

Definition parse_targets (self : CocoDetection) (img_id : Z)
  (coco_targets : list annotation) (w h : option Z) : result target :=
  w <- assert_gt_0 w ;;
  h <- assert_gt_0 h ;;
  let anno := non_crowd coco_targets in
  boxes <- convert_boxes anno w h ;;
  classes <- mapM (fun obj =>
               getitem (coco91to80 self) (str (category_id obj))) anno ;;
  classes <- tensor_int64 classes ;;
  let segmentations := map segmentation anno in
  masks <- convert_coco_poly_mask segmentations (Z.to_nat h) (Z.to_nat w) ;;
  let keep := keep_mask boxes in
  boxes <- index_mask boxes keep ;;
  classes <- index_mask classes keep ;;
  masks <- index_mask masks keep ;;
  let target := PyDict.empty string tvalue in
  let target := setitem "boxes" (VBoxes boxes) target in
  let target := setitem "labels" (VInts classes) target in
  let target := setitem "masks" (VMasks masks) target in
  image_id <- tensor_infer [PyInt img_id] ;;
  let target := setitem "image_id" (VScalars image_id) target in
  area <- tensor_infer (map area anno) ;;
  iscrowd <- tensor_infer (map (fun obj => PyInt (iscrowd obj)) anno) ;;
  let target := setitem "area" (VScalars area) target in
  let target := setitem "iscrowd" (VScalars iscrowd) target in
  Return target.

End Rasterizer.


(* ================================================================== *)
(** * Vocabulary of the statements *)

(** Zero, a positive finite number or plus infinity. *)
Definition nonneg_float (x : spec_float) : Prop :=
  match x with
  | S754_zero _ => True
  | S754_infinity s => s = false
  | S754_nan => False
  | S754_finite s _ _ => s = false
  end.

(** The box the annotation [[x, y, bw, bh]] is converted to, written with
    the float32 coordinates [X], [Y], [BW], [BH]. *)
Definition clamped_box (w h : Z) (X Y BW BH : F32.t) : list F32.t :=
  [ F32.clamp (F32.of_Z 0) (F32.of_Z w) X;
    F32.clamp (F32.of_Z 0) (F32.of_Z h) Y;
    F32.clamp (F32.of_Z 0) (F32.of_Z w) (F32.add X BW);
    F32.clamp (F32.of_Z 0) (F32.of_Z h) (F32.add Y BH) ].

(** What the three in-place updates do to one row. *)
Definition box_row (w h : Z) (row : list F32.t) : list F32.t :=
  clamp_stride 1 2 (F32.of_Z 0) (F32.of_Z h)
    (clamp_stride 0 2 (F32.of_Z 0) (F32.of_Z w) (add_first_two row)).

(** [ymax > ymin and xmax > xmin] on one row. *)
Definition valid_row (row : list F32.t) : bool :=
  F32.gtb (nth 3 row S754_nan) (nth 1 row S754_nan)
  && F32.gtb (nth 2 row S754_nan) (nth 0 row S754_nan).

(** [c] lies between [lo] and [hi] in the order of float32, the bounds
    being converted as the clamp converts them. *)
Definition within (lo hi : Z) (c : F32.t) : Prop :=
  F32.leb (F32.of_Z lo) c = true /\ F32.leb c (F32.of_Z hi) = true.

(** The float32 coordinates of an annotation with a bbox of four numbers. *)
Definition bbox_f32 (obj : annotation) (X Y BW BH : F32.t) : Prop :=
  exists x y bw bh,
    bbox obj = [x; y; bw; bh] /\
    as_float32 x = Return X /\ as_float32 y = Return Y /\
    as_float32 bw = Return BW /\ as_float32 bh = Return BH.

(** The integer a float with no fractional digit stands for: a zero, or
    a finite float whose exponent is not negative. *)
Definition integer_value (x : spec_float) : option Z :=
  match x with
  | S754_zero _ => Some 0
  | S754_finite s m e =>
      if 0 <=? e then Some (cond_Zopp s (Zpos m) * 2 ^ e) else None
  | _ => None
  end.

(** One mask of a conforming decoder. *)
Definition mask_of (height width : nat) (m : array) : Prop :=
  a_dtype m = uint8 /\ a_shape m = [height; width] /\
  length (a_data m) = (height * width)%nat.

(** The target dictionary, from the per-annotation tensors, the keep mask
    and the three tensors that are not filtered. *)
Definition target_of (conv : tensor (list F32.t)) (cls : list Z)
  (msk : tensor (list Z)) (image_id area_t iscrowd_t : tensor scalar) : target :=
  let keep := keep_mask conv in
  let n := count_true keep in
  [ ("boxes", VBoxes (Tensor float32 [n; 4%nat] (select keep (rows conv))));
    ("labels", VInts (Tensor int64 [n] (select keep cls)));
    ("masks", VMasks (Tensor (dtype_of msk) (n :: tl (shape msk))
                        (select keep (rows msk))));
    ("image_id", VScalars image_id);
    ("area", VScalars area_t);
    ("iscrowd", VScalars iscrowd_t) ].

(** The label list comprehension. *)
Definition labels_of (self : CocoDetection) (anno : list annotation)
  : result (list Z) :=
  mapM (fun obj => getitem (coco91to80 self) (str (category_id obj))) anno.

(** A number that converts to a float: any [float], and an [int] within
    the binary64 range. *)
Definition float_ok (o : pynum) : bool :=
  match o with
  | PyInt z => negb (Float.is_inf (F64.of_Z z))
  | PyFloat _ => true
  end.

(** A list [torch.tensor] accepts with an inferred dtype. *)
Definition numbers_ok (l : list pynum) : bool :=
  if forallb is_int l
  then forallb (fun o => match o with
                         | PyInt z => fits_int64 z
                         | PyFloat _ => true
                         end) l
  else forallb float_ok l.

(** A bbox of four numbers, and a category the remap knows. *)
Definition annotation_ok (self : CocoDetection) (obj : annotation) : bool :=
  (length (bbox obj) =? 4)%nat
  && forallb float_ok (bbox obj)
  && match PyDict.get string_dec (str (category_id obj)) (coco91to80 self) with
     | Some v => fits_int64 v
     | None => false
     end.

Definition targets_ok (self : CocoDetection) (img_id : Z)
  (coco_targets : list annotation) : bool :=
  fits_int64 img_id
  && forallb (annotation_ok self) (non_crowd coco_targets)
  && numbers_ok (map area (non_crowd coco_targets)).

(** The test the loop applies to one image id. *)
Definition has_valid (dataset : COCO) (img_id : Z) : bool :=
  _has_valid_annotation (loadAnns dataset (getAnnIds dataset img_id)).

(** [l] is [m] with some elements left out. *)
Inductive subseq {A : Type} : list A -> list A -> Prop :=
  | subseq_nil : subseq [] []
  | subseq_skip (x : A) (l m : list A) : subseq l m -> subseq l (x :: m)
  | subseq_keep (x : A) (l m : list A) : subseq l m -> subseq (x :: l) (x :: m).

(** An annotation none of whose bbox entries from index 2 on is [<= 1]. *)
Definition box_not_empty (obj : annotation) : Prop :=
  forall o, In o (skipn 2 (bbox obj)) -> py_le o 1 = false.

(** The pairs [(str(k), idx + 1)] the remap is built from. *)
Definition remap_pairs (coco_classes : PyDict.t Z string) : list (string * Z) :=
  map (fun ie => (str (fst (snd ie)), Z.of_nat (fst ie) + 1))
    (enumerate (PyDict.items coco_classes)).

(* ================================================================== *)
(** * Sample data *)

(** A rasterizer for the examples. It accepts a non-empty list of
    polygons, decoded to one blank channel per polygon at the size of the
    image, and a run-length object, decoded to one blank two-dimensional
    array at the size the object states; it raises on anything else. *)
Module Blank.
Definition RLEs : Type := (nat * nat * option nat)%type.
Definition frPyObjects (s : seg_value) (h w : nat) : result RLEs :=
  match s with
  | Polygons [] => Raise IndexError
  | Polygons ps => Return (h, w, Some (length ps))
  | RunLength [rh; rw] _ => Return (Z.to_nat rh, Z.to_nat rw, None)
  | RunLength _ _ => Raise ValueError
  end.
Definition decode (r : RLEs) : result array :=
  match r with
  | (h, w, Some n) => Return (Array uint8 [h; w; n] (repeat 0 (h * w * n)))
  | (h, w, None) => Return (Array uint8 [h; w] (repeat 0 (h * w)))
  end.
Definition parse := parse_targets frPyObjects decode.
Definition convert := convert_coco_poly_mask frPyObjects decode.
End Blank.

(** The float [m * 2^e]. *)
Definition dyadic (m e : Z) : pynum := PyFloat (binary_normalize 53 1024 m e false).

Definition nan : pynum := PyFloat S754_nan.

Definition square : seg_value :=
  Polygons [[PyInt 0; PyInt 0; PyInt 2; PyInt 0; PyInt 2; PyInt 2; PyInt 0; PyInt 2]].

(** A box of 3 by 2 at (1, 1), category 18. *)
Definition ann_dog : annotation :=
  {| bbox := [dyadic 3 (-1); PyInt 1; PyInt 3; PyInt 2]; category_id := 18;
     segmentation := square; area := dyadic 13 (-1); iscrowd := 0 |}.

(** A box of width zero, category 1. *)
Definition ann_flat : annotation :=
  {| bbox := [PyInt 2; PyInt 2; PyInt 0; PyInt 5]; category_id := 1;
     segmentation := square; area := PyInt 0; iscrowd := 0 |}.

(** A crowd region. *)
Definition ann_crowd : annotation :=
  {| bbox := [PyInt 0; PyInt 0; PyInt 4; PyInt 4]; category_id := 1;
     segmentation := RunLength [4; 4] [0; 16]; area := PyInt 16; iscrowd := 1 |}.

(** A box that reaches beyond a width of 16777219, category 1. *)
Definition ann_wide : annotation :=
  {| bbox := [PyInt 0; PyInt 0; PyInt 20000000; PyInt 3]; category_id := 1;
     segmentation := square; area := PyInt 60000000; iscrowd := 0 |}.

(** A box whose width is NaN. *)
Definition ann_nan : annotation :=
  {| bbox := [PyInt 0; PyInt 0; nan; PyInt 5]; category_id := 1;
     segmentation := square; area := PyInt 0; iscrowd := 0 |}.

Definition sample_anns (img_id : Z) : list annotation :=
  if img_id =? 1 then [ann_dog; ann_flat; ann_crowd]
  else if img_id =? 2 then [ann_flat]
  else if img_id =? 3 then []
  else if img_id =? 5 then [ann_nan]
  else [].

(** A dataset of four images; annotation ids are the image ids. *)
Definition sample_coco : COCO :=
  {| cats := [(1, Category 1 "person"); (18, Category 18 "dog")];
     imgs := [(3, Image "c.jpg" 4 4); (1, Image "a.jpg" 4 4);
              (5, Image "e.jpg" 4 4); (2, Image "b.jpg" 4 4)];
     getAnnIds := fun img_id => [img_id];
     loadAnns := fun ann_ids => flat_map sample_anns ann_ids |}.

Definition sample_world : world :=
  {| path_exists := fun _ => true;
     COCO_load := fun _ => Return sample_coco;
     json_load := fun _ => Return [("1", 1); ("18", 2)];
     write_file := fun _ => Return tt |}.

Definition sample_self : CocoDetection :=
  {| img_root := "/data/coco/train2017";
     anno_path := "/data/coco/annotations/instances_train2017.json";
     mode := "train"; coco := sample_coco;
     coco91to80 := [("1", 1); ("18", 2)];
     ids := [1; 5] |}.

(** A dataset object whose remap lacks category 18. *)
Definition stale_self : CocoDetection :=
  {| img_root := "/data/coco/val2017";
     anno_path := "/data/coco/annotations/instances_val2017.json";
     mode := "val"; coco := sample_coco;
     coco91to80 := [("1", 1)];
     ids := [1; 2; 3; 5] |}.

(* ================================================================== *)
(** * [__getitem__], [get_height_and_width] and [collate_fn] *)

(** [l[i]] on a Python list: a negative index counts from the end, and an
    index outside the list raises. *)
Definition list_getitem {A : Type} (l : list A) (i : Z) : result A :=
  let n := Z.of_nat (length l) in
  let j := if i <? 0 then i + n else i in
  if (0 <=? j) && (j <? n) then
    match nth_error l (Z.to_nat j) with
    | Some x => Return x
    | None => Raise IndexError
    end
  else Raise IndexError.

(** [coco.loadImgs(img_id)] of the toolkit is a parameter; this is what the
    toolkit documents for one integer id: the record stored in [imgs] under
    the id, in a list, and a [KeyError] for an id that is no key. *)
Definition loadImgs_contract (loadImgs : COCO -> Z -> result (list image))
  : Prop :=
  forall c img_id,
    loadImgs c img_id =
    match PyDict.get Z.eq_dec img_id (imgs c) with
    | Some info => Return [info]
    | None => Raise (KeyError (str img_id))
    end.

Section Access.

(** The toolkit's query, the image library, and the rasterizer. *)
Variable loadImgs : COCO -> Z -> result (list image).
Variable pil_image : Type.
Variable Image_open_RGB : string -> result pil_image.
Variable size : pil_image -> Z * Z.
Variable RLEs : Type.
Variable frPyObjects : seg_value -> nat -> nat -> result RLEs.
Variable decode : RLEs -> result array.

(** [__getitem__]; [transforms] is the attribute of that name, [None] or a
    callable on the image and the target. *)
Definition __getitem__ (self : CocoDetection)
  (transforms : option (pil_image -> target -> result (pil_image * target)))
  (index : Z) : result (pil_image * target) :=
  let coco := coco self in
  img_id <- list_getitem (ids self) index ;;
  let ann_ids := getAnnIds coco img_id in
  let coco_target := loadAnns coco ann_ids in
  infos <- loadImgs coco img_id ;;
  info <- list_getitem infos 0 ;;
  let path := file_name info in
  img <- Image_open_RGB (path_join (img_root self) path) ;;
  let w := fst (size img) in
  let h := snd (size img) in
  target <- parse_targets frPyObjects decode self img_id coco_target
              (Some w) (Some h) ;;
  match transforms with
  | Some f => f img target
  | None => Return (img, target)
  end.

Definition get_height_and_width (self : CocoDetection) (index : Z)
  : result (Z * Z) :=
  let coco := coco self in
  img_id <- list_getitem (ids self) index ;;
  infos <- loadImgs coco img_id ;;
  img_info <- list_getitem infos 0 ;;
  let w := width img_info in
  let h := height img_info in
  Return (h, w).

End Access.

(** [zip( *iterables )] on lists: the tuples of the i-th elements, up to the
    shortest list; no list gives no tuple. A tuple is a list here. *)
Fixpoint zip_star {A : Type} (iterables : list (list A)) : list (list A) :=
  match iterables with
  | [] => []
  | it :: rest =>
      match rest with
      | [] => map (fun x => [x]) it
      | _ :: _ => zip_with cons it (zip_star rest)
      end
  end.

(** [collate_fn(batch)], that is [tuple(zip( *batch ))]. *)
Definition collate_fn {A : Type} (batch : list (list A)) : list (list A) :=
  zip_star batch.

(** The toolkit's [loadImgs] on the sample data. *)
Definition sample_loadImgs (c : COCO) (img_id : Z) : result (list image) :=
  match PyDict.get Z.eq_dec img_id (imgs c) with
  | Some info => Return [info]
  | None => Raise (KeyError (str img_id))
  end.

(** An image library whose files all hold a 4 by 4 image. *)
Definition sample_open (path : string) : result (Z * Z) := Return (4, 4).

(* ================================================================== *)
(** * Vocabulary and sample data of the further properties *)

(** The paths the constructor tests. *)
Definition img_root_of (root dataset years : string) : string :=
  path_join root (dataset ++ years)%string.

Definition anno_path_of (root dataset years : string) : string :=
  path_join (path_join root "annotations")
    ("instances_" ++ dataset ++ years ++ ".json")%string.

(** A world in which the side file holds what the sample constructor in
    mode "train" writes. *)
Definition sample_world_after : world :=
  {| path_exists := fun _ => true;
     COCO_load := fun _ => Return sample_coco;
     json_load := fun _ => Return (coco91to80_of (coco_classes_of sample_coco));
     write_file := fun _ => Return tt |}.

(** The pairs [(str(idx + 1), name)] of [coco80_indices.json]. *)
Definition info_pairs (coco_classes : PyDict.t Z string)
  : list (string * string) :=
  map (fun ie => (str (Z.of_nat (fst ie) + 1), snd (snd ie)))
    (enumerate (PyDict.items coco_classes)).

(** A decoder for the examples that returns one channel of 7s. *)
Definition sevens_frPyObjects (s : seg_value) (h w : nat)
  : result (nat * nat) :=
  Return (h, w).

Definition sevens_decode (r : nat * nat) : result array :=
  Return (Array uint8 [fst r; snd r; 1%nat] (repeat 7 (fst r * snd r))).

(** A decoder for the examples that returns the int64 channel
    [[256, 3]]. *)
Definition wrap_decode (r : nat * nat) : result array :=
  Return (Array int64 [fst r; snd r; 1%nat] [256; 3]).

(** The batch of the pairs [(img, target)], each a tuple of two. *)
Definition pair_batch {A B : Type} (batch : list (A * B)) : list (list (A + B)) :=
  map (fun p => [inl (fst p); inr (snd p)]) batch.

(** A float zero, of either sign. *)
Definition is_zero (x : spec_float) : bool :=
  match x with S754_zero _ => true | _ => false end.

(* ================================================================== *)
(** * Order facts of the IEEE comparison *)

Lemma SFcompare_None (x y : spec_float) :
  SFcompare x y = None <-> Float.is_nan x = true \/ Float.is_nan y = true.
Proof.
  destruct x as [sx|sx| |sx mx ex], y as [sy|sy| |sy my ey]; simpl;
    split; intros H; try discriminate; auto;
    try (destruct H; discriminate).
Qed.

Lemma SFcompare_antisym (x y : spec_float) :
  SFcompare y x = option_map CompOpp (SFcompare x y).
Proof.
  destruct x as [sx|sx| |sx mx ex], y as [sy|sy| |sy my ey]; simpl;
    try reflexivity;
    try (destruct sx; reflexivity);
    try (destruct sy; reflexivity);
    try (destruct sx, sy; reflexivity).
  f_equal.
  rewrite (Z.compare_antisym ex ey).
  change (Pos.compare_cont Eq my mx) with (Pos.compare my mx).
  change (Pos.compare_cont Eq mx my) with (Pos.compare mx my).
  rewrite (Pos.compare_antisym mx my).
  destruct sx, sy; try reflexivity;
    destruct (ex ?= ey); simpl; try reflexivity;
    try now rewrite CompOpp_involutive.
Qed.

Lemma SFcompare_refl (x : spec_float) :
  Float.is_nan x = false -> SFcompare x x = Some Eq.
Proof.
  destruct x as [s|s| |s m e]; simpl; intros H; try discriminate;
    try (destruct s; reflexivity).
  rewrite Z.compare_refl.
  change (Pos.compare_cont Eq m m) with (Pos.compare m m).
  rewrite Pos.compare_refl.
  destruct s; reflexivity.
Qed.

Lemma SFleb_refl (x : spec_float) :
  Float.is_nan x = false -> SFleb x x = true.
Proof. intros H. unfold SFleb. now rewrite SFcompare_refl. Qed.

Lemma SFltb_not_nan (x y : spec_float) :
  SFltb x y = true -> Float.is_nan x = false /\ Float.is_nan y = false.
Proof.
  unfold SFltb. intros H.
  destruct (Float.is_nan x) eqn:Hx, (Float.is_nan y) eqn:Hy; auto;
    assert (Hn : SFcompare x y = None) by (apply SFcompare_None; auto);
    rewrite Hn in H; discriminate.
Qed.

Lemma SFltb_leb (x y : spec_float) : SFltb x y = true -> SFleb x y = true.
Proof.
  unfold SFltb, SFleb. destruct (SFcompare x y) as [[ | | ]|]; auto.
Qed.

(** Without NaN the order is total. *)
Lemma SFltb_false_leb (x y : spec_float) :
  Float.is_nan x = false -> Float.is_nan y = false ->
  SFltb x y = false -> SFleb y x = true.
Proof.
  intros Hx Hy. unfold SFltb, SFleb.
  rewrite (SFcompare_antisym x y).
  destruct (SFcompare x y) as [[ | | ]|] eqn:Hc; simpl; auto.
  apply SFcompare_None in Hc. destruct Hc; congruence.
Qed.

(* ================================================================== *)
(** * Rounding keeps the sign *)

Section RoundingSign.

Variables prec emax : Z.

Lemma iter_pos_invariant (A : Type) (f : A -> A) (P : A -> Prop) :
  (forall x, P x -> P (f x)) ->
  forall n x, P x -> P (iter_pos f n x).
Proof.
  intros Hf. induction n as [n IH|n IH| ]; intros x Hx; simpl; auto.
Qed.

Lemma shr_1_nonneg (mrs : shr_record) :
  0 <= shr_m mrs -> 0 <= shr_m (shr_1 mrs).
Proof.
  destruct mrs as [m r s]. simpl.
  destruct m as [|[p|p| ]|[p|p| ]]; simpl; lia.
Qed.

Lemma shr_nonneg (mrs : shr_record) (e n : Z) :
  0 <= shr_m mrs -> 0 <= shr_m (fst (shr mrs e n)).
Proof.
  intros H. destruct n as [|p|p]; simpl; auto.
  apply iter_pos_invariant with (P := fun r => 0 <= shr_m r); auto.
  apply shr_1_nonneg.
Qed.

Lemma shr_record_of_loc_m (m : Z) (l : location) :
  shr_m (shr_record_of_loc m l) = m.
Proof. destruct l as [|[ | | ]]; reflexivity. Qed.

Lemma shr_fexp_nonneg (m e : Z) (l : location) :
  0 <= m -> 0 <= shr_m (fst (shr_fexp prec emax m e l)).
Proof.
  intros H. unfold shr_fexp. apply shr_nonneg.
  now rewrite shr_record_of_loc_m.
Qed.

Lemma round_nearest_even_nonneg (m : Z) (l : location) :
  0 <= m -> 0 <= round_nearest_even m l.
Proof.
  intros H. destruct l as [|[ | | ]]; simpl; try lia.
  destruct (Z.even m); lia.
Qed.

Lemma binary_round_aux_nonneg (m e : Z) (l : location) :
  0 <= m -> nonneg_float (binary_round_aux prec emax false m e l).
Proof.
  intros H. unfold binary_round_aux.
  pose proof (shr_fexp_nonneg e l H) as H1.
  destruct (shr_fexp prec emax m e l) as [mrs' e'].
  simpl in H1.
  pose proof (round_nearest_even_nonneg (loc_of_shr_record mrs') H1) as H2.
  pose proof (shr_fexp_nonneg e' loc_Exact H2) as H3.
  destruct (shr_fexp prec emax
              (round_nearest_even (shr_m mrs') (loc_of_shr_record mrs'))
              e' loc_Exact) as [mrs'' e''].
  simpl in H3.
  destruct (shr_m mrs'') as [|p|p]; simpl; auto; try lia.
  destruct (e'' <=? emax - prec); reflexivity.
Qed.

Lemma binary_normalize_nonneg (z e : Z) (s : bool) :
  0 <= z -> nonneg_float (binary_normalize prec emax z e s).
Proof.
  intros H. destruct z as [|p|p]; simpl; auto; try lia.
  unfold binary_round.
  destruct (shl_align p e (fexp prec emax (Z.pos (digits2_pos p) + e)))
    as [mz ez].
  apply binary_round_aux_nonneg. lia.
Qed.

Lemma nonneg_float_not_nan (x : spec_float) :
  nonneg_float x -> Float.is_nan x = false.
Proof. destruct x; simpl; intros H; auto; contradiction. Qed.

Lemma nonneg_float_zero_leb (x : spec_float) :
  nonneg_float x -> SFleb (S754_zero false) x = true.
Proof.
  destruct x as [s|s| |s m e]; simpl; intros H; subst; auto; contradiction.
Qed.

End RoundingSign.

(* ================================================================== *)
(** * The element-wise clamp *)

Lemma clamp_bounds (lo hi a : F32.t) :
  Float.is_nan lo = false -> Float.is_nan hi = false ->
  F32.leb lo hi = true ->
  Float.is_nan (F32.clamp lo hi a) = false ->
  F32.leb lo (F32.clamp lo hi a) = true /\
  F32.leb (F32.clamp lo hi a) hi = true.
Proof.
  unfold F32.clamp, F32.min, F32.max, F32.leb, F32.ltb.
  intros Hlo Hhi Hle.
  destruct (SFltb a lo) eqn:Ha.
  - destruct (SFltb hi lo) eqn:Hb; intros _; split;
      auto using SFleb_refl.
  - destruct (SFltb hi a) eqn:Hb; intros Hn; split;
      auto using SFleb_refl, SFltb_false_leb.
Qed.

(** NaN goes through the clamp unchanged. *)
Lemma clamp_nan (lo hi : F32.t) : F32.clamp lo hi S754_nan = S754_nan.
Proof. destruct lo, hi; reflexivity. Qed.

Lemma of_Z_nonneg (w : Z) : 0 <= w -> nonneg_float (F32.of_Z w).
Proof. intros H. now apply binary_normalize_nonneg. Qed.

Lemma clamp_within (hi : Z) (a : F32.t) :
  0 < hi ->
  Float.is_nan (F32.clamp (F32.of_Z 0) (F32.of_Z hi) a) = false ->
  within 0 hi (F32.clamp (F32.of_Z 0) (F32.of_Z hi) a).
Proof.
  intros Hhi Hn. unfold within.
  assert (Hnn : nonneg_float (F32.of_Z hi)) by (apply of_Z_nonneg; lia).
  apply clamp_bounds; auto.
  - now apply nonneg_float_not_nan.
  - change (F32.of_Z 0) with (S754_zero false).
    now apply nonneg_float_zero_leb.
Qed.

(* ================================================================== *)
(** * [str] is injective *)

Lemma to_int_not_nil (z : Z) :
  Z.to_int z <> Decimal.Pos Decimal.Nil /\ Z.to_int z <> Decimal.Neg Decimal.Nil.
Proof.
  pose proof (DecimalZ.to_of (Z.to_int z)) as H.
  rewrite DecimalZ.of_to in H.
  split; intros E; rewrite E in H; discriminate.
Qed.

Lemma str_inj (a b : Z) : str a = str b -> a = b.
Proof.
  unfold str. intros H.
  apply DecimalZ.to_int_inj.
  destruct (to_int_not_nil a) as [Ha1 Ha2], (to_int_not_nil b) as [Hb1 Hb2].
  pose proof (NilZero.isi (Z.to_int a) Ha1 Ha2) as Ia.
  pose proof (NilZero.isi (Z.to_int b) Hb1 Hb2) as Ib.
  rewrite H in Ia. rewrite Ia in Ib. now inversion Ib.
Qed.

(* ================================================================== *)
(** * Facts about dictionaries *)

Module PyDictFacts.
Section Dict.

Variables K V : Type.
Variable K_dec : forall x y : K, {x = y} + {x <> y}.

Local Abbreviation get := (PyDict.get K_dec).
Local Abbreviation set := (PyDict.set K_dec).
Local Abbreviation of_list := (@PyDict.of_list K V K_dec).
Local Abbreviation keys := (@PyDict.keys K V).
Local Abbreviation t := (PyDict.t K V).
Local Abbreviation empty := (PyDict.empty K V).

Lemma get_set_same (k : K) (v : V) (d : t) : get k (set k v d) = Some v.
Proof.
  induction d as [|[k' v'] r IH]; simpl.
  - now destruct (K_dec k k).
  - destruct (K_dec k k') as [E|N]; simpl.
    + now destruct (K_dec k k).
    + now destruct (K_dec k k').
Qed.

Lemma get_set_other (k k0 : K) (v : V) (d : t) :
  k0 <> k -> get k0 (set k v d) = get k0 d.
Proof.
  intros Hne. induction d as [|[k' v'] r IH]; simpl.
  - now destruct (K_dec k0 k).
  - destruct (K_dec k k') as [E|N]; simpl.
    + subst k'. destruct (K_dec k0 k); [contradiction | reflexivity].
    + destruct (K_dec k0 k'); auto.
Qed.

Lemma get_In (k : K) (v : V) (d : t) : get k d = Some v -> In (k, v) d.
Proof.
  induction d as [|[k' v'] r IH]; simpl; [discriminate|].
  destruct (K_dec k k') as [E|N]; intros H.
  - left. congruence.
  - right. auto.
Qed.

Lemma get_None (k : K) (d : t) : get k d = None <-> ~ In k (keys d).
Proof.
  induction d as [|[k' v'] r IH]; simpl.
  - split; auto.
  - destruct (K_dec k k') as [E|N].
    + split; [discriminate | intros H; exfalso; apply H; auto].
    + rewrite IH. split; intros H; [intros [E|I]; congruence | auto].
Qed.

Lemma In_get_NoDup (k : K) (v : V) (d : t) :
  NoDup (keys d) -> In (k, v) d -> get k d = Some v.
Proof.
  induction d as [|[k' v'] r IH]; simpl; [contradiction|].
  intros Hnd [E|I].
  - inversion E; subst. now destruct (K_dec k k).
  - inversion Hnd as [|? ? Hni Hnd']; subst.
    destruct (K_dec k k') as [E|N]; auto.
    subst k'. exfalso. apply Hni.
    change k with (fst (k, v)). now apply in_map.
Qed.

Lemma keys_set_fresh (k : K) (v : V) (d : t) :
  ~ In k (keys d) -> set k v d = d ++ [(k, v)].
Proof.
  induction d as [|[k' v'] r IH]; simpl; intros H; auto.
  destruct (K_dec k k') as [E|N].
  - exfalso. auto.
  - f_equal. apply IH. intros I. auto.
Qed.

Lemma keys_set (k : K) (v : V) (d : t) :
  keys (set k v d) = if in_dec K_dec k (keys d) then keys d else keys d ++ [k].
Proof.
  induction d as [|[k' v'] r IH]; simpl; auto.
  destruct (K_dec k k') as [E|N]; simpl.
  - subst k'. destruct (K_dec k k) as [E|N]; [reflexivity|contradiction].
  - destruct (K_dec k' k) as [E|N']; [congruence|].
    rewrite IH. now destruct (in_dec K_dec k (keys r)).
Qed.

Lemma NoDup_keys_set (k : K) (v : V) (d : t) :
  NoDup (keys d) -> NoDup (keys (set k v d)).
Proof.
  intros H. rewrite keys_set.
  destruct (in_dec K_dec k (keys d)) as [I|N]; auto.
  apply NoDup_rev in H. rewrite <- (rev_involutive (keys d ++ [k])).
  apply NoDup_rev. rewrite rev_app_distr. simpl.
  constructor; auto. now rewrite <- in_rev.
Qed.

Lemma fold_set_NoDup (pairs : list (K * V)) (d : t) :
  NoDup (keys d) ->
  NoDup (keys (fold_left (fun d p => set (fst p) (snd p) d) pairs d)).
Proof.
  revert d. induction pairs as [|p r IH]; simpl; intros d H; auto.
  apply IH. now apply NoDup_keys_set.
Qed.

(** The keys of a dictionary built by [dict(...)] are distinct. *)
Lemma NoDup_keys_of_list (pairs : list (K * V)) :
  NoDup (keys (of_list pairs)).
Proof. apply fold_set_NoDup. constructor. Qed.

Lemma fold_set_fresh (pairs : list (K * V)) (d : t) :
  NoDup (keys d ++ map fst pairs) ->
  fold_left (fun d p => set (fst p) (snd p) d) pairs d = d ++ pairs.
Proof.
  revert d. induction pairs as [|[k v] r IH]; simpl; intros d H.
  - now rewrite app_nil_r.
  - rewrite keys_set_fresh.
    + rewrite IH.
      * now rewrite <- app_assoc.
      * unfold keys. rewrite map_app. simpl. now rewrite <- app_assoc.
    + apply NoDup_remove_2 in H. intros I. apply H.
      apply in_or_app. now left.
Qed.

(** Pairs with distinct keys are stored as they come. *)
Lemma of_list_NoDup (pairs : list (K * V)) :
  NoDup (map fst pairs) -> of_list pairs = pairs.
Proof. intros H. unfold of_list. now rewrite fold_set_fresh. Qed.

End Dict.
End PyDictFacts.

(* ================================================================== *)
(** * Facts about the error monad and the list helpers *)

Lemma bind_Return (A B : Type) (c : result A) (k : A -> result B) (y : B) :
  bind c k = Return y -> exists x, c = Return x /\ k x = Return y.
Proof.
  destruct c as [e|x]; simpl; intros H; [discriminate|].
  exists x. split; [reflexivity | exact H].
Qed.

(** Peel the outermost binding of a computation known to return. *)
Tactic Notation "bind_inv" hyp(H) "as" ident(x) ident(E) :=
  apply bind_Return in H; destruct H as [x [E H]].

Lemma assert_Return (b : bool) (u : unit) : assert b = Return u -> b = true.
Proof. destruct b; [reflexivity | discriminate]. Qed.

Lemma mapM_Forall2 (A B : Type) (f : A -> result B) (l : list A) (ys : list B) :
  mapM f l = Return ys -> Forall2 (fun x y => f x = Return y) l ys.
Proof.
  revert ys. induction l as [|a l IH]; simpl; intros ys H.
  - inversion H. constructor.
  - bind_inv H as y Hy. bind_inv H as ys' Hys. inversion H; subst.
    constructor; auto.
Qed.

Lemma Forall2_mapM (A B : Type) (f : A -> result B) (l : list A) (ys : list B) :
  Forall2 (fun x y => f x = Return y) l ys -> mapM f l = Return ys.
Proof.
  induction 1 as [|a y l ys Ha _ IH]; simpl; auto.
  now rewrite Ha, IH.
Qed.

Lemma mapM_length (A B : Type) (f : A -> result B) (l : list A) (ys : list B) :
  mapM f l = Return ys -> length ys = length l.
Proof.
  intros H. apply mapM_Forall2 in H. symmetry. eapply Forall2_length; eauto.
Qed.

Lemma mapM_total (A B : Type) (f : A -> result B) (l : list A) :
  Forall (fun x => exists y, f x = Return y) l ->
  exists ys, mapM f l = Return ys.
Proof.
  induction 1 as [|a l [y Hy] _ [ys IH]]; simpl.
  - now exists [].
  - exists (y :: ys). now rewrite Hy, IH.
Qed.

Lemma mapM_map (A B C : Type) (g : A -> B) (f : B -> result C) (l : list A) :
  mapM f (map g l) = mapM (fun x => f (g x)) l.
Proof.
  induction l as [|a l IH]; simpl; auto. now rewrite IH.
Qed.

Lemma zip_with_map (A B C D : Type) (f : B -> C -> D) (g : A -> B) (h : A -> C)
  (l : list A) :
  zip_with f (map g l) (map h l) = map (fun x => f (g x) (h x)) l.
Proof. induction l as [|a l IH]; simpl; auto. now rewrite IH. Qed.

Lemma select_map (A B : Type) (f : A -> B) (keep : list bool) (l : list A) :
  select keep (map f l) = map f (select keep l).
Proof.
  revert l. induction keep as [|b keep IH]; intros [|x l]; simpl; auto.
  destruct b; simpl; now rewrite IH.
Qed.

Lemma select_length (A : Type) (keep : list bool) (l : list A) :
  length keep = length l -> length (select keep l) = count_true keep.
Proof.
  unfold count_true.
  revert l. induction keep as [|b keep IH]; intros [|x l]; simpl; auto;
    try discriminate.
  intros H. injection H as H. destruct b; simpl; auto.
Qed.


(** [select] with the mask computed from the entries is [filter]. *)
Lemma select_filter (A : Type) (p : A -> bool) (l : list A) :
  select (map p l) l = filter p l.
Proof.
  induction l as [|x l IH]; simpl; auto. destruct (p x); now rewrite IH.
Qed.

Lemma select_In (A : Type) (keep : list bool) (l : list A) (x : A) :
  In x (select keep l) -> In x l.
Proof.
  revert l. induction keep as [|b keep IH]; intros [|y l]; simpl;
    try contradiction.
  destruct b; simpl; intros H; [destruct H|]; auto.
Qed.

Lemma select_Forall (A : Type) (P : A -> Prop) (keep : list bool) (l : list A) :
  Forall P l -> Forall P (select keep l).
Proof.
  intros H. apply Forall_forall. intros x Hx. apply select_In in Hx.
  rewrite Forall_forall in H. auto.
Qed.

Lemma select_Forall2 (A B : Type) (R : A -> B -> Prop) (keep : list bool)
  (l : list A) (m : list B) :
  Forall2 R l m -> Forall2 R (select keep l) (select keep m).
Proof.
  intros H. revert keep.
  induction H as [|x y l m Hxy _ IH]; intros keep.
  - destruct keep; constructor.
  - destruct keep as [|b keep]; simpl; [constructor|].
    destruct b; auto.
Qed.

Lemma group4_concat (A : Type) (els : list (list A)) :
  Forall (fun r => length r = 4%nat) els -> group4 (concat els) = els.
Proof.
  induction 1 as [|r els Hr _ IH]; simpl; auto.
  destruct r as [|a [|b [|c [|d [|e r]]]]]; try discriminate.
  simpl. now rewrite IH.
Qed.

Lemma group4_length_bound (A : Type) (n : nat) (l : list A) :
  (length l < n)%nat -> (4 * length (group4 l) <= length l < 4 * length (group4 l) + 4)%nat.
Proof.
  revert l. induction n as [|n IH]; intros l H; [lia|].
  destruct l as [|a [|b [|c [|d r]]]]; simpl in *; try lia.
  specialize (IH r). lia.
Qed.

Lemma group4_length (A : Type) (l : list A) :
  (length l mod 4 = 0)%nat -> (4 * length (group4 l) = length l)%nat.
Proof.
  intros H.
  pose proof (@group4_length_bound A (S (length l)) l (Nat.lt_succ_diag_r _)) as B.
  pose proof (Nat.div_mod_eq (length l) 4) as D.
  rewrite H in D. lia.
Qed.

Lemma concat_length_const (A : Type) (n : nat) (els : list (list A)) :
  Forall (fun r => length r = n) els ->
  length (concat els) = (length els * n)%nat.
Proof.
  induction 1 as [|r els Hr _ IH]; simpl; auto.
  rewrite length_app, IH, Hr. lia.
Qed.

Lemma length_flat_map_const (A B : Type) (f : A -> list B) (n : nat) (l : list A) :
  (forall x, length (f x) = n) -> length (flat_map f l) = (length l * n)%nat.
Proof.
  intros Hf. induction l as [|x l IH]; simpl; auto.
  rewrite length_app, IH, Hf. reflexivity.
Qed.

Lemma combine_seq_nth_error (A : Type) (l : list A) (s i : nat) :
  nth_error (combine (seq s (length l)) l) i
  = option_map (fun x => ((s + i)%nat, x)) (nth_error l i).
Proof.
  revert s i. induction l as [|x l IH]; intros s i; cbn [length seq combine].
  - now destruct i.
  - destruct i as [|i]; cbn [nth_error option_map].
    + now rewrite Nat.add_0_r.
    + rewrite IH. now rewrite Nat.add_succ_r.
Qed.

Lemma enumerate_nth_error (A : Type) (l : list A) (i : nat) :
  nth_error (enumerate l) i = option_map (fun x => (i, x)) (nth_error l i).
Proof. unfold enumerate. now rewrite combine_seq_nth_error. Qed.

Lemma enumerate_length (A : Type) (l : list A) :
  length (enumerate l) = length l.
Proof.
  unfold enumerate. rewrite length_combine, length_seq. apply Nat.min_id.
Qed.

Lemma enumerate_snd (A : Type) (l : list A) : map snd (enumerate l) = l.
Proof.
  unfold enumerate. generalize 0%nat.
  induction l as [|x l IH]; intros s; cbn; auto. now rewrite IH.
Qed.

Lemma enumerate_fst (A : Type) (l : list A) :
  map fst (enumerate l) = seq 0 (length l).
Proof.
  unfold enumerate. generalize 0%nat.
  induction l as [|x l IH]; intros s; cbn; auto. now rewrite IH.
Qed.

Lemma filter_subseq (A : Type) (p : A -> bool) (l : list A) :
  subseq (filter p l) l.
Proof.
  induction l as [|x l IH]; simpl; [constructor|].
  destruct (p x); now constructor.
Qed.

Lemma StronglySorted_filter (A : Type) (R : A -> A -> Prop) (p : A -> bool)
  (l : list A) :
  StronglySorted R l -> StronglySorted R (filter p l).
Proof.
  induction 1 as [|x l _ IH Hx]; simpl; [constructor|].
  destruct (p x); auto. constructor; auto.
  rewrite Forall_forall in *. intros y Hy. apply filter_In in Hy.
  apply Hx. tauto.
Qed.

(* ================================================================== *)
(** * The box of one annotation *)

Lemma SFadd_comm (prec emax : Z) (x y : spec_float) :
  SFadd prec emax x y = SFadd prec emax y x.
Proof.
  destruct x as [sx|sx| |sx mx ex], y as [sy|sy| |sy my ey]; simpl;
    try reflexivity; try (destruct sx, sy; reflexivity).
  rewrite (Z.min_comm ey ex). f_equal. apply Z.add_comm.
Qed.

Lemma box_row_4 (w h : Z) (X Y BW BH : F32.t) :
  box_row w h [X; Y; BW; BH] = clamped_box w h X Y BW BH.
Proof.
  unfold box_row, clamped_box, add_first_two, clamp_stride. simpl.
  unfold F32.add. now rewrite (SFadd_comm F32.prec F32.emax BW X),
    (SFadd_comm F32.prec F32.emax BH Y).
Qed.

Lemma valid_row_4 (a b c d : F32.t) :
  valid_row [a; b; c; d] = F32.gtb d b && F32.gtb c a.
Proof. reflexivity. Qed.

Lemma keep_mask_rows (boxes : tensor (list F32.t)) :
  keep_mask boxes = map valid_row (rows boxes).
Proof.
  unfold keep_mask, column. now rewrite !zip_with_map.
Qed.

Lemma keep_mask_length (boxes : tensor (list F32.t)) :
  length (keep_mask boxes) = length (rows boxes).
Proof. rewrite keep_mask_rows. apply length_map. Qed.

Lemma mapM_as_float32_4 (l : list pynum) (X Y BW BH : F32.t) :
  mapM as_float32 l = Return [X; Y; BW; BH] ->
  exists x y bw bh, l = [x; y; bw; bh] /\
    as_float32 x = Return X /\ as_float32 y = Return Y /\
    as_float32 bw = Return BW /\ as_float32 bh = Return BH.
Proof.
  intros H. apply mapM_Forall2 in H.
  inversion H as [|x ? l1 ? Hx H1]; subst.
  inversion H1 as [|y ? l2 ? Hy H2]; subst.
  inversion H2 as [|bw ? l3 ? Hbw H3]; subst.
  inversion H3 as [|bh ? l4 ? Hbh H4]; subst.
  inversion H4; subst.
  exists x, y, bw, bh. auto.
Qed.

Lemma clamp_bound_inv (z : Z) (f : F32.t) :
  clamp_bound z = Return f -> f = F32.of_Z z /\ - 2 ^ 63 <= z < 2 ^ 64.
Proof.
  unfold clamp_bound.
  destruct ((- 2 ^ 63 <=? z) && (z <? 2 ^ 64)) eqn:E; [|discriminate].
  intros H. inversion H. apply andb_true_iff in E. destruct E as [E1 E2].
  apply Z.leb_le in E1. apply Z.ltb_lt in E2. auto.
Qed.

Lemma clamp_bound_ok (z : Z) :
  - 2 ^ 63 <= z < 2 ^ 64 -> clamp_bound z = Return (F32.of_Z z).
Proof.
  intros [H1 H2]. unfold clamp_bound.
  apply Z.leb_le in H1. apply Z.ltb_lt in H2. now rewrite H1, H2.
Qed.

(** A run of [convert_boxes] that yields one row per annotation read
    every bbox as four numbers, and each row is the clamped box. *)
Lemma convert_boxes_inv (anno : list annotation) (w h : Z)
  (conv : tensor (list F32.t)) :
  convert_boxes anno w h = Return conv ->
  length (rows conv) = length anno ->
  dtype_of conv = float32 /\
  shape conv = [length anno; 4%nat] /\
  Forall2 (fun obj row => exists X Y BW BH,
             bbox_f32 obj X Y BW BH /\ row = clamped_box w h X Y BW BH)
    anno (rows conv).
Proof.
  unfold convert_boxes. intros H Hlen.
  bind_inv H as t0 Ht0. bind_inv H as t1 Ht1.
  bind_inv H as hw Hhw. bind_inv H as hh Hhh.
  apply clamp_bound_inv in Hhw, Hhh.
  destruct Hhw as [-> _], Hhh as [-> _].
  inversion H; subst conv; clear H.
  unfold map_rows in *. cbn [rows shape dtype_of] in *.
  rewrite !length_map in Hlen. rewrite !map_map.
  unfold reshape_4 in Ht1.
  destruct (length (concat (rows t0)) mod 4 =? 0)%nat eqn:Hmod;
    [|discriminate].
  apply Nat.eqb_eq in Hmod.
  inversion Ht1; subst t1; clear Ht1. cbn [rows shape dtype_of] in *.
  pose proof (group4_length _ Hmod) as Hg.
  unfold as_tensor_float32 in Ht0.
  destruct anno as [|a anno].
  - inversion Ht0; subst t0. repeat split; constructor.
  - cbn [map] in Ht0.
    destruct (forallb (fun r => (length r =? length (bbox a))%nat)
                (bbox a :: map bbox anno)) eqn:Hall; [|discriminate].
    bind_inv Ht0 as els Hels0. inversion Ht0; subst t0; clear Ht0.
    cbn [rows shape dtype_of] in *.
    change (bbox a :: map bbox anno) with (map bbox (a :: anno)) in *.
    pose proof (mapM_Forall2 _ _ Hels0) as HF.
    assert (Hels : Forall (fun r => length r = length (bbox a)) els).
    { rewrite forallb_forall in Hall.
      clear - HF Hall.
      remember (map bbox (a :: anno)) as data eqn:Hd. clear Hd.
      induction HF as [|r y data ys Hr _ IH]; constructor.
      - apply mapM_length in Hr. rewrite Hr.
        apply Nat.eqb_eq. apply Hall. now left.
      - apply IH. intros z Hz. apply Hall. now right. }
    assert (Hn : length els = length (a :: anno)).
    { apply mapM_length in Hels0. now rewrite length_map in Hels0. }
    rewrite (concat_length_const Hels) in Hg.
    assert (HL : length (bbox a) = 4%nat).
    { rewrite Hn, Hlen in Hg. cbn [length] in Hg. nia. }
    rewrite HL in Hels.
    rewrite (group4_concat Hels) in *.
    split; [reflexivity|]. split.
    { f_equal. rewrite (concat_length_const Hels), Hn.
      apply (Nat.div_mul (length (a :: anno)) 4). discriminate. }
    clear - HF Hels.
    remember (a :: anno) as l eqn:Hl. clear Hl.
    revert els HF Hels. induction l as [|obj l IH]; intros els HF Hels;
      inversion HF as [|? row ? els' Hrow Hrest]; subst; cbn [map];
      constructor.
    + inversion Hels as [|? ? H4 _]; subst.
      destruct row as [|X [|Y [|BW [|BH [|? ?]]]]]; try discriminate.
      exists X, Y, BW, BH. split.
      * unfold bbox_f32. now apply mapM_as_float32_4.
      * apply box_row_4.
    + apply IH; auto. now inversion Hels.
Qed.

Lemma clamped_rows_length (anno : list annotation) (w h : Z)
  (conv : tensor (list F32.t)) :
  convert_boxes anno w h = Return conv ->
  length (rows conv) = length anno ->
  Forall (fun row => length row = 4%nat) (rows conv).
Proof.
  intros Hconv Hlen.
  destruct (convert_boxes_inv _ _ _ Hconv Hlen) as [_ [_ HF]].
  clear - HF. induction HF as [|obj row l rs [X [Y [BW [BH [_ ->]]]]] _ IH];
    constructor; auto.
Qed.

(** A box that passes the keep mask has no NaN and lies in the image. *)
Lemma clamped_box_within (w h : Z) (X Y BW BH : F32.t) :
  0 < w -> 0 < h ->
  valid_row (clamped_box w h X Y BW BH) = true ->
  exists xmin ymin xmax ymax,
    clamped_box w h X Y BW BH = [xmin; ymin; xmax; ymax] /\
    within 0 w xmin /\ within 0 h ymin /\ within 0 w xmax /\ within 0 h ymax.
Proof.
  intros Hw Hh Hv. unfold clamped_box in *. rewrite valid_row_4 in Hv.
  apply andb_true_iff in Hv. destruct Hv as [Hy Hx].
  unfold F32.gtb, Float.gtb in Hy, Hx.
  apply SFltb_not_nan in Hy, Hx.
  destruct Hy as [Hy0 Hy1], Hx as [Hx0 Hx1].
  do 4 eexists. split; [reflexivity|].
  repeat split; apply clamp_within; assumption.
Qed.

Lemma as_float32_total (o : pynum) :
  float_ok o = true -> exists f, as_float32 o = Return f.
Proof.
  unfold as_float32, py_float, float_ok. destruct o as [z|d]; cbn.
  - destruct (Float.is_inf (F64.of_Z z)); [discriminate|].
    intros _. eexists. reflexivity.
  - intros _. eexists. reflexivity.
Qed.

Lemma convert_boxes_total (anno : list annotation) (w h : Z) :
  - 2 ^ 63 <= w < 2 ^ 64 -> - 2 ^ 63 <= h < 2 ^ 64 ->
  Forall (fun obj => length (bbox obj) = 4%nat /\
                     forallb float_ok (bbox obj) = true) anno ->
  exists conv, convert_boxes anno w h = Return conv /\
               length (rows conv) = length anno.
Proof.
  intros Hbw Hbh Hok.
  assert (Hels : exists els, mapM (mapM as_float32) (map bbox anno) = Return els).
  { apply mapM_total. rewrite Forall_map.
    eapply Forall_impl; [|exact Hok]. intros obj [_ Hf].
    apply mapM_total. rewrite forallb_forall in Hf.
    apply Forall_forall. intros o Ho. apply as_float32_total. auto. }
  destruct Hels as [els Hels].
  assert (H4 : Forall (fun r => length r = 4%nat) els).
  { apply mapM_Forall2 in Hels. clear - Hels Hok.
    remember (map bbox anno) as data eqn:Hd.
    revert anno Hok Hd.
    induction Hels as [|b r data els Hb _ IH]; intros anno Hok Hd;
      [constructor|].
    destruct anno as [|a anno]; [discriminate|]. cbn [map] in Hd.
    injection Hd as -> ->. inversion Hok as [|? ? [Ha _] Hrest]; subst.
    constructor.
    - apply mapM_length in Hb. now rewrite Hb.
    - eapply IH; eauto. }
  assert (Hn : length els = length anno).
  { apply mapM_length in Hels. now rewrite length_map in Hels. }
  unfold convert_boxes, as_tensor_float32.
  rewrite (clamp_bound_ok Hbw), (clamp_bound_ok Hbh).
  destruct anno as [|a anno].
  - cbn [map bind Return]. unfold reshape_4. cbn.
    eexists. split; reflexivity.
  - cbn [map] in *.
    assert (Hall : forallb (fun r => (length r =? length (bbox a))%nat)
                     (bbox a :: map bbox anno) = true).
    { change (bbox a :: map bbox anno) with (map bbox (a :: anno)).
      apply forallb_forall. intros r Hr. apply in_map_iff in Hr.
      destruct Hr as [obj [<- Hobj]]. rewrite Forall_forall in Hok.
      destruct (Hok obj Hobj) as [-> _].
      destruct (Hok a (or_introl eq_refl)) as [-> _]. reflexivity. }
    rewrite Hall, Hels. cbn [bind Return]. unfold reshape_4. cbn [rows].
    rewrite (concat_length_const H4), Nat.Div0.mod_mul. cbn [Nat.eqb bind].
    eexists. split; [reflexivity|].
    unfold map_rows. cbn [rows]. rewrite !length_map.
    now rewrite (group4_concat H4).
Qed.

(* ================================================================== *)
(** * Facts about the tensor constructors *)


Lemma tensor_infer_int (z : Z) (t : tensor scalar) :
  tensor_infer [PyInt z] = Return t -> t = Tensor int64 [1%nat] [SInt z].
Proof.
  unfold tensor_infer. cbn [forallb is_int andb mapM].
  destruct (fits_int64 z); cbn; intros H; now inversion H.
Qed.

Lemma tensor_int64_inv (l : list Z) (t : tensor Z) :
  tensor_int64 l = Return t ->
  t = Tensor int64 [length l] l /\ forallb fits_int64 l = true.
Proof.
  unfold tensor_int64. destruct (forallb fits_int64 l); intros H;
    inversion H; auto.
Qed.

Lemma tensor_infer_total (l : list pynum) :
  numbers_ok l = true -> exists t, tensor_infer l = Return t.
Proof.
  unfold numbers_ok, tensor_infer. destruct l as [|o l].
  - intros _. eexists. reflexivity.
  - destruct (forallb is_int (o :: l)) eqn:Hint; intros Hok.
    + assert (Hm : exists els,
                 mapM (fun o => match o with
                                | PyInt z => if fits_int64 z then Return (SInt z)
                                             else Raise ValueError
                                | PyFloat _ => Raise TypeError
                                end) (o :: l) = Return els).
      { rewrite forallb_forall in Hok, Hint.
        apply mapM_total. apply Forall_forall. intros x Hx.
        specialize (Hok x Hx). specialize (Hint x Hx).
        destruct x as [z|d]; [|discriminate].
        rewrite Hok. eexists. reflexivity. }
      destruct Hm as [els Hm]. rewrite Hm. eexists. reflexivity.
    + assert (Hm : exists els,
                 mapM (fun o => f <- as_float32 o ;; Return (SFloat f)) (o :: l)
                 = Return els).
      { apply mapM_total. rewrite forallb_forall in Hok.
        apply Forall_forall. intros x Hx.
        destruct (as_float32_total x (Hok x Hx)) as [f Hf].
        rewrite Hf. eexists. reflexivity. }
      destruct Hm as [els Hm]. rewrite Hm. eexists. reflexivity.
Qed.

Lemma iscrowd_numbers_ok (coco_targets : list annotation) :
  numbers_ok (map (fun obj => PyInt (iscrowd obj)) (non_crowd coco_targets))
  = true.
Proof.
  unfold numbers_ok.
  assert (Hint : forallb is_int
            (map (fun obj => PyInt (iscrowd obj)) (non_crowd coco_targets))
          = true).
  { apply forallb_forall. intros o Ho. apply in_map_iff in Ho.
    destruct Ho as [obj [<- _]]. reflexivity. }
  rewrite Hint. apply forallb_forall. intros o Ho. apply in_map_iff in Ho.
  destruct Ho as [obj [<- Hobj]]. unfold non_crowd in Hobj.
  apply filter_In in Hobj. destruct Hobj as [_ H0].
  apply Z.eqb_eq in H0. now rewrite H0.
Qed.

Lemma index_mask_inv (R : Type) (t u : tensor R) (keep : list bool) :
  index_mask t keep = Return u ->
  exists rest, shape t = length keep :: rest /\
    u = Tensor (dtype_of t) (count_true keep :: rest) (select keep (rows t)).
Proof.
  unfold index_mask. destruct (shape t) as [|n rest]; [discriminate|].
  destruct (length keep =? n)%nat eqn:E; [|discriminate].
  apply Nat.eqb_eq in E. intros H. inversion H; subst. now exists rest.
Qed.

Lemma zeros_0_inv (rest : list nat) (dt : dtype) (t : tensor (list Z)) :
  zeros_0 rest dt = Return t ->
  t = Tensor dt (0%nat :: rest) [] /\
  Forall (fun n => Z.of_nat n < 2 ^ 63) rest.
Proof.
  unfold zeros_0.
  destruct (forallb (fun n => Z.of_nat n <? 2 ^ 63) rest) eqn:E; [|discriminate].
  destruct (stride_0 rest <? 2 ^ 63); [|discriminate].
  intros H. inversion H. split; [reflexivity|].
  apply Forall_forall. intros n Hn. rewrite forallb_forall in E.
  apply Z.ltb_lt. now apply E.
Qed.

Lemma zeros_0_ok (height width : nat) (dt : dtype) :
  Z.of_nat height < 2 ^ 63 -> Z.of_nat width < 2 ^ 63 ->
  Z.of_nat height * Z.of_nat width < 2 ^ 63 ->
  zeros_0 [height; width] dt
  = Return (Tensor dt [0%nat; height; width] []).
Proof.
  intros Hh Hw Hhw. unfold zeros_0, stride_0. cbn [forallb fold_right].
  apply Z.ltb_lt in Hh as Eh. apply Z.ltb_lt in Hw as Ew.
  rewrite Eh, Ew. cbn [andb].
  assert (Hs : Z.max (Z.of_nat height) 1 * (Z.max (Z.of_nat width) 1 * 1)
               < 2 ^ 63) by nia.
  apply Z.ltb_lt in Hs. now rewrite Hs.
Qed.

Lemma any_dim2_3d (dt : dtype) (a b n : nat) (data : list Z) :
  exists m, any_dim2 (Array dt [a; b; n] data) = Return m /\
    a_dtype m = dt /\ a_shape m = [a; b] /\ length (a_data m) = (a * b)%nat.
Proof.
  unfold any_dim2. cbn [a_shape a_dtype a_data].
  eexists. split; [reflexivity|]. cbn [a_shape a_dtype a_data].
  repeat split.
  rewrite length_flat_map_const with (n := 1%nat).
  - rewrite length_seq. lia.
  - intros x. now rewrite length_map, length_seq.
Qed.

(* ================================================================== *)
(** * Runs of [convert_coco_poly_mask] and [parse_targets] *)

Section RasterizerFacts.

Variable RLEs : Type.
Variable frPyObjects : seg_value -> nat -> nat -> result RLEs.
Variable decode : RLEs -> result array.

Local Abbreviation convert_one := (convert_one frPyObjects decode).
Local Abbreviation convert_coco_poly_mask :=
  (convert_coco_poly_mask frPyObjects decode).

Lemma convert_one_ok (polygons : seg_value) (height width : nat) :
  rasterizes frPyObjects decode polygons height width ->
  exists m, convert_one polygons height width = Return m /\
            mask_of height width m.
Proof.
  intros (rles & mask & Hf & Hd & Hs). unfold convert_one, mask_of.
  rewrite Hf. cbn [bind Return]. rewrite Hd. cbn [bind Return].
  destruct mask as [dt sh data]. cbn [a_shape] in *.
  destruct Hs as [Hs|[n Hs]]; subst sh; cbn [length Nat.ltb Nat.leb];
    unfold as_tensor_uint8, expand_last; cbn [a_shape a_dtype a_data app];
    apply any_dim2_3d.
Qed.

Lemma convert_all_ok (segmentations : list seg_value) (height width : nat) :
  Forall (fun polygons => rasterizes frPyObjects decode polygons height width)
    segmentations ->
  exists ms,
    mapM (fun polygons => convert_one polygons height width) segmentations
      = Return ms /\
    Forall (mask_of height width) ms.
Proof.
  induction 1 as [|p l Hp _ [ms [IH HF]]]; cbn [mapM].
  - exists []. split; [reflexivity | constructor].
  - destruct (convert_one_ok Hp) as [m [Hm Hok]].
    exists (m :: ms). rewrite Hm, IH. split; [reflexivity|].
    now constructor.
Qed.

Lemma stack_masks (height width : nat) (ms : list array) :
  ms <> [] -> Forall (mask_of height width) ms ->
  stack ms = Return (Tensor uint8 [length ms; height; width] (map a_data ms)).
Proof.
  intros Hne HF. unfold stack. destruct ms as [|m ms']; [contradiction|].
  assert (Hall : forallb (fun x => shape_eqb (a_shape x) (a_shape m))
                   (m :: ms') = true).
  { apply forallb_forall. intros x Hx.
    rewrite Forall_forall in HF.
    destruct (HF x Hx) as [_ [Sx _]], (HF m (or_introl eq_refl)) as [_ [Sm _]].
    unfold shape_eqb. rewrite Sx, Sm.
    now destruct (list_eq_dec Nat.eq_dec [height; width] [height; width]). }
  rewrite Hall. inversion HF as [|? ? [Dm [Sm _]] _]; subst.
  now rewrite Dm, Sm.
Qed.

(** What a run of [convert_coco_poly_mask] that returns has computed. *)
Lemma convert_masks_inv (segmentations : list seg_value)
  (height width : nat) (t : tensor (list Z)) :
  convert_coco_poly_mask segmentations height width = Return t ->
  exists ms rest,
    mapM (fun polygons => convert_one polygons height width) segmentations
      = Return ms /\
    shape t = length segmentations :: rest /\
    rows t = map a_data ms.
Proof.
  unfold convert_coco_poly_mask. intros H. bind_inv H as ms Hms.
  pose proof (mapM_length _ _ Hms) as Hlen.
  exists ms. destruct ms as [|m ms'].
  - apply zeros_0_inv in H. destruct H as [-> _]. exists [height; width].
    cbn [shape rows map]. rewrite <- Hlen. auto.
  - unfold stack in H.
    destruct (forallb _ (m :: ms')); [|discriminate].
    inversion H; subst t. exists (a_shape m).
    cbn [shape rows]. rewrite <- Hlen. auto.
Qed.

End RasterizerFacts.

Lemma getitem_Return (V : Type) (d : PyDict.t string V) (k : string) (v : V) :
  getitem d k = Return v <-> PyDict.get string_dec k d = Some v.
Proof.
  unfold getitem. destruct (PyDict.get string_dec k d); split; intros H;
    inversion H; reflexivity.
Qed.

Lemma labels_of_total (self : CocoDetection) (anno : list annotation) :
  forallb (annotation_ok self) anno = true ->
  exists cls, labels_of self anno = Return cls /\
              forallb fits_int64 cls = true.
Proof.
  unfold labels_of.
  induction anno as [|obj anno IH]; cbn [forallb mapM]; intros H.
  - exists []. auto.
  - apply andb_true_iff in H. destruct H as [Hobj Hrest].
    destruct (IH Hrest) as [cls [Hcls Hfit]].
    unfold annotation_ok in Hobj. apply andb_true_iff in Hobj.
    destruct Hobj as [_ Hget]. unfold getitem at 1.
    destruct (PyDict.get string_dec (str (category_id obj)) (coco91to80 self))
      as [v|]; [|discriminate].
    exists (v :: cls). rewrite Hcls. cbn. now rewrite Hget, Hfit.
Qed.

Lemma annotation_ok_bbox (self : CocoDetection) (anno : list annotation) :
  forallb (annotation_ok self) anno = true ->
  Forall (fun obj => length (bbox obj) = 4%nat /\
                     forallb float_ok (bbox obj) = true) anno.
Proof.
  rewrite forallb_forall. intros H. apply Forall_forall. intros obj Hobj.
  specialize (H obj Hobj). unfold annotation_ok in H.
  apply andb_true_iff in H. destruct H as [H _].
  apply andb_true_iff in H. destruct H as [H4 Hf].
  split; [now apply Nat.eqb_eq | assumption].
Qed.

Section ParseFacts.

Variable RLEs : Type.
Variable frPyObjects : seg_value -> nat -> nat -> result RLEs.
Variable decode : RLEs -> result array.

Local Abbreviation parse := (parse_targets frPyObjects decode).
Local Abbreviation convert_masks := (convert_coco_poly_mask frPyObjects decode).

Lemma parse_targets_inv (self : CocoDetection) (img_id : Z)
  (coco_targets : list annotation) (w h : option Z) (t : target) :
  parse self img_id coco_targets w h = Return t ->
  let anno := non_crowd coco_targets in
  exists wz hz conv cls msk area_t iscrowd_t,
    w = Some wz /\ 0 < wz /\ h = Some hz /\ 0 < hz /\
    convert_boxes anno wz hz = Return conv /\
    length (rows conv) = length anno /\
    labels_of self anno = Return cls /\
    forallb fits_int64 cls = true /\
    convert_masks (map segmentation anno) (Z.to_nat hz) (Z.to_nat wz) = Return msk /\
    tensor_infer (map area anno) = Return area_t /\
    tensor_infer (map (fun obj => PyInt (iscrowd obj)) anno) = Return iscrowd_t /\
    fits_int64 img_id = true /\
    t = target_of conv cls msk (Tensor int64 [1%nat] [SInt img_id])
          area_t iscrowd_t.
Proof.
  intros H anno. unfold parse_targets in H. fold anno in H.
  bind_inv H as wz Hw. bind_inv H as hz Hh.
  bind_inv H as conv Hconv. bind_inv H as cls Hcls.
  bind_inv H as clt Hclt. bind_inv H as msk Hmsk.
  bind_inv H as boxes' Hb. bind_inv H as classes' Hc.
  bind_inv H as masks' Hm. bind_inv H as image_id Hid.
  bind_inv H as area_t Ha. bind_inv H as iscrowd_t Hi.
  inversion H; subst t; clear H.
  assert (Hpos : forall x z, assert_gt_0 x = Return z -> x = Some z /\ 0 < z).
  { intros [x|] z; cbn; [|discriminate].
    destruct (0 <? x) eqn:E; cbn; [|discriminate].
    intros Hx. inversion Hx; subst. split; auto. now apply Z.ltb_lt. }
  destruct (Hpos _ _ Hw) as [-> Hwz], (Hpos _ _ Hh) as [-> Hhz].
  apply tensor_int64_inv in Hclt. destruct Hclt as [-> Hfit].
  apply index_mask_inv in Hb, Hc, Hm.
  destruct Hb as [rb [Sb ->]], Hc as [rc [Sc ->]], Hm as [rm [Sm ->]].
  cbn [shape] in Sc. injection Sc as Hlen Hrc. subst rc.
  assert (Hrows : length (rows conv) = length anno).
  { rewrite <- keep_mask_length. rewrite <- Hlen.
    unfold labels_of in *. now apply mapM_length in Hcls. }
  destruct (convert_boxes_inv _ _ _ Hconv Hrows) as [Dconv [Sconv _]].
  rewrite Sconv in Sb. injection Sb as _ Hrb. subst rb.
  assert (Hfid : fits_int64 img_id = true).
  { unfold tensor_infer in Hid. cbn [forallb is_int andb mapM] in Hid.
    destruct (fits_int64 img_id); [reflexivity | discriminate]. }
  apply tensor_infer_int in Hid. subst image_id.
  exists wz, hz, conv, cls, msk, area_t, iscrowd_t.
  repeat (split; [assumption || reflexivity|]).
  unfold target_of. rewrite Dconv, Sm. reflexivity.
Qed.

End ParseFacts.

Section ParseRuns.

Variable RLEs : Type.
Variable frPyObjects : seg_value -> nat -> nat -> result RLEs.
Variable decode : RLEs -> result array.

Local Abbreviation parse := (parse_targets frPyObjects decode).
Local Abbreviation convert_masks := (convert_coco_poly_mask frPyObjects decode).
Local Abbreviation convert_one := (convert_one frPyObjects decode).

Lemma convert_masks_total (segmentations : list seg_value)
  (height width : nat) :
  Z.of_nat height < 2 ^ 63 -> Z.of_nat width < 2 ^ 63 ->
  Z.of_nat height * Z.of_nat width < 2 ^ 63 ->
  Forall (fun polygons => rasterizes frPyObjects decode polygons height width)
    segmentations ->
  exists ms,
    mapM (fun polygons => convert_one polygons height width) segmentations
      = Return ms /\
    Forall (mask_of height width) ms /\
    convert_masks segmentations height width
      = Return (Tensor uint8 [length segmentations; height; width]
                  (map a_data ms)).
Proof.
  intros Hbh Hbw Hbhw Hc.
  destruct (convert_all_ok Hc) as [ms [Hms HF]].
  exists ms. repeat split; auto.
  unfold convert_coco_poly_mask. rewrite Hms. cbn [bind Return].
  pose proof (mapM_length _ _ Hms) as Hlen.
  destruct ms as [|m ms'].
  - destruct segmentations; [|discriminate]. now apply zeros_0_ok.
  - rewrite (@stack_masks height width (m :: ms')); auto; [|discriminate].
    now rewrite Hlen.
Qed.

(** The run of [parse_targets] from the results of its steps. *)
Lemma parse_targets_run (self : CocoDetection) (img_id : Z)
  (coco_targets : list annotation) (wz hz : Z)
  (conv : tensor (list F32.t)) (cls : list Z) (msk : tensor (list Z))
  (area_t iscrowd_t : tensor scalar) :
  let anno := non_crowd coco_targets in
  0 < wz -> 0 < hz ->
  convert_boxes anno wz hz = Return conv ->
  length (rows conv) = length anno ->
  labels_of self anno = Return cls ->
  forallb fits_int64 cls = true ->
  convert_masks (map segmentation anno) (Z.to_nat hz) (Z.to_nat wz) = Return msk ->
  tensor_infer (map area anno) = Return area_t ->
  tensor_infer (map (fun obj => PyInt (iscrowd obj)) anno) = Return iscrowd_t ->
  fits_int64 img_id = true ->
  parse self img_id coco_targets (Some wz) (Some hz)
  = Return (target_of conv cls msk (Tensor int64 [1%nat] [SInt img_id])
              area_t iscrowd_t).
Proof.
  intros anno Hw Hh Hconv Hrows Hcls Hfit Hmsk Ha Hi Hid.
  unfold parse_targets. fold anno.
  unfold assert_gt_0.
  apply Z.ltb_lt in Hw, Hh. rewrite Hw, Hh. cbn [assert bind Return].
  rewrite Hconv. cbn [bind Return]. unfold labels_of in Hcls. rewrite Hcls.
  cbn [bind Return]. unfold tensor_int64. rewrite Hfit. cbn [bind Return].
  rewrite Hmsk. cbn [bind Return].
  destruct (convert_boxes_inv _ _ _ Hconv Hrows) as [Dconv [Sconv _]].
  destruct (convert_masks_inv _ _ _ _ _ Hmsk) as [ms [rest [Hms [Smsk Rmsk]]]].
  rewrite length_map in Smsk.
  pose proof (keep_mask_length conv) as Hk. rewrite Hrows in Hk.
  pose proof (mapM_length _ _ Hcls) as Hlc.
  unfold index_mask. rewrite Sconv, Smsk. cbn [shape].
  rewrite Hlc, Hk, Nat.eqb_refl. cbn [bind Return dtype_of rows].
  unfold tensor_infer at 1. cbn [forallb is_int andb mapM].
  rewrite Hid. cbn [bind Return length].
  rewrite Ha, Hi. cbn [bind Return].
  unfold target_of. rewrite Dconv, Smsk. reflexivity.
Qed.

(** [parse_targets] returns on well-formed annotations the toolkit
    rasterizes, for an image of fewer than [2^63] pixels. *)
Lemma parse_targets_total (self : CocoDetection) (img_id : Z)
  (coco_targets : list annotation) (w h : Z) :
  let anno := non_crowd coco_targets in
  targets_ok self img_id coco_targets = true ->
  Forall (fun obj => rasterizes frPyObjects decode (segmentation obj)
                       (Z.to_nat h) (Z.to_nat w)) anno ->
  0 < w -> 0 < h -> w * h < 2 ^ 63 ->
  exists conv cls ms area_t iscrowd_t,
    convert_boxes anno w h = Return conv /\
    length (rows conv) = length anno /\
    labels_of self anno = Return cls /\
    mapM (fun polygons => convert_one polygons (Z.to_nat h) (Z.to_nat w))
      (map segmentation anno) = Return ms /\
    Forall (mask_of (Z.to_nat h) (Z.to_nat w)) ms /\
    parse self img_id coco_targets (Some w) (Some h)
    = Return (target_of conv cls
                (Tensor uint8 [length (map segmentation anno);
                               Z.to_nat h; Z.to_nat w] (map a_data ms))
                (Tensor int64 [1%nat] [SInt img_id]) area_t iscrowd_t).
Proof.
  intros anno Hok Hras Hw Hh Hwh. unfold targets_ok in Hok.
  apply andb_true_iff in Hok. destruct Hok as [Hok Harea].
  apply andb_true_iff in Hok. destruct Hok as [Hid Hann].
  fold anno in Hann, Harea.
  assert (Hbw : - 2 ^ 63 <= w < 2 ^ 64) by nia.
  assert (Hbh : - 2 ^ 63 <= h < 2 ^ 64) by nia.
  destruct (convert_boxes_total Hbw Hbh (annotation_ok_bbox _ _ Hann))
    as [conv [Hconv Hrows]].
  destruct (labels_of_total _ _ Hann) as [cls [Hcls Hfit]].
  assert (Hnh : Z.of_nat (Z.to_nat h) < 2 ^ 63) by (rewrite Z2Nat.id; nia).
  assert (Hnw : Z.of_nat (Z.to_nat w) < 2 ^ 63) by (rewrite Z2Nat.id; nia).
  assert (Hnhw : Z.of_nat (Z.to_nat h) * Z.of_nat (Z.to_nat w) < 2 ^ 63)
    by (rewrite !Z2Nat.id; nia).
  assert (Hsegs : Forall (fun polygons =>
                    rasterizes frPyObjects decode polygons
                      (Z.to_nat h) (Z.to_nat w)) (map segmentation anno))
    by (now apply Forall_map).
  destruct (convert_masks_total Hnh Hnw Hnhw Hsegs) as [ms [Hms [HF Hmsk]]].
  destruct (tensor_infer_total _ Harea) as [area_t Ha].
  destruct (tensor_infer_total _ (iscrowd_numbers_ok coco_targets))
    as [iscrowd_t Hi].
  exists conv, cls, ms, area_t, iscrowd_t.
  repeat (split; [assumption|]).
  now apply parse_targets_run.
Qed.

End ParseRuns.

Lemma Blank_rasterizes (p : list pynum) (ps : list (list pynum)) (h w : nat) :
  rasterizes Blank.frPyObjects Blank.decode (Polygons (p :: ps)) h w.
Proof.
  exists (h, w, Some (length (p :: ps))). eexists.
  split; [reflexivity|]. split; [reflexivity|].
  right. eexists. reflexivity.
Qed.

(** The entries of the target dictionary. *)
Lemma target_of_entries (conv : tensor (list F32.t)) (cls : list Z)
  (msk : tensor (list Z)) (image_id area_t iscrowd_t : tensor scalar) :
  let t := target_of conv cls msk image_id area_t iscrowd_t in
  let keep := keep_mask conv in
  let n := count_true keep in
  PyDict.keys t = ["boxes"; "labels"; "masks"; "image_id"; "area"; "iscrowd"] /\
  PyDict.get string_dec "boxes" t
    = Some (VBoxes (Tensor float32 [n; 4%nat] (select keep (rows conv)))) /\
  PyDict.get string_dec "labels" t
    = Some (VInts (Tensor int64 [n] (select keep cls))) /\
  PyDict.get string_dec "masks" t
    = Some (VMasks (Tensor (dtype_of msk) (n :: tl (shape msk))
                      (select keep (rows msk)))) /\
  PyDict.get string_dec "image_id" t = Some (VScalars image_id) /\
  PyDict.get string_dec "area" t = Some (VScalars area_t) /\
  PyDict.get string_dec "iscrowd" t = Some (VScalars iscrowd_t).
Proof. repeat split. Qed.

(* ================================================================== *)
(** * The filter of images and the list of ids *)

Lemma remove_loop_fold (dataset : COCO) (ids valid_ids fetched : list Z) :
  fold_left (remove_step dataset) ids (valid_ids, fetched)
  = (valid_ids ++ filter (has_valid dataset) ids, fetched ++ ids).
Proof.
  revert valid_ids fetched.
  induction ids as [|img_id ids IH]; intros valid_ids fetched;
    cbn [fold_left filter].
  - now rewrite !app_nil_r.
  - change (remove_step dataset (valid_ids, fetched) img_id)
      with (if has_valid dataset img_id then valid_ids ++ [img_id]
            else valid_ids, fetched ++ [img_id]).
    rewrite IH.
    destruct (has_valid dataset img_id); now rewrite <- !app_assoc.
Qed.

Lemma remove_loop_filter (dataset : COCO) (ids : list Z) :
  remove_loop dataset ids = (filter (has_valid dataset) ids, ids).
Proof. unfold remove_loop. now rewrite remove_loop_fold. Qed.

Lemma remove_images_filter (dataset : COCO) (ids : list Z) :
  _coco_remove_images_without_annotations dataset ids
  = filter (has_valid dataset) ids.
Proof.
  unfold _coco_remove_images_without_annotations.
  now rewrite remove_loop_filter.
Qed.

Lemma has_valid_annotation_iff (anno : list annotation) :
  _has_valid_annotation anno = true <->
  anno <> [] /\ exists obj, In obj anno /\ box_not_empty obj.
Proof.
  unfold _has_valid_annotation, _has_only_empty_bbox, box_not_empty.
  destruct anno as [|a anno]; cbn [length Nat.eqb].
  - split; [discriminate | intros [H _]; contradiction].
  - remember (a :: anno) as l eqn:Hl.
    destruct (forallb _ l) eqn:Hall; split; intros H; try discriminate.
    + exfalso. destruct H as [_ [obj [Hin Hbox]]].
      rewrite forallb_forall in Hall. specialize (Hall obj Hin).
      apply existsb_exists in Hall. destruct Hall as [o [Ho Hle]].
      rewrite (Hbox o Ho) in Hle. discriminate.
    + split; [subst l; discriminate|].
      clear Hl H. induction l as [|obj l IH]; [discriminate|].
      cbn [forallb] in Hall. apply andb_false_iff in Hall.
      destruct Hall as [Hobj|Hrest].
      * exists obj. split; [now left|]. intros o Ho.
        destruct (py_le o 1) eqn:E; auto.
        assert (existsb (fun o => py_le o 1) (skipn 2 (bbox obj)) = true)
          by (apply existsb_exists; eauto).
        congruence.
      * destruct (IH Hrest) as [obj' [Hin Hbox]].
        exists obj'. split; [now right | assumption].
    + reflexivity.
Qed.

(** Apart from NaN, "not [<= 1]" is "[> 1]". *)
Lemma py_le_gt (o : pynum) :
  py_is_nan o = false -> (py_le o 1 = false <-> py_gt o 1 = true).
Proof.
  destruct o as [z|d]; cbn [py_is_nan py_le py_gt].
  - intros _. rewrite Z.leb_gt, Z.ltb_lt. reflexivity.
  - intros Hd. unfold F64.leb, F64.ltb, SFleb, SFltb.
    rewrite (SFcompare_antisym d (F64.of_Z 1)).
    destruct (SFcompare d (F64.of_Z 1)) as [[ | | ]|] eqn:Hc; cbn;
      try (split; [discriminate | discriminate]); try tauto.
    apply SFcompare_None in Hc. destruct Hc as [Hc|Hc]; [congruence|].
    discriminate Hc.
Qed.

Lemma box_not_empty_4 (obj : annotation) (x y bw bh : pynum) :
  bbox obj = [x; y; bw; bh] ->
  py_is_nan bw = false -> py_is_nan bh = false ->
  (box_not_empty obj <-> py_gt bw 1 = true /\ py_gt bh 1 = true).
Proof.
  intros Hb Hw Hh. unfold box_not_empty. rewrite Hb. cbn [skipn].
  rewrite <- (py_le_gt bw Hw), <- (py_le_gt bh Hh). split.
  - intros H. split; apply H; simpl; auto.
  - intros [H1 H2] o [<-|[<-|[]]]; assumption.
Qed.

Lemma sorted_StronglySorted (l : list Z) : StronglySorted Z.le (sorted l).
Proof.
  unfold sorted.
  pose proof (ZSort.StronglySorted_sort l ZLeBool.leb_trans) as H.
  induction H as [|x m _ IH Hx]; constructor; auto.
  eapply Forall_impl; [|exact Hx]. intros y Hy. now apply ZLeBool.leb_le.
Qed.

Lemma sorted_Permutation (l : list Z) : Permutation (sorted l) l.
Proof. symmetry. apply ZSort.Permuted_sort. Qed.

Lemma init_inv (env : world) (root dataset years : string)
  (self : CocoDetection) (files : list (string * json_doc)) :
  __init__ env root dataset years = Return (self, files) ->
  let all_ids := sorted (PyDict.keys (imgs (coco self))) in
  mode self = dataset /\
  ((dataset = "train" /\
    coco91to80 self = coco91to80_of (coco_classes_of (coco self)) /\
    ids self = _coco_remove_images_without_annotations (coco self) all_ids)
   \/
   (dataset = "val" /\
    json_load env "coco91_to_80.json" = Return (coco91to80 self) /\
    ids self = all_ids)).
Proof.
  unfold __init__. intros H.
  bind_inv H as u1 H1. apply assert_Return in H1.
  bind_inv H as u2 H2. bind_inv H as u3 H3. bind_inv H as u4 H4.
  bind_inv H as c Hc.
  bind_inv H as r Hr. inversion H; subst self files; clear H.
  cbn [mode coco coco91to80 ids].
  split; [reflexivity|].
  destruct (dataset =? "train")%string eqn:Et.
  - left. apply String.eqb_eq in Et.
    bind_inv Hr as o1 Ho1. bind_inv Hr as o2 Ho2.
    inversion Hr; subst r. auto.
  - right. cbn [orb] in H1. apply String.eqb_eq in H1.
    bind_inv Hr as u5 H5. bind_inv Hr as d Hd. inversion Hr; subst r. auto.
Qed.

(* ================================================================== *)
(** * The category remap *)

Lemma remap_pairs_keys (coco_classes : PyDict.t Z string) :
  map fst (remap_pairs coco_classes) = map str (PyDict.keys coco_classes).
Proof.
  unfold remap_pairs, PyDict.keys, PyDict.items.
  rewrite map_map. cbn [fst].
  rewrite <- (enumerate_snd coco_classes) at 2. now rewrite !map_map.
Qed.

Lemma remap_pairs_values (coco_classes : PyDict.t Z string) :
  map snd (remap_pairs coco_classes)
  = map (fun i => Z.of_nat i + 1) (seq 0 (length coco_classes)).
Proof.
  unfold remap_pairs, PyDict.items. rewrite map_map. cbn [snd].
  rewrite <- enumerate_fst. now rewrite map_map.
Qed.

Lemma NoDup_map_str (l : list Z) : NoDup l -> NoDup (map str l).
Proof.
  induction 1 as [|x l Hx _ IH]; cbn; constructor; auto.
  intros Hin. apply in_map_iff in Hin. destruct Hin as [y [Hy Hin]].
  apply str_inj in Hy. now subst y.
Qed.

Lemma coco91to80_of_pairs (c : COCO) :
  coco91to80_of (coco_classes_of c) = remap_pairs (coco_classes_of c) /\
  NoDup (map fst (remap_pairs (coco_classes_of c))).
Proof.
  assert (Hnd : NoDup (map fst (remap_pairs (coco_classes_of c)))).
  { rewrite remap_pairs_keys. apply NoDup_map_str.
    unfold coco_classes_of. apply PyDictFacts.NoDup_keys_of_list. }
  split; [|exact Hnd].
  unfold coco91to80_of. fold (remap_pairs (coco_classes_of c)).
  now apply PyDictFacts.of_list_NoDup.
Qed.

Lemma remap_pairs_nth (coco_classes : PyDict.t Z string) (i : nat) (k : Z) :
  nth_error (PyDict.keys coco_classes) i = Some k ->
  nth_error (remap_pairs coco_classes) i = Some (str k, Z.of_nat i + 1).
Proof.
  unfold remap_pairs, PyDict.keys, PyDict.items. intros H.
  rewrite nth_error_map in *. rewrite enumerate_nth_error.
  destruct (nth_error coco_classes i) as [[k' v]|]; [|discriminate].
  cbn in *. now inversion H.
Qed.

Lemma remap_pairs_In (coco_classes : PyDict.t Z string) (s : string) (v : Z) :
  In (s, v) (remap_pairs coco_classes) ->
  exists i k, nth_error (PyDict.keys coco_classes) i = Some k /\
              s = str k /\ v = Z.of_nat i + 1.
Proof.
  intros H. apply In_nth_error in H. destruct H as [i Hi].
  unfold remap_pairs, PyDict.keys, PyDict.items in *.
  rewrite nth_error_map, enumerate_nth_error in Hi.
  destruct (nth_error coco_classes i) as [[k x]|] eqn:E; [|discriminate].
  cbn in Hi. inversion Hi; subst. exists i, k.
  rewrite nth_error_map, E. auto.
Qed.

(* ================================================================== *)
(** * The claims *)

(** C1, as stated, fails: with a remap that lacks category 18, as a stale
    [coco91_to_80.json] gives in mode "val", the call raises a [KeyError]
    although [w] and [h] are positive. *)
Lemma parse_targets_unknown_category :
  0 < 4 /\
  Blank.parse stale_self 1 (sample_anns 1) (Some 4) (Some 4)
  = Raise (KeyError "18").
Proof. split; reflexivity. Qed.

(** C1, amended. For an image id within int64, annotations whose non-crowd
    entries have a bbox of four numbers, a category id that is a key of
    [coco91to80], an area [torch.tensor] accepts and a segmentation the
    toolkit rasterizes to an array of shape [(h, w)] or [(h, w, n)], and
    [w > 0], [h > 0] with [w * h < 2^63], [parse_targets] returns a
    dictionary with exactly the keys "boxes", "labels", "masks",
    "image_id", "area" and "iscrowd": "boxes" is a float32 tensor of shape
    [(N, 4)], "labels" an int64 tensor of shape [(N,)], "masks" a tensor of
    shape [(N, h, w)] and "image_id" the one-element tensor holding the
    image id. *)
Theorem parse_targets_returns (RLEs : Type)
  (frPyObjects : seg_value -> nat -> nat -> result RLEs)
  (decode : RLEs -> result array)
  (self : CocoDetection) (img_id : Z) (coco_targets : list annotation)
  (w h : Z) :
  targets_ok self img_id coco_targets = true ->
  Forall (fun obj => rasterizes frPyObjects decode (segmentation obj)
                       (Z.to_nat h) (Z.to_nat w))
    (non_crowd coco_targets) ->
  0 < w -> 0 < h -> w * h < 2 ^ 63 ->
  exists t boxes labels masks area_t iscrowd_t N,
    parse_targets frPyObjects decode self img_id coco_targets (Some w) (Some h)
      = Return t /\
    PyDict.keys t
      = ["boxes"; "labels"; "masks"; "image_id"; "area"; "iscrowd"] /\
    PyDict.get string_dec "boxes" t = Some (VBoxes boxes) /\
    dtype_of boxes = float32 /\ shape boxes = [N; 4%nat] /\
    length (rows boxes) = N /\
    Forall (fun row => length row = 4%nat) (rows boxes) /\
    PyDict.get string_dec "labels" t = Some (VInts labels) /\
    dtype_of labels = int64 /\ shape labels = [N] /\
    length (rows labels) = N /\
    PyDict.get string_dec "masks" t = Some (VMasks masks) /\
    shape masks = [N; Z.to_nat h; Z.to_nat w] /\
    length (rows masks) = N /\
    Forall (fun m => length m = (Z.to_nat h * Z.to_nat w)%nat) (rows masks) /\
    PyDict.get string_dec "image_id" t
      = Some (VScalars (Tensor int64 [1%nat] [SInt img_id])) /\
    PyDict.get string_dec "area" t = Some (VScalars area_t) /\
    PyDict.get string_dec "iscrowd" t = Some (VScalars iscrowd_t).
Proof.
  intros Hok Hras Hw Hh Hwh.
  set (anno := non_crowd coco_targets) in *.
  destruct (parse_targets_total self img_id coco_targets Hok Hras Hw Hh Hwh)
    as (conv & cls & ms & area_t & iscrowd_t & Hconv & Hrows & Hcls & Hms
        & HF & Hrun).
  fold anno in Hconv, Hrows, Hcls, Hms, Hrun.
  pose proof (keep_mask_length conv) as Hk.
  pose proof (mapM_length _ _ Hcls) as Hlc.
  pose proof (mapM_length _ _ Hms) as Hlm. rewrite length_map in Hlm.
  set (keep := keep_mask conv) in *.
  exists (target_of conv cls
            (Tensor uint8 [length (map segmentation anno); Z.to_nat h; Z.to_nat w]
               (map a_data ms))
            (Tensor int64 [1%nat] [SInt img_id]) area_t iscrowd_t),
    (Tensor float32 [count_true keep; 4%nat] (select keep (rows conv))),
    (Tensor int64 [count_true keep] (select keep cls)),
    (Tensor uint8 [count_true keep; Z.to_nat h; Z.to_nat w]
       (select keep (map a_data ms))),
    area_t, iscrowd_t, (count_true keep).
  cbn [dtype_of shape rows].
  split; [exact Hrun|].
  split; [reflexivity|]. split; [reflexivity|].
  split; [reflexivity|]. split; [reflexivity|].
  split; [apply select_length; lia|].
  split; [apply select_Forall; eapply clamped_rows_length; eauto|].
  split; [reflexivity|]. split; [reflexivity|]. split; [reflexivity|].
  split; [apply select_length; lia|].
  split; [reflexivity|]. split; [reflexivity|].
  split; [apply select_length; rewrite length_map; lia|].
  split.
  { apply select_Forall. apply Forall_map.
    eapply Forall_impl; [|exact HF]. intros m [_ [_ Hm]]. exact Hm. }
  repeat split.
Qed.

Lemma parse_targets_returns_witness :
  exists t,
    Blank.parse sample_self 1 (sample_anns 1) (Some 4) (Some 4) = Return t /\
    PyDict.keys t
      = ["boxes"; "labels"; "masks"; "image_id"; "area"; "iscrowd"].
Proof.
  assert (Hras : Forall (fun obj =>
                   rasterizes Blank.frPyObjects Blank.decode (segmentation obj)
                     (Z.to_nat 4) (Z.to_nat 4))
                   (non_crowd (sample_anns 1))).
  { repeat constructor; apply Blank_rasterizes. }
  destruct (@parse_targets_returns _ Blank.frPyObjects Blank.decode
              sample_self 1 (sample_anns 1) 4 4 eq_refl Hras
              eq_refl eq_refl eq_refl)
    as (t & _ & _ & _ & _ & _ & _ & Hrun & Hkeys & _).
  exists t. split; [exact Hrun | exact Hkeys].
Defined.

(** C2, as stated, fails: [clamp_] converts its bound to float32, and the
    float32 nearest to the width 16777219 is 16777220. A box that reaches
    beyond the right edge of an image of that width is returned with
    [xmax] 16777220, which is above [w]. *)
Lemma boxes_clamped_beyond_width :
  exists t boxes xmin ymin xmax ymax,
    Blank.parse sample_self 7 [ann_wide] (Some 16777219) (Some 4) = Return t /\
    PyDict.get string_dec "boxes" t = Some (VBoxes boxes) /\
    rows boxes = [[xmin; ymin; xmax; ymax]] /\
    integer_value xmax = Some 16777220 /\
    16777219 < 16777220.
Proof.
  assert (Hras : Forall (fun obj =>
                   rasterizes Blank.frPyObjects Blank.decode (segmentation obj)
                     (Z.to_nat 4) (Z.to_nat 16777219))
                   (non_crowd [ann_wide])).
  { repeat constructor; apply Blank_rasterizes. }
  destruct (@parse_targets_total _ Blank.frPyObjects Blank.decode sample_self 7
              [ann_wide] 16777219 4 eq_refl Hras eq_refl eq_refl eq_refl)
    as (conv & cls & ms & area_t & iscrowd_t & Hconv & _ & _ & _ & _ & Hrun).
  vm_compute in Hconv. injection Hconv as <-.
  eexists. eexists. do 4 eexists.
  split; [exact Hrun|].
  split; [apply target_of_entries|].
  split; [reflexivity|].
  split; reflexivity.
Qed.

(** C2, amended. The box of an annotation with bbox [[x, y, bw, bh]], the
    coordinates read as float32, is converted to
    [[clamp(x, 0, w), clamp(y, 0, h), clamp(x + bw, 0, w), clamp(y + bh, 0, h)]];
    every coordinate of every returned box lies, in the order of float32,
    within [[0, float32(w)]] for the x-coordinates and [[0, float32(h)]]
    for the y-coordinates, [float32(w)] and [float32(h)] being the bounds
    as [clamp_] converts them, rounded to the nearest float32. *)
Theorem boxes_clamped (RLEs : Type)
  (frPyObjects : seg_value -> nat -> nat -> result RLEs)
  (decode : RLEs -> result array)
  (self : CocoDetection) (img_id : Z) (coco_targets : list annotation)
  (w h : option Z) (t : target) :
  parse_targets frPyObjects decode self img_id coco_targets w h = Return t ->
  exists wz hz conv boxes,
    w = Some wz /\ 0 < wz /\ h = Some hz /\ 0 < hz /\
    convert_boxes (non_crowd coco_targets) wz hz = Return conv /\
    Forall2 (fun obj row => exists X Y BW BH,
               bbox_f32 obj X Y BW BH /\
               row = clamped_box wz hz X Y BW BH)
      (non_crowd coco_targets) (rows conv) /\
    PyDict.get string_dec "boxes" t = Some (VBoxes boxes) /\
    rows boxes = select (keep_mask conv) (rows conv) /\
    Forall (fun row => exists xmin ymin xmax ymax,
              row = [xmin; ymin; xmax; ymax] /\
              within 0 wz xmin /\ within 0 hz ymin /\
              within 0 wz xmax /\ within 0 hz ymax)
      (rows boxes).
Proof.
  intros Hrun.
  destruct (parse_targets_inv _ _ _ _ _ _ _ Hrun)
    as (wz & hz & conv & cls & msk & area_t & iscrowd_t & Hw & Hwz & Hh & Hhz
        & Hconv & Hrows & _ & _ & _ & _ & _ & _ & Ht).
  destruct (convert_boxes_inv _ _ _ Hconv Hrows) as [_ [_ HF]].
  exists wz, hz, conv,
    (Tensor float32 [count_true (keep_mask conv); 4%nat]
       (select (keep_mask conv) (rows conv))).
  repeat (split; [assumption|]).
  split; [subst t; reflexivity|]. split; [reflexivity|].
  cbn [rows]. rewrite keep_mask_rows, select_filter.
  apply Forall_forall. intros row Hrow. apply filter_In in Hrow.
  destruct Hrow as [Hin Hvalid].
  assert (Hbox : exists X Y BW BH, row = clamped_box wz hz X Y BW BH).
  { clear - HF Hin. induction HF as [|obj r l rs [X [Y [BW [BH [_ Hr]]]]] _ IH].
    - contradiction.
    - destruct Hin as [<-|Hin]; eauto. }
  destruct Hbox as [X [Y [BW [BH ->]]]].
  now apply clamped_box_within.
Qed.

Lemma boxes_clamped_witness :
  exists t boxes,
    Blank.parse sample_self 1 (sample_anns 1) (Some 4) (Some 4) = Return t /\
    PyDict.get string_dec "boxes" t = Some (VBoxes boxes) /\
    length (rows boxes) = 1%nat /\
    Forall (fun row => exists xmin ymin xmax ymax,
              row = [xmin; ymin; xmax; ymax] /\
              within 0 4 xmin /\ within 0 4 ymin /\
              within 0 4 xmax /\ within 0 4 ymax)
      (rows boxes).
Proof.
  destruct (@boxes_clamped _ Blank.frPyObjects Blank.decode sample_self 1
              (sample_anns 1) (Some 4) (Some 4) _ eq_refl)
    as (wz & hz & conv & boxes & Hw & _ & Hh & _ & _ & _ & Hget & _ & HF).
  injection Hw as <-. injection Hh as <-.
  eexists. exists boxes. split; [reflexivity|]. split; [exact Hget|].
  split; [|exact HF].
  vm_compute in Hget. injection Hget as <-. reflexivity.
Defined.

(** C3, as stated, fails: image 5 of the sample dataset has one annotation,
    whose width is NaN; the filter keeps it although no annotation of it
    has a width and a height above 1. *)
Lemma remove_images_keeps_nan_width :
  let anno := loadAnns sample_coco (getAnnIds sample_coco 5) in
  _coco_remove_images_without_annotations sample_coco [5] = [5] /\
  ~ (anno <> [] /\
     exists obj x y bw bh,
       In obj anno /\ bbox obj = [x; y; bw; bh] /\
       py_gt bw 1 = true /\ py_gt bh 1 = true).
Proof.
  split; [reflexivity|].
  intros [_ [obj [x [y [bw [bh [Hin [Hb [Hw _]]]]]]]]].
  cbn in Hin. destruct Hin as [<-|[]].
  cbn in Hb. injection Hb as _ _ <- _. discriminate Hw.
Qed.

(** C3, amended. The filter keeps an image id exactly when the annotation
    list of the image is non-empty and one of its annotations has no bbox
    entry from index 2 on that is [<= 1]; for a bbox of four numbers whose
    width and height are not NaN that is a width and a height above 1,
    and a NaN entry is never [<= 1].
    The constructor applies the filter to the sorted image ids exactly in
    mode "train"; in mode "val" it stores them unfiltered. *)
Theorem remove_images_keeps_iff (env : world) (root dataset years : string)
  (self : CocoDetection) (files : list (string * json_doc)) :
  __init__ env root dataset years = Return (self, files) ->
  (forall ds ids img_id,
     In img_id (_coco_remove_images_without_annotations ds ids) <->
     In img_id ids /\
     loadAnns ds (getAnnIds ds img_id) <> [] /\
     exists obj, In obj (loadAnns ds (getAnnIds ds img_id)) /\
                 box_not_empty obj) /\
  (forall obj x y bw bh,
     bbox obj = [x; y; bw; bh] ->
     py_is_nan bw = false -> py_is_nan bh = false ->
     (box_not_empty obj <-> py_gt bw 1 = true /\ py_gt bh 1 = true)) /\
  (forall o, py_is_nan o = true -> py_le o 1 = false) /\
  ((dataset = "train" /\
    ids self = _coco_remove_images_without_annotations (coco self)
                 (sorted (PyDict.keys (imgs (coco self)))))
   \/
   (dataset = "val" /\
    ids self = sorted (PyDict.keys (imgs (coco self))))).
Proof.
  intros Hinit. split; [|split; [|split]].
  - intros ds ids img_id. rewrite remove_images_filter, filter_In.
    unfold has_valid. now rewrite has_valid_annotation_iff.
  - intros obj x y bw bh. apply box_not_empty_4.
  - intros [z|d]; cbn [py_is_nan py_le]; [discriminate|].
    destruct d; try discriminate. reflexivity.
  - destruct (init_inv _ _ _ _ Hinit) as [_ [[Hd [_ Hids]]|[Hd [_ Hids]]]];
      [left | right]; auto.
Qed.

Lemma remove_images_keeps_iff_witness :
  exists self files,
    __init__ sample_world "/data/coco" "train" "2017" = Return (self, files) /\
    ids self = [1; 5] /\
    (In 1 (ids self) <->
     In 1 (sorted (PyDict.keys (imgs (coco self)))) /\
     loadAnns (coco self) (getAnnIds (coco self) 1) <> [] /\
     exists obj, In obj (loadAnns (coco self) (getAnnIds (coco self) 1)) /\
                 box_not_empty obj).
Proof.
  eexists. eexists. split; [vm_compute; reflexivity|].
  split; [reflexivity|].
  exact (proj1 (@remove_images_keeps_iff sample_world "/data/coco" "train"
                  "2017" _ _ eq_refl) sample_coco
           (sorted (PyDict.keys (imgs sample_coco))) 1).
Defined.

(** C4. [parse_targets] goes through the annotations with [iscrowd == 0]
    and keeps those whose converted and clamped box has [xmax > xmin] and
    [ymax > ymin]; the rows of "boxes", "labels" and "masks" are the boxes,
    the labels and the masks of the annotations, selected by this one keep
    mask, so they belong to the same annotations in the same order. *)
Theorem keep_mask_filters_all (RLEs : Type)
  (frPyObjects : seg_value -> nat -> nat -> result RLEs)
  (decode : RLEs -> result array)
  (self : CocoDetection) (img_id : Z) (coco_targets : list annotation)
  (w h : option Z) (t : target) :
  parse_targets frPyObjects decode self img_id coco_targets w h = Return t ->
  let anno := filter (fun obj => iscrowd obj =? 0) coco_targets in
  exists wz hz conv cls ms boxes labels masks,
    w = Some wz /\ h = Some hz /\
    convert_boxes anno wz hz = Return conv /\
    Forall2 (fun obj row => exists X Y BW BH,
               bbox_f32 obj X Y BW BH /\
               row = clamped_box wz hz X Y BW BH)
      anno (rows conv) /\
    Forall2 (fun obj label =>
               PyDict.get string_dec (str (category_id obj)) (coco91to80 self)
               = Some label)
      anno cls /\
    Forall2 (fun obj m =>
               convert_one frPyObjects decode (segmentation obj)
                 (Z.to_nat hz) (Z.to_nat wz) = Return m)
      anno ms /\
    let keep := map (fun row =>
                       F32.gtb (nth 3 row S754_nan) (nth 1 row S754_nan)
                       && F32.gtb (nth 2 row S754_nan) (nth 0 row S754_nan))
                  (rows conv) in
    length keep = length anno /\
    PyDict.get string_dec "boxes" t = Some (VBoxes boxes) /\
    rows boxes = select keep (rows conv) /\
    PyDict.get string_dec "labels" t = Some (VInts labels) /\
    rows labels = select keep cls /\
    PyDict.get string_dec "masks" t = Some (VMasks masks) /\
    rows masks = select keep (map a_data ms).
Proof.
  intros Hrun anno.
  destruct (parse_targets_inv _ _ _ _ _ _ _ Hrun)
    as (wz & hz & conv & cls & msk & area_t & iscrowd_t & Hw & _ & Hh & _
        & Hconv & Hrows & Hcls & _ & Hmsk & _ & _ & _ & Ht).
  fold (non_crowd coco_targets) in anno. fold anno in Hconv, Hrows, Hcls, Hmsk.
  destruct (convert_boxes_inv _ _ _ Hconv Hrows) as [_ [_ HF]].
  destruct (convert_masks_inv _ _ _ _ _ Hmsk) as [ms [rest [Hms [_ Rmsk]]]].
  exists wz, hz, conv, cls, ms,
    (Tensor float32 [count_true (keep_mask conv); 4%nat]
       (select (keep_mask conv) (rows conv))),
    (Tensor int64 [count_true (keep_mask conv)] (select (keep_mask conv) cls)),
    (Tensor (dtype_of msk) (count_true (keep_mask conv) :: tl (shape msk))
       (select (keep_mask conv) (rows msk))).
  repeat (split; [assumption|]).
  split.
  { apply mapM_Forall2 in Hcls. eapply Forall2_impl; [|exact Hcls].
    intros obj l Hl. now apply getitem_Return. }
  split.
  { rewrite mapM_map in Hms. now apply mapM_Forall2 in Hms. }
  cbv zeta. fold valid_row. rewrite <- keep_mask_rows. cbn [rows].
  split; [now rewrite keep_mask_length|].
  subst t. do 5 (split; [reflexivity|]). now rewrite Rmsk.
Qed.

Lemma keep_mask_filters_all_witness :
  exists t labels,
    Blank.parse sample_self 1 (sample_anns 1) (Some 4) (Some 4) = Return t /\
    PyDict.get string_dec "labels" t = Some (VInts labels) /\
    rows labels = [2].
Proof.
  destruct (@keep_mask_filters_all _ Blank.frPyObjects Blank.decode
              sample_self 1 (sample_anns 1) (Some 4) (Some 4) _ eq_refl)
    as (wz & hz & conv & cls & ms & boxes & labels & masks & _ & _ & _ & _
        & _ & _ & _ & _ & _ & Hlab & _).
  eexists. exists labels. split; [reflexivity|]. split; [exact Hlab|].
  vm_compute in Hlab. injection Hlab as <-. reflexivity.
Defined.

(** C5. The remap built in mode "train" sends the category id at position
    [i] of the category dictionary to [i + 1]: it is injective and its
    values are 1 to K in order, K being the number of categories. Every
    label [parse_targets] returns is the remap of the category id of the
    annotation it comes from. *)
Theorem coco91to80_consecutive (env : world) (root years : string)
  (self : CocoDetection) (files : list (string * json_doc)) :
  __init__ env root "train" years = Return (self, files) ->
  let coco_classes := coco_classes_of (coco self) in
  let remap := coco91to80 self in
  NoDup (PyDict.keys coco_classes) /\
  (forall i k,
     nth_error (PyDict.keys coco_classes) i = Some k ->
     PyDict.get string_dec (str k) remap = Some (Z.of_nat i + 1)) /\
  (forall s1 s2 v,
     PyDict.get string_dec s1 remap = Some v ->
     PyDict.get string_dec s2 remap = Some v -> s1 = s2) /\
  PyDict.values remap
    = map (fun i => Z.of_nat i + 1) (seq 0 (length coco_classes)) /\
  (forall (RLEs : Type) (frPyObjects : seg_value -> nat -> nat -> result RLEs)
          (decode : RLEs -> result array) img_id coco_targets w h t,
     parse_targets frPyObjects decode self img_id coco_targets w h = Return t ->
     exists wz hz conv labels,
       w = Some wz /\ h = Some hz /\
       convert_boxes (non_crowd coco_targets) wz hz = Return conv /\
       PyDict.get string_dec "labels" t = Some (VInts labels) /\
       Forall2 (fun obj label =>
                  PyDict.get string_dec (str (category_id obj)) remap
                  = Some label)
         (select (keep_mask conv) (non_crowd coco_targets)) (rows labels)).
Proof.
  intros Hinit coco_classes remap.
  destruct (init_inv _ _ _ _ Hinit) as [_ [[_ [Hmap _]]|[Hd _]]];
    [|discriminate].
  destruct (coco91to80_of_pairs (coco self)) as [Hpairs Hnd].
  fold coco_classes in Hmap, Hpairs, Hnd.
  assert (Hremap : remap = remap_pairs coco_classes)
    by (unfold remap; congruence).
  split; [apply PyDictFacts.NoDup_keys_of_list|].
  split; [|split; [|split]].
  - intros i k Hk. rewrite Hremap.
    apply PyDictFacts.In_get_NoDup; [exact Hnd|].
    eapply nth_error_In. now apply remap_pairs_nth.
  - intros s1 s2 v H1 H2. rewrite Hremap in H1, H2.
    apply PyDictFacts.get_In, remap_pairs_In in H1, H2.
    destruct H1 as [i [k [Hi [-> Hv1]]]], H2 as [j [k' [Hj [-> Hv2]]]].
    assert (i = j) by lia. subst j. congruence.
  - rewrite Hremap. apply remap_pairs_values.
  - intros RLEs frPyObjects decode img_id coco_targets w h t Hrun.
    destruct (parse_targets_inv _ _ _ _ _ _ _ Hrun)
      as (wz & hz & conv & cls & msk & area_t & iscrowd_t & Hw & _ & Hh & _
          & Hconv & _ & Hcls & _ & _ & _ & _ & _ & Ht).
    exists wz, hz, conv, (Tensor int64 [count_true (keep_mask conv)]
                           (select (keep_mask conv) cls)).
    repeat (split; [assumption|]). subst t. split; [reflexivity|].
    cbn [rows]. apply select_Forall2.
    apply mapM_Forall2 in Hcls.
    eapply Forall2_impl; [|exact Hcls].
    intros obj l Hl. now apply getitem_Return.
Qed.

Lemma coco91to80_consecutive_witness :
  exists self files,
    __init__ sample_world "/data/coco" "train" "2017" = Return (self, files) /\
    PyDict.keys (coco_classes_of (coco self)) = [1; 18] /\
    PyDict.get string_dec (str 18) (coco91to80 self) = Some 2.
Proof.
  eexists. eexists. split; [vm_compute; reflexivity|].
  split; [reflexivity|].
  exact (proj1 (proj2 (@coco91to80_consecutive sample_world "/data/coco" "2017"
                         _ _ eq_refl)) 1%nat 18 eq_refl).
Defined.

(** C6, as stated, fails: with no segmentation and a width of [2^63]
    the call raises, as [torch.zeros] takes no size beyond int64; and it
    raises whenever the toolkit does, as the sample rasterizer does on an
    empty list of polygons. *)
Lemma convert_coco_poly_mask_raises :
  (exists e, Blank.convert [] 1 (Z.to_nat (2 ^ 63)) = Raise e) /\
  Blank.convert [Polygons []] 2 3 = Raise IndexError.
Proof.
  split; [|reflexivity].
  exists TypeError.
  unfold Blank.convert, convert_coco_poly_mask. cbn [mapM bind Return].
  unfold zeros_0. cbn [forallb].
  rewrite Z2Nat.id by (apply Z.pow_nonneg; lia).
  rewrite Z.ltb_irrefl. now rewrite andb_false_r.
Qed.

(** C6, amended. For segmentations each of which the toolkit rasterizes
    to an array of shape [(h, w)] or [(h, w, n)], and [h], [w] and [h * w]
    below [2^63], [convert_coco_poly_mask] returns a uint8 tensor of shape
    [(len(segmentations), h, w)]: for the empty list the tensor of zeros
    of shape [(0, h, w)], and otherwise the stack along dimension 0 of one
    mask of shape [(h, w)] per segmentation, in the order of the list. *)
Theorem convert_coco_poly_mask_shape (RLEs : Type)
  (frPyObjects : seg_value -> nat -> nat -> result RLEs)
  (decode : RLEs -> result array)
  (segmentations : list seg_value) (height width : nat) :
  Forall (fun polygons => rasterizes frPyObjects decode polygons height width)
    segmentations ->
  Z.of_nat height < 2 ^ 63 -> Z.of_nat width < 2 ^ 63 ->
  Z.of_nat height * Z.of_nat width < 2 ^ 63 ->
  exists t ms,
    convert_coco_poly_mask frPyObjects decode segmentations height width
      = Return t /\
    mapM (fun polygons => convert_one frPyObjects decode polygons height width)
      segmentations = Return ms /\
    Forall (mask_of height width) ms /\
    dtype_of t = uint8 /\
    shape t = [length segmentations; height; width] /\
    length (rows t) = length segmentations /\
    rows t = map a_data ms /\
    (segmentations = [] ->
     zeros_0 [height; width] uint8 = Return t /\ rows t = []).
Proof.
  intros Hc Hh Hw Hhw.
  destruct (convert_masks_total Hh Hw Hhw Hc) as [ms [Hms [HF Hrun]]].
  eexists. exists ms. split; [exact Hrun|].
  cbn [dtype_of shape rows]. repeat (split; [assumption || reflexivity|]).
  split.
  - rewrite length_map. now apply mapM_length in Hms.
  - split; [reflexivity|]. intros ->. inversion Hms.
    split; [now apply zeros_0_ok | reflexivity].
Qed.

Lemma convert_coco_poly_mask_shape_witness :
  exists t,
    Blank.convert [square; RunLength [2; 3] [0; 6]] 2 3 = Return t /\
    shape t = [2%nat; 2%nat; 3%nat] /\
    rows t = [[0; 0; 0; 0; 0; 0]; [0; 0; 0; 0; 0; 0]].
Proof.
  assert (Hras : Forall (fun polygons =>
                   rasterizes Blank.frPyObjects Blank.decode polygons 2 3)
                   [square; RunLength [2; 3] [0; 6]]).
  { constructor; [apply Blank_rasterizes|]. constructor; [|constructor].
    exists (2%nat, 3%nat, None). eexists.
    split; [reflexivity|]. split; [reflexivity|]. left. reflexivity. }
  destruct (@convert_coco_poly_mask_shape _ Blank.frPyObjects Blank.decode
              [square; RunLength [2; 3] [0; 6]] 2 3 Hras
              eq_refl eq_refl eq_refl)
    as (t & ms & Hrun & _ & _ & _ & Hshape & _ & _ & _).
  exists t. split; [exact Hrun|]. split; [exact Hshape|].
  unfold Blank.convert in *.
  assert (E : Return t = Return (Tensor uint8 [2%nat; 2%nat; 3%nat]
                [[0; 0; 0; 0; 0; 0]; [0; 0; 0; 0; 0; 0]]))
    by (rewrite <- Hrun; reflexivity).
  inversion E. reflexivity.
Defined.

(** C7. [_coco_remove_images_without_annotations] returns for every list
    of image ids; its loop fetches the annotations of each id once, in the
    order of the list, and the ids it returns are the input list with some
    ids left out: every kept id is an input id and the order is kept. *)
Theorem remove_images_single_pass (dataset : COCO) (ids : list Z) :
  exists valid_ids,
    remove_loop dataset ids = (valid_ids, ids) /\
    _coco_remove_images_without_annotations dataset ids = valid_ids /\
    subseq valid_ids ids /\
    (forall img_id, In img_id valid_ids -> In img_id ids).
Proof.
  exists (filter (has_valid dataset) ids).
  split; [apply remove_loop_filter|].
  split; [apply remove_images_filter|].
  split; [apply filter_subseq|].
  intros img_id H. apply filter_In in H. tauto.
Qed.



(** C9. [parse_targets] asserts [w > 0] and then [h > 0] before anything
    else: when [w] or [h] is left at [None], or is not positive, the call
    raises (a [TypeError] from the comparison with [None], an
    [AssertionError] otherwise) and returns no target. *)
Theorem parse_targets_requires_size (RLEs : Type)
  (frPyObjects : seg_value -> nat -> nat -> result RLEs)
  (decode : RLEs -> result array)
  (self : CocoDetection) (img_id : Z) (coco_targets : list annotation)
  (w h : option Z) :
  w = None \/ h = None \/
  (exists z, w = Some z /\ z <= 0) \/ (exists z, h = Some z /\ z <= 0) ->
  (exists e,
     parse_targets frPyObjects decode self img_id coco_targets w h = Raise e /\
     (e = AssertionError \/ e = TypeError)) /\
  (forall t,
     parse_targets frPyObjects decode self img_id coco_targets w h <> Return t).
Proof.
  intros Hbad.
  assert (Hraise : exists e,
    parse_targets frPyObjects decode self img_id coco_targets w h = Raise e /\
    (e = AssertionError \/ e = TypeError)).
  { unfold parse_targets, assert_gt_0.
    destruct w as [wz|]; [|exists TypeError; auto].
    destruct (0 <? wz) eqn:Ew; [|exists AssertionError; auto].
    cbn [assert bind Return].
    destruct h as [hz|]; [|exists TypeError; auto].
    destruct (0 <? hz) eqn:Eh; [|exists AssertionError; auto].
    exfalso. apply Z.ltb_lt in Ew, Eh.
    destruct Hbad as [H|[H|[[z [H Hz]]|[z [H Hz]]]]];
      try discriminate; inversion H; subst; lia. }
  split; [exact Hraise|].
  destruct Hraise as [e [He _]]. intros t Ht. rewrite He in Ht. discriminate.
Qed.

Lemma parse_targets_requires_size_witness :
  Blank.parse sample_self 1 (sample_anns 1) None None = Raise TypeError /\
  Blank.parse sample_self 1 (sample_anns 1) (Some 4) (Some 0)
    = Raise AssertionError /\
  exists e, Blank.parse sample_self 1 (sample_anns 1) (Some (-3)) (Some 4)
            = Raise e.
Proof.
  split; [reflexivity|]. split; [reflexivity|].
  destruct (@parse_targets_requires_size _ Blank.frPyObjects Blank.decode
              sample_self 1 (sample_anns 1) (Some (-3)) (Some 4))
    as [[e [He _]] _].
  - right. right. left. exists (-3). split; [reflexivity | lia].
  - exists e. exact He.
Defined.

(** C10. After construction [ids] is sorted in ascending order in both
    modes. In mode "val" it holds every image id of the annotation file,
    so [__len__] is the number of images; in mode "train" it is the
    filtered part of the sorted ids. *)
Theorem ids_sorted (env : world) (root dataset years : string)
  (self : CocoDetection) (files : list (string * json_doc)) :
  __init__ env root dataset years = Return (self, files) ->
  let image_ids := PyDict.keys (imgs (coco self)) in
  StronglySorted Z.le (ids self) /\
  (dataset = "val" ->
   Permutation (ids self) image_ids /\
   __len__ self = length (PyDict.items (imgs (coco self)))) /\
  (dataset = "train" ->
   ids self = filter (has_valid (coco self)) (sorted image_ids) /\
   subseq (ids self) (sorted image_ids)).
Proof.
  intros Hinit image_ids.
  destruct (init_inv _ _ _ _ Hinit) as [_ [[Hd [_ Hids]]|[Hd [_ Hids]]]];
    fold image_ids in Hids; subst dataset.
  - rewrite remove_images_filter in Hids. rewrite Hids.
    split; [apply StronglySorted_filter, sorted_StronglySorted|].
    split; [discriminate|]. intros _.
    split; [reflexivity | apply filter_subseq].
  - rewrite Hids. split; [apply sorted_StronglySorted|].
    split; [|discriminate]. intros _. split.
    + apply sorted_Permutation.
    + unfold __len__. rewrite Hids.
      rewrite (Permutation_length (sorted_Permutation image_ids)).
      unfold image_ids, PyDict.keys, PyDict.items. apply length_map.
Qed.

Lemma ids_sorted_witness :
  exists self files,
    __init__ sample_world "/data/coco" "val" "2017" = Return (self, files) /\
    ids self = [1; 2; 3; 5] /\
    StronglySorted Z.le (ids self) /\
    __len__ self = 4%nat.
Proof.
  eexists. eexists. split; [vm_compute; reflexivity|].
  split; [reflexivity|].
  pose proof (@ids_sorted sample_world "/data/coco" "val" "2017" _ _ eq_refl)
    as [Hs [Hv _]].
  split; [exact Hs|].
  destruct (Hv eq_refl) as [_ Hl]. exact Hl.
Defined.

(* ================================================================== *)
(** * Further properties of the code *)
(* ================================================================== *)
(** * Further properties of the filter and of the constructor *)

Lemma filter_idempotent (A : Type) (p : A -> bool) (l : list A) :
  filter p (filter p l) = filter p l.
Proof.
  induction l as [|x l IH]; cbn [filter]; auto.
  destruct (p x) eqn:E; cbn [filter]; [rewrite E, IH|]; auto.
Qed.

(** X1. The filter decides each id on its own: it distributes over the
    concatenation of id lists, filtering twice is filtering once, and
    every id it returns passes the test of the loop. *)
Theorem remove_images_per_id (dataset : COCO) (ids1 ids2 : list Z) :
  _coco_remove_images_without_annotations dataset (ids1 ++ ids2)
  = _coco_remove_images_without_annotations dataset ids1
    ++ _coco_remove_images_without_annotations dataset ids2 /\
  _coco_remove_images_without_annotations dataset
    (_coco_remove_images_without_annotations dataset ids1)
  = _coco_remove_images_without_annotations dataset ids1 /\
  Forall (fun img_id =>
            _has_valid_annotation
              (loadAnns dataset (getAnnIds dataset img_id)) = true)
    (_coco_remove_images_without_annotations dataset ids1).
Proof.
  rewrite !remove_images_filter. split; [apply filter_app|].
  split; [apply filter_idempotent|].
  apply Forall_forall. intros img_id H. apply filter_In in H. apply H.
Qed.

(** X2. An image that has a usable annotation keeps it whatever other
    annotations it has, in whatever order: [_has_valid_annotation] is
    monotone for the inclusion of annotation lists. *)
Theorem has_valid_annotation_monotone (anno anno' : list annotation) :
  incl anno anno' ->
  _has_valid_annotation anno = true ->
  _has_valid_annotation anno' = true.
Proof.
  intros Hincl H. apply has_valid_annotation_iff in H.
  destruct H as [_ [obj [Hin Hbox]]].
  apply has_valid_annotation_iff. split.
  - intros ->. exact (Hincl obj Hin).
  - exists obj. split; [apply Hincl|]; assumption.
Qed.

Lemma has_valid_annotation_monotone_witness :
  incl [ann_dog] [ann_flat; ann_dog; ann_crowd] /\
  _has_valid_annotation [ann_flat; ann_dog; ann_crowd] = true.
Proof.
  assert (H : incl [ann_dog] [ann_flat; ann_dog; ann_crowd]).
  { intros x [<-|[]]. right. left. reflexivity. }
  split; [exact H|].
  exact (@has_valid_annotation_monotone [ann_dog]
           [ann_flat; ann_dog; ann_crowd] H eq_refl).
Defined.

(** The outcome of the constructor when one of its branches raises. *)
Ltac init_raises :=
  cbn [assert bind Return Raise];
  split; [first [ intros _; reflexivity
                | intros H; exfalso; apply H; auto ]|];
  split; [intros Hpre e He;
          first [ discriminate He
                | unfold Raise in *; inversion He; reflexivity
                | exfalso; intuition congruence ]|];
  split; [split; [intros (? & ? & H); discriminate
                 |intros [Hpre (c' & Hc' & Htr & Hv)];
                  unfold Return, Raise in *;
                  first [ discriminate Hc'
                        | destruct Hpre as (_ & ? & ? & ?); congruence
                        | destruct (Htr eq_refl) as [? ?]; congruence
                        | destruct (Hv eq_refl) as [? [? ?]]; congruence ]]|];
  intros ? ? H; discriminate.

(** X3. The constructor first asserts that [dataset] is "train" or "val"
    and that the root, the image directory and the annotation file exist;
    it raises [AssertionError] when one of these fails. When they hold it
    raises what the loader of the annotation file raises, and it returns
    exactly when that file loads and, in mode "train", the two side files
    can be written, in mode "val", [coco91_to_80.json] exists and loads.
    The object then holds the two paths, the mode and the loaded COCO
    object. *)
Theorem init_returns_iff (env : world) (root dataset years : string) :
  let pre :=
    (dataset = "train" \/ dataset = "val") /\
    path_exists env root = true /\
    path_exists env (img_root_of root dataset years) = true /\
    path_exists env (anno_path_of root dataset years) = true in
  let loads :=
    exists c,
      COCO_load env (anno_path_of root dataset years) = Return c /\
      (dataset = "train" ->
       write_file env "coco91_to_80.json" = Return tt /\
       write_file env "coco80_indices.json" = Return tt) /\
      (dataset = "val" ->
       path_exists env "coco91_to_80.json" = true /\
       exists d, json_load env "coco91_to_80.json" = Return d) in
  (~ pre -> __init__ env root dataset years = Raise AssertionError) /\
  (pre -> forall e,
     COCO_load env (anno_path_of root dataset years) = Raise e ->
     __init__ env root dataset years = Raise e) /\
  ((exists self files,
      __init__ env root dataset years = Return (self, files))
   <-> pre /\ loads) /\
  (forall self files,
     __init__ env root dataset years = Return (self, files) ->
     img_root self = img_root_of root dataset years /\
     anno_path self = anno_path_of root dataset years /\
     mode self = dataset /\
     COCO_load env (anno_path_of root dataset years) = Return (coco self)).
Proof.
  cbv zeta. unfold __init__, img_root_of, anno_path_of.
  destruct (String.eqb_spec dataset "train") as [Et|Et];
    [subst dataset
    |destruct (String.eqb_spec dataset "val") as [Ev|Ev]; [subst dataset|]];
    cbn [orb assert bind Return Raise].
  - destruct (path_exists env root) eqn:E1; [|init_raises].
    cbn [assert bind Return Raise].
    destruct (path_exists env (path_join root ("train" ++ years))) eqn:E2;
      [|init_raises].
    cbn [assert bind Return Raise].
    destruct (path_exists env
                (path_join (path_join root "annotations")
                   ("instances_" ++ "train" ++ years ++ ".json"))) eqn:E3;
      [|init_raises].
    cbn [assert bind Return Raise].
    destruct (COCO_load env _) as [e0|c] eqn:Ec; [init_raises|].
    cbn [bind Return Raise].
    destruct (write_file env "coco91_to_80.json") as [e1|[]] eqn:Eo1;
      [init_raises|].
    cbn [bind Return Raise].
    destruct (write_file env "coco80_indices.json") as [e2|[]] eqn:Eo2;
      [init_raises|].
    cbn [bind Return Raise fst snd].
    split; [intros H; exfalso; apply H; auto|].
    split; [intros _ e He; discriminate|].
    split.
    + split; [|intros _; eauto].
      intros _. split; [auto|]. exists c.
      split; [reflexivity|]. split; [auto | discriminate].
    + intros self files H. inversion H; subst. cbn. auto.
  - destruct (path_exists env root) eqn:E1; [|init_raises].
    cbn [assert bind Return Raise].
    destruct (path_exists env (path_join root ("val" ++ years))) eqn:E2;
      [|init_raises].
    cbn [assert bind Return Raise].
    destruct (path_exists env
                (path_join (path_join root "annotations")
                   ("instances_" ++ "val" ++ years ++ ".json"))) eqn:E3;
      [|init_raises].
    cbn [assert bind Return Raise].
    destruct (COCO_load env _) as [e0|c] eqn:Ec; [init_raises|].
    cbn [bind Return Raise].
    destruct (path_exists env "coco91_to_80.json") eqn:E4; [|init_raises].
    cbn [assert bind Return Raise].
    destruct (json_load env "coco91_to_80.json") as [e1|d] eqn:Ej;
      [init_raises|].
    cbn [bind Return Raise fst snd].
    split; [intros H; exfalso; apply H; auto|].
    split; [intros _ e He; discriminate|].
    split.
    + split; [|intros _; eauto].
      intros _. split; [auto|]. exists c.
      split; [reflexivity|]. split; [discriminate | eauto].
    + intros self files H. inversion H; subst. cbn. auto.
  - split; [reflexivity|].
    split; [intros [[H|H] _]; contradiction|].
    split; [|intros ? ? H; discriminate].
    split; [intros (? & ? & H); discriminate
           |intros [[[H|H] _] _]; contradiction].
Qed.

Lemma init_returns_iff_witness :
  exists self files,
    __init__ sample_world "/data/coco" "train" "2017" = Return (self, files) /\
    anno_path self = "/data/coco/annotations/instances_train2017.json".
Proof.
  assert (H : exists self files,
             __init__ sample_world "/data/coco" "train" "2017"
             = Return (self, files)).
  { apply (proj1 (proj2 (proj2 (init_returns_iff sample_world "/data/coco"
                                  "train" "2017")))).
    split; [repeat split; auto|].
    exists sample_coco. split; [reflexivity|].
    split; [intros _; split; reflexivity | discriminate]. }
  destruct H as (self & files & Hrun).
  exists self, files. split; [exact Hrun|].
  exact (proj1 (proj2 (proj2 (proj2 (proj2 (init_returns_iff sample_world
           "/data/coco" "train" "2017"))) self files Hrun))).
Defined.

(** What the constructor writes. *)
Lemma init_files (env : world) (root dataset years : string)
  (self : CocoDetection) (files : list (string * json_doc)) :
  __init__ env root dataset years = Return (self, files) ->
  (dataset = "train" /\
   files = [("coco91_to_80.json", JsonIntMap (coco91to80 self));
            ("coco80_indices.json",
             JsonStrMap (coco80_info_of (coco_classes_of (coco self))))])
  \/ (dataset = "val" /\ files = [] /\
      json_load env "coco91_to_80.json" = Return (coco91to80 self)).
Proof.
  unfold __init__. intros H.
  bind_inv H as u1 H1. apply assert_Return in H1.
  bind_inv H as u2 H2. bind_inv H as u3 H3. bind_inv H as u4 H4.
  bind_inv H as c Hc.
  bind_inv H as r Hr. inversion H; subst self files; clear H.
  cbn [coco coco91to80].
  destruct (dataset =? "train")%string eqn:Et.
  - left. apply String.eqb_eq in Et.
    bind_inv Hr as o1 Ho1. bind_inv Hr as o2 Ho2.
    inversion Hr; subst r. auto.
  - right. cbn [orb] in H1. apply String.eqb_eq in H1.
    bind_inv Hr as u5 H5. bind_inv Hr as d Hd. inversion Hr; subst r. auto.
Qed.

(** X4. The remap survives the side file: a constructor in mode "val"
    that reads the [coco91_to_80.json] a constructor in mode "train" wrote
    stores the same remap, and writes nothing itself. *)
Theorem val_reads_train_remap (env1 env2 : world)
  (root1 root2 years1 years2 : string)
  (train val : CocoDetection) (files1 files2 : list (string * json_doc))
  (remap : PyDict.t string Z) :
  __init__ env1 root1 "train" years1 = Return (train, files1) ->
  json_load env2 "coco91_to_80.json" = Return remap ->
  In ("coco91_to_80.json", JsonIntMap remap) files1 ->
  __init__ env2 root2 "val" years2 = Return (val, files2) ->
  coco91to80 val = coco91to80 train /\ files2 = [] /\
  map fst files1 = ["coco91_to_80.json"; "coco80_indices.json"].
Proof.
  intros Ht Hload Hfile Hv.
  destruct (init_files _ _ _ _ Ht) as [[_ Hf1]|[Hd _]]; [|discriminate].
  destruct (init_files _ _ _ _ Hv) as [[Hd _]|[_ [Hf2 Hmap]]]; [discriminate|].
  subst files1. split; [|split; [assumption | reflexivity]].
  rewrite Hload in Hmap. inversion Hmap; subst remap.
  destruct Hfile as [E|[E|[]]]; [|discriminate].
  inversion E. congruence.
Qed.

Lemma val_reads_train_remap_witness :
  exists train files1 val files2,
    __init__ sample_world "/data/coco" "train" "2017" = Return (train, files1) /\
    __init__ sample_world_after "/data/coco" "val" "2017" = Return (val, files2) /\
    coco91to80 val = coco91to80 train /\
    coco91to80 val = [("1", 1); ("18", 2)].
Proof.
  do 4 eexists. split; [vm_compute; reflexivity|].
  split; [vm_compute; reflexivity|].
  split; [|reflexivity].
  refine (proj1 (@val_reads_train_remap sample_world sample_world_after
                   "/data/coco" "/data/coco" "2017" "2017" _ _ _ _ _
                   eq_refl eq_refl _ eq_refl)).
  left. reflexivity.
Defined.

Lemma NoDup_index_keys (n : nat) :
  NoDup (map (fun i => str (Z.of_nat i + 1)) (seq 0 n)).
Proof.
  rewrite <- (map_map (fun i => Z.of_nat i + 1) str).
  apply NoDup_map_str.
  generalize 0%nat. induction n as [|n IH]; intros s; cbn [seq map];
    constructor; auto.
  intros Hin. apply in_map_iff in Hin. destruct Hin as [j [Hj Hin]].
  apply in_seq in Hin. lia.
Qed.

Lemma coco80_info_of_pairs (coco_classes : PyDict.t Z string) :
  coco80_info_of coco_classes = info_pairs coco_classes /\
  NoDup (map fst (info_pairs coco_classes)).
Proof.
  assert (Hnd : NoDup (map fst (info_pairs coco_classes))).
  { unfold info_pairs, PyDict.items. rewrite map_map. cbn [fst].
    rewrite <- (map_map fst (fun i => str (Z.of_nat i + 1))).
    rewrite enumerate_fst. apply NoDup_index_keys. }
  split; [|exact Hnd].
  unfold coco80_info_of. fold (info_pairs coco_classes).
  now apply PyDictFacts.of_list_NoDup.
Qed.

(** X5. The two files written in mode "train" agree: for a category id
    with name [name], the index [coco91_to_80.json] gives to the id is the
    key under which [coco80_indices.json] holds [name]. *)
Theorem written_files_agree (env : world) (root years : string)
  (self : CocoDetection) (files : list (string * json_doc)) :
  __init__ env root "train" years = Return (self, files) ->
  exists remap info,
    files = [("coco91_to_80.json", JsonIntMap remap);
             ("coco80_indices.json", JsonStrMap info)] /\
    remap = coco91to80 self /\
    forall k name,
      PyDict.get Z.eq_dec k (coco_classes_of (coco self)) = Some name ->
      exists idx,
        PyDict.get string_dec (str k) remap = Some idx /\
        PyDict.get string_dec (str idx) info = Some name.
Proof.
  intros Hinit.
  destruct (init_files _ _ _ _ Hinit) as [[_ Hf]|[Hd _]]; [|discriminate].
  destruct (init_inv _ _ _ _ Hinit) as [_ [[_ [Hmap _]]|[Hd _]]];
    [|discriminate].
  set (classes := coco_classes_of (coco self)) in *.
  exists (coco91to80 self), (coco80_info_of classes).
  split; [exact Hf|]. split; [reflexivity|].
  intros k name Hget.
  apply PyDictFacts.get_In, In_nth_error in Hget. destruct Hget as [i Hi].
  exists (Z.of_nat i + 1).
  destruct (coco91to80_of_pairs (coco self)) as [Hp Hnd].
  destruct (coco80_info_of_pairs classes) as [Hq Hnd'].
  fold classes in Hp, Hnd. split.
  - rewrite Hmap, Hp. apply PyDictFacts.In_get_NoDup; [exact Hnd|].
    eapply nth_error_In. apply remap_pairs_nth.
    unfold PyDict.keys. rewrite nth_error_map, Hi. reflexivity.
  - rewrite Hq. apply PyDictFacts.In_get_NoDup; [exact Hnd'|].
    apply nth_error_In with (n := i).
    unfold info_pairs, PyDict.items.
    rewrite nth_error_map, enumerate_nth_error, Hi. reflexivity.
Qed.

Lemma written_files_agree_witness :
  exists self files remap info,
    __init__ sample_world "/data/coco" "train" "2017" = Return (self, files) /\
    files = [("coco91_to_80.json", JsonIntMap remap);
             ("coco80_indices.json", JsonStrMap info)] /\
    PyDict.get string_dec "2" info = Some "dog".
Proof.
  destruct (@written_files_agree sample_world "/data/coco" "2017" _ _ eq_refl)
    as (remap & info & Hf & _ & _).
  do 2 eexists. exists remap, info. split; [reflexivity|].
  split; [exact Hf|].
  vm_compute in Hf. injection Hf as _ <-. reflexivity.
Defined.

(* ================================================================== *)
(** * Further properties of [parse_targets] *)

Lemma as_float32_float_ok (o : pynum) (f : F32.t) :
  as_float32 o = Return f -> float_ok o = true.
Proof.
  unfold as_float32, py_float, float_ok. destruct o as [z|d]; auto.
  destruct (Float.is_inf (F64.of_Z z)); [discriminate | reflexivity].
Qed.

Lemma tensor_infer_numbers_ok (l : list pynum) (t : tensor scalar) :
  tensor_infer l = Return t -> numbers_ok l = true.
Proof.
  unfold tensor_infer, numbers_ok. destruct l as [|o l]; [reflexivity|].
  destruct (forallb is_int (o :: l)); intros H; bind_inv H as els Hels;
    apply mapM_Forall2 in Hels; apply forallb_forall; intros x Hx;
    remember (o :: l) as m eqn:Hm; clear Hm H.
  - induction Hels as [|y e m els Hy _ IH]; [contradiction|].
    destruct Hx as [<-|Hx]; auto.
    destruct y as [z|d]; auto.
    destruct (fits_int64 z); [reflexivity | discriminate].
  - induction Hels as [|y e m els Hy _ IH]; [contradiction|].
    destruct Hx as [<-|Hx]; auto.
    bind_inv Hy as f Hf. eapply as_float32_float_ok; eauto.
Qed.

Lemma bbox_f32_ok (obj : annotation) (X Y BW BH : F32.t) :
  bbox_f32 obj X Y BW BH ->
  length (bbox obj) = 4%nat /\ forallb float_ok (bbox obj) = true.
Proof.
  intros (x & y & bw & bh & Hb & Hx & Hy & Hw & Hh). rewrite Hb.
  split; [reflexivity|]. cbn [forallb].
  now rewrite (as_float32_float_ok _ Hx), (as_float32_float_ok _ Hy),
    (as_float32_float_ok _ Hw), (as_float32_float_ok _ Hh).
Qed.

Section ParseMore.

Variable RLEs : Type.
Variable frPyObjects : seg_value -> nat -> nat -> result RLEs.
Variable decode : RLEs -> result array.

Local Abbreviation parse := (parse_targets frPyObjects decode).

(** The rows of "boxes" are the clamped boxes that pass the keep mask. *)
Lemma returned_rows (self : CocoDetection) (img_id : Z)
  (coco_targets : list annotation) (w h : option Z) (t : target) :
  parse self img_id coco_targets w h = Return t ->
  exists wz hz boxes,
    w = Some wz /\ 0 < wz /\ h = Some hz /\ 0 < hz /\
    PyDict.get string_dec "boxes" t = Some (VBoxes boxes) /\
    Forall (fun row => valid_row row = true /\
              exists X Y BW BH, row = clamped_box wz hz X Y BW BH)
      (rows boxes).
Proof.
  intros Hrun.
  destruct (parse_targets_inv _ _ _ _ _ _ _ Hrun)
    as (wz & hz & conv & cls & msk & area_t & iscrowd_t & Hw & Hwz & Hh & Hhz
        & Hconv & Hrows & _ & _ & _ & _ & _ & _ & Ht).
  destruct (convert_boxes_inv _ _ _ Hconv Hrows) as [_ [_ HF]].
  exists wz, hz,
    (Tensor float32 [count_true (keep_mask conv); 4%nat]
       (select (keep_mask conv) (rows conv))).
  repeat (split; [assumption|]).
  split; [subst t; reflexivity|].
  cbn [rows]. rewrite keep_mask_rows, select_filter.
  apply Forall_forall. intros row Hrow. apply filter_In in Hrow.
  destruct Hrow as [Hin Hvalid]. split; [exact Hvalid|].
  clear - HF Hin. induction HF as [|obj r l rs [X [Y [BW [BH [_ Hr]]]]] _ IH].
  - contradiction.
  - destruct Hin as [<-|Hin]; eauto.
Qed.

End ParseMore.

(** X6. No returned box is degenerate: every row of "boxes" has
    [xmax > xmin] and [ymax > ymin] in the order of float32, and none of
    its four coordinates is NaN. *)
Theorem returned_boxes_proper (RLEs : Type)
  (frPyObjects : seg_value -> nat -> nat -> result RLEs)
  (decode : RLEs -> result array)
  (self : CocoDetection) (img_id : Z) (coco_targets : list annotation)
  (w h : option Z) (t : target) :
  parse_targets frPyObjects decode self img_id coco_targets w h = Return t ->
  exists boxes,
    PyDict.get string_dec "boxes" t = Some (VBoxes boxes) /\
    Forall (fun row => exists xmin ymin xmax ymax,
              row = [xmin; ymin; xmax; ymax] /\
              F32.gtb xmax xmin = true /\ F32.gtb ymax ymin = true /\
              Forall (fun c => Float.is_nan c = false) row)
      (rows boxes).
Proof.
  intros Hrun.
  destruct (returned_rows _ _ _ _ _ _ _ Hrun)
    as (wz & hz & boxes & _ & _ & _ & _ & Hget & HF).
  exists boxes. split; [exact Hget|].
  eapply Forall_impl; [|exact HF].
  intros row [Hv (X & Y & BW & BH & ->)].
  unfold clamped_box in *. rewrite valid_row_4 in Hv.
  apply andb_true_iff in Hv. destruct Hv as [Hy Hx].
  do 4 eexists. split; [reflexivity|]. split; [exact Hx|].
  split; [exact Hy|].
  unfold F32.gtb, Float.gtb in Hy, Hx. apply SFltb_not_nan in Hy, Hx.
  destruct Hy, Hx. repeat constructor; assumption.
Qed.

Lemma returned_boxes_proper_witness :
  exists t boxes,
    Blank.parse sample_self 1 (sample_anns 1) (Some 4) (Some 4) = Return t /\
    PyDict.get string_dec "boxes" t = Some (VBoxes boxes) /\
    Forall (fun row => Forall (fun c => Float.is_nan c = false) row)
      (rows boxes).
Proof.
  destruct (@returned_boxes_proper _ Blank.frPyObjects Blank.decode
              sample_self 1 (sample_anns 1) (Some 4) (Some 4) _ eq_refl)
    as (boxes & Hget & HF).
  eexists. exists boxes. split; [reflexivity|]. split; [exact Hget|].
  eapply Forall_impl; [|exact HF].
  intros row (a & b & c & d & _ & _ & _ & Hn). exact Hn.
Defined.

(** X7. [parse_targets] returns only for inputs it can read: when it
    returns, [w] and [h] are positive, the image id is within int64 and
    every annotation with [iscrowd == 0] has a bbox of exactly four
    numbers, a category id that is a key of the remap, and areas
    [torch.tensor] accepts. *)
Theorem parse_targets_returns_only_if (RLEs : Type)
  (frPyObjects : seg_value -> nat -> nat -> result RLEs)
  (decode : RLEs -> result array)
  (self : CocoDetection) (img_id : Z) (coco_targets : list annotation)
  (w h : option Z) (t : target) :
  parse_targets frPyObjects decode self img_id coco_targets w h = Return t ->
  (exists wz hz, w = Some wz /\ h = Some hz /\ 0 < wz /\ 0 < hz) /\
  targets_ok self img_id coco_targets = true /\
  Forall (fun obj =>
            length (bbox obj) = 4%nat /\
            PyDict.get string_dec (str (category_id obj)) (coco91to80 self)
            <> None)
    (filter (fun obj => iscrowd obj =? 0) coco_targets).
Proof.
  intros Hrun.
  destruct (parse_targets_inv _ _ _ _ _ _ _ Hrun)
    as (wz & hz & conv & cls & msk & area_t & iscrowd_t & Hw & Hwz & Hh & Hhz
        & Hconv & Hrows & Hcls & Hfit & _ & Ha & _ & Hid & _).
  destruct (convert_boxes_inv _ _ _ Hconv Hrows) as [_ [_ HF]].
  fold (non_crowd coco_targets).
  assert (Hann : Forall (fun obj => annotation_ok self obj = true)
                   (non_crowd coco_targets)).
  { unfold labels_of in Hcls. apply mapM_Forall2 in Hcls.
    rewrite forallb_forall in Hfit.
    remember (non_crowd coco_targets) as anno eqn:Ea. clear Ea Hconv Hrows Ha.
    remember (rows conv) as rs eqn:Er. clear Er.
    revert cls Hcls Hfit.
    induction HF as [|obj r l rs' (X & Y & BW & BH & Hb & _) _ IH];
      intros cls Hcls Hfit; [constructor|].
    inversion Hcls as [|? v ? cls' Hv Hrest]; subst.
    constructor.
    - destruct (bbox_f32_ok Hb) as [H4 Hok]. unfold annotation_ok.
      rewrite H4, Hok. apply getitem_Return in Hv. rewrite Hv.
      cbn. apply Hfit. now left.
    - apply (IH cls'); auto. intros x Hx. apply Hfit. now right. }
  split; [exists wz, hz; auto|]. split.
  - unfold targets_ok. rewrite Hid.
    rewrite (proj2 (forallb_forall _ _)).
    + cbn [andb]. eapply tensor_infer_numbers_ok; eauto.
    + rewrite Forall_forall in Hann. exact Hann.
  - eapply Forall_impl; [|exact Hann]. intros obj Hobj.
    unfold annotation_ok in Hobj.
    apply andb_true_iff in Hobj. destruct Hobj as [Hobj Hget].
    apply andb_true_iff in Hobj. destruct Hobj as [H4 _].
    split; [now apply Nat.eqb_eq|].
    destruct (PyDict.get string_dec (str (category_id obj)) (coco91to80 self));
      [discriminate | discriminate].
Qed.

Lemma parse_targets_returns_only_if_witness :
  exists t,
    Blank.parse sample_self 1 (sample_anns 1) (Some 4) (Some 4) = Return t /\
    targets_ok sample_self 1 (sample_anns 1) = true.
Proof.
  eexists. split; [reflexivity|].
  exact (proj1 (proj2 (@parse_targets_returns_only_if _ Blank.frPyObjects
                         Blank.decode sample_self 1 (sample_anns 1)
                         (Some 4) (Some 4) _ eq_refl))).
Defined.

(** X8. A category id the remap lacks raises [KeyError]: when [w] and [h]
    are positive and within int64, the bboxes of the annotations with
    [iscrowd == 0] are four numbers each and the first of these
    annotations whose category id is no key of [coco91to80] is [obj], the
    call raises [KeyError] with the key [str(obj["category_id"])]. *)
Theorem parse_targets_missing_category (RLEs : Type)
  (frPyObjects : seg_value -> nat -> nat -> result RLEs)
  (decode : RLEs -> result array)
  (self : CocoDetection) (img_id : Z) (coco_targets : list annotation)
  (w h : Z) (known later : list annotation) (obj : annotation) :
  0 < w < 2 ^ 63 -> 0 < h < 2 ^ 63 ->
  filter (fun o => iscrowd o =? 0) coco_targets = known ++ obj :: later ->
  Forall (fun o => length (bbox o) = 4%nat /\
                   forallb float_ok (bbox o) = true)
    (known ++ obj :: later) ->
  Forall (fun o =>
            PyDict.get string_dec (str (category_id o)) (coco91to80 self)
            <> None) known ->
  PyDict.get string_dec (str (category_id obj)) (coco91to80 self) = None ->
  parse_targets frPyObjects decode self img_id coco_targets (Some w) (Some h)
  = Raise (KeyError (str (category_id obj))).
Proof.
  intros [Hw Hw'] [Hh Hh'] Hanno Hbox Hknown Hmiss.
  unfold parse_targets, assert_gt_0.
  assert (Hbw : - 2 ^ 63 <= w < 2 ^ 64) by lia.
  assert (Hbh : - 2 ^ 63 <= h < 2 ^ 64) by lia.
  apply Z.ltb_lt in Hw, Hh. rewrite Hw, Hh. cbn [assert bind Return].
  unfold non_crowd. rewrite Hanno.
  destruct (convert_boxes_total Hbw Hbh Hbox) as [conv [Hconv _]].
  rewrite Hconv. cbn [bind Return].
  assert (Hm : mapM (fun o => getitem (coco91to80 self) (str (category_id o)))
                 (known ++ obj :: later)
               = Raise (KeyError (str (category_id obj)))).
  { clear - Hknown Hmiss.
    induction Hknown as [|o known Ho _ IH]; cbn [app mapM].
    - unfold getitem at 1. rewrite Hmiss. reflexivity.
    - unfold getitem at 1.
      destruct (PyDict.get string_dec (str (category_id o)) (coco91to80 self));
        [|contradiction].
      cbn [bind Return]. rewrite IH. reflexivity. }
  rewrite Hm. reflexivity.
Qed.

Lemma parse_targets_missing_category_witness :
  Blank.parse stale_self 1 (sample_anns 1) (Some 4) (Some 4)
  = Raise (KeyError "18").
Proof.
  refine (@parse_targets_missing_category _ Blank.frPyObjects Blank.decode
            stale_self 1 (sample_anns 1) 4 4 [] [ann_flat] ann_dog
            _ _ eq_refl _ _ eq_refl).
  - split; reflexivity.
  - split; reflexivity.
  - repeat constructor.
  - constructor.
Defined.

(** X9. With no annotation of [iscrowd == 0], an image id within int64
    and [w > 0], [h > 0] with [w * h < 2^63], whatever the crowd
    annotations, the remap and the toolkit are, the call returns the
    target of no object: "boxes" of shape [(0, 4)], "labels" of shape
    [(0,)], "masks" of zeros of shape [(0, h, w)], and "area" and
    "iscrowd" empty, of the default dtype float32. *)
Theorem parse_targets_no_object (RLEs : Type)
  (frPyObjects : seg_value -> nat -> nat -> result RLEs)
  (decode : RLEs -> result array)
  (self : CocoDetection) (img_id : Z) (coco_targets : list annotation)
  (w h : Z) :
  0 < w -> 0 < h -> w * h < 2 ^ 63 -> fits_int64 img_id = true ->
  Forall (fun obj => iscrowd obj <> 0) coco_targets ->
  parse_targets frPyObjects decode self img_id coco_targets (Some w) (Some h)
  = Return
      [ ("boxes", VBoxes (Tensor float32 [0%nat; 4%nat] []));
        ("labels", VInts (Tensor int64 [0%nat] []));
        ("masks", VMasks (Tensor uint8 [0%nat; Z.to_nat h; Z.to_nat w] []));
        ("image_id", VScalars (Tensor int64 [1%nat] [SInt img_id]));
        ("area", VScalars (Tensor float32 [0%nat] []));
        ("iscrowd", VScalars (Tensor float32 [0%nat] [])) ].
Proof.
  intros Hw Hh Hwh Hid Hcrowd.
  assert (Hnone : non_crowd coco_targets = []).
  { unfold non_crowd. induction Hcrowd as [|obj l Hobj _ IH]; cbn [filter];
      auto.
    apply Z.eqb_neq in Hobj. now rewrite Hobj. }
  change (parse_targets frPyObjects decode self img_id coco_targets
            (Some w) (Some h)
          = Return (target_of (Tensor float32 [0%nat; 4%nat] []) []
                      (Tensor uint8 [0%nat; Z.to_nat h; Z.to_nat w] [])
                      (Tensor int64 [1%nat] [SInt img_id])
                      (Tensor float32 [0%nat] []) (Tensor float32 [0%nat] []))).
  apply parse_targets_run; auto; rewrite Hnone; try reflexivity.
  - unfold convert_boxes. rewrite !clamp_bound_ok by nia. reflexivity.
  - unfold convert_coco_poly_mask. cbn [map mapM bind Return].
    apply zeros_0_ok; rewrite ?Z2Nat.id; nia.
Qed.

Lemma parse_targets_no_object_witness :
  exists t,
    Blank.parse stale_self 7 [ann_crowd] (Some 4) (Some 3) = Return t /\
    PyDict.get string_dec "masks" t
    = Some (VMasks (Tensor uint8 [0%nat; 3%nat; 4%nat] [])).
Proof.
  eexists. split.
  - refine (@parse_targets_no_object _ Blank.frPyObjects Blank.decode
              stale_self 7 [ann_crowd] 4 3 eq_refl eq_refl eq_refl eq_refl _).
    repeat constructor. discriminate.
  - reflexivity.
Defined.

(** X10. In mode "train" every returned label is one of 1 to K, K being
    the number of categories: no label is 0, the index of the background. *)
Theorem train_labels_in_range (env : world) (root years : string)
  (self : CocoDetection) (files : list (string * json_doc))
  (RLEs : Type) (frPyObjects : seg_value -> nat -> nat -> result RLEs)
  (decode : RLEs -> result array) (img_id : Z) (coco_targets : list annotation)
  (w h : option Z) (t : target) :
  __init__ env root "train" years = Return (self, files) ->
  parse_targets frPyObjects decode self img_id coco_targets w h = Return t ->
  exists labels,
    PyDict.get string_dec "labels" t = Some (VInts labels) /\
    Forall (fun label =>
              1 <= label <= Z.of_nat (length (coco_classes_of (coco self))))
      (rows labels).
Proof.
  intros Hinit Hrun.
  destruct (init_inv _ _ _ _ Hinit) as [_ [[_ [Hmap _]]|[Hd _]]];
    [|discriminate].
  destruct (coco91to80_of_pairs (coco self)) as [Hpairs _].
  destruct (parse_targets_inv _ _ _ _ _ _ _ Hrun)
    as (wz & hz & conv & cls & msk & area_t & iscrowd_t & _ & _ & _ & _
        & _ & _ & Hcls & _ & _ & _ & _ & _ & Ht).
  exists (Tensor int64 [count_true (keep_mask conv)]
            (select (keep_mask conv) cls)).
  split; [subst t; reflexivity|]. cbn [rows]. apply select_Forall.
  unfold labels_of in Hcls. apply mapM_Forall2 in Hcls.
  remember (non_crowd coco_targets) as anno eqn:Ea.
  clear - Hcls Hmap Hpairs.
  induction Hcls as [|obj l anno cls Hl _ IH]; constructor; auto.
  apply getitem_Return in Hl. rewrite Hmap, Hpairs in Hl.
  apply PyDictFacts.get_In, remap_pairs_In in Hl.
  destruct Hl as (i & k & Hi & _ & ->).
  assert (Hlt : (i < length (PyDict.keys (coco_classes_of (coco self))))%nat).
  { apply nth_error_Some. congruence. }
  unfold PyDict.keys in Hlt. rewrite length_map in Hlt. lia.
Qed.

Lemma train_labels_in_range_witness :
  exists self files t labels,
    __init__ sample_world "/data/coco" "train" "2017" = Return (self, files) /\
    Blank.parse self 1 (sample_anns 1) (Some 4) (Some 4) = Return t /\
    PyDict.get string_dec "labels" t = Some (VInts labels) /\
    Forall (fun label => 1 <= label <= 2) (rows labels).
Proof.
  destruct (@train_labels_in_range sample_world "/data/coco" "2017" _ _
              _ Blank.frPyObjects Blank.decode 1 (sample_anns 1)
              (Some 4) (Some 4) _ eq_refl eq_refl)
    as (labels & Hget & HF).
  do 3 eexists. exists labels. split; [reflexivity|].
  split; [reflexivity|]. split; [exact Hget | exact HF].
Defined.

(** X11. "iscrowd" and "area" come from the annotations with
    [iscrowd == 0], one entry each and in their order, also for the
    annotations the keep mask drops: every entry of "iscrowd" is 0, and
    the entries of "area" are the annotations' own areas, as stored, not
    the areas of the clamped boxes. *)
Theorem area_iscrowd_entries (RLEs : Type)
  (frPyObjects : seg_value -> nat -> nat -> result RLEs)
  (decode : RLEs -> result array)
  (self : CocoDetection) (img_id : Z) (coco_targets : list annotation)
  (w h : option Z) (t : target) :
  parse_targets frPyObjects decode self img_id coco_targets w h = Return t ->
  exists area_t iscrowd_t,
    PyDict.get string_dec "area" t = Some (VScalars area_t) /\
    PyDict.get string_dec "iscrowd" t = Some (VScalars iscrowd_t) /\
    Forall (fun s => s = SInt 0) (rows iscrowd_t) /\
    Forall2 (fun obj s =>
               match s with
               | SInt z => area obj = PyInt z
               | SFloat f => as_float32 (area obj) = Return f
               end)
      (filter (fun obj => iscrowd obj =? 0) coco_targets) (rows area_t).
Proof.
  intros Hrun.
  destruct (parse_targets_inv _ _ _ _ _ _ _ Hrun)
    as (wz & hz & conv & cls & msk & area_t & iscrowd_t & _ & _ & _ & _
        & _ & _ & _ & _ & _ & Ha & Hi & _ & Ht).
  exists area_t, iscrowd_t. subst t.
  split; [reflexivity|]. split; [reflexivity|].
  fold (non_crowd coco_targets). split.
  - assert (H0 : Forall (fun obj => iscrowd obj = 0) (non_crowd coco_targets)).
    { apply Forall_forall. intros obj Hobj. apply filter_In in Hobj.
      now apply Z.eqb_eq. }
    unfold tensor_infer in Hi.
    destruct (non_crowd coco_targets) as [|a l] eqn:Ea;
      [inversion Hi; constructor|].
    rewrite <- Ea in *. clear Ea.
    destruct (map (fun obj => PyInt (iscrowd obj)) (non_crowd coco_targets))
      as [|o m] eqn:Em; [inversion Hi; constructor|].
    rewrite <- Em in Hi. clear Em.
    assert (Hint : forallb is_int
              (map (fun obj => PyInt (iscrowd obj)) (non_crowd coco_targets))
            = true).
    { apply forallb_forall. intros x Hx. apply in_map_iff in Hx.
      destruct Hx as [obj [<- _]]. reflexivity. }
    rewrite Hint in Hi. bind_inv Hi as els Hels. inversion Hi; subst.
    cbn [rows]. rewrite mapM_map in Hels. apply mapM_Forall2 in Hels.
    clear - Hels H0. induction Hels as [|obj s l els Hs _ IH];
      constructor; inversion H0; subst; auto.
    destruct (fits_int64 (iscrowd obj)); [|discriminate].
    inversion Hs. congruence.
  - unfold tensor_infer in Ha.
    destruct (map area (non_crowd coco_targets)) as [|o m] eqn:Em.
    + inversion Ha; subst. cbn [rows].
      destruct (non_crowd coco_targets); [constructor | discriminate].
    + rewrite <- Em in Ha. clear Em.
      destruct (forallb is_int (map area (non_crowd coco_targets)));
        bind_inv Ha as els Hels; inversion Ha; subst; cbn [rows];
        rewrite mapM_map in Hels; apply mapM_Forall2 in Hels;
        eapply Forall2_impl; [|exact Hels| |exact Hels]; cbv beta.
      * intros obj s Hs. destruct (area obj) as [z|d]; [|discriminate].
        destruct (fits_int64 z); [|discriminate]. now inversion Hs.
      * intros obj s Hs. bind_inv Hs as f Hf. now inversion Hs.
Qed.

Lemma area_iscrowd_entries_witness :
  exists t iscrowd_t,
    Blank.parse sample_self 1 (sample_anns 1) (Some 4) (Some 4) = Return t /\
    PyDict.get string_dec "iscrowd" t = Some (VScalars iscrowd_t) /\
    Forall (fun s => s = SInt 0) (rows iscrowd_t) /\
    length (rows iscrowd_t) = 2%nat.
Proof.
  destruct (@area_iscrowd_entries _ Blank.frPyObjects Blank.decode
              sample_self 1 (sample_anns 1) (Some 4) (Some 4) _ eq_refl)
    as (area_t & iscrowd_t & _ & Hget & H0 & _).
  eexists. exists iscrowd_t. split; [reflexivity|].
  split; [exact Hget|]. split; [exact H0|].
  vm_compute in Hget. injection Hget as <-. reflexivity.
Defined.

(* ================================================================== *)
(** * Further properties of [convert_coco_poly_mask] *)

Lemma any_dim2_binary (m r : array) :
  any_dim2 m = Return r -> Forall (fun v => v = 0 \/ v = 1) (a_data r).
Proof.
  unfold any_dim2. destruct (a_shape m) as [|a [|b [|n rest]]];
    try discriminate.
  intros H. inversion H; subst r; clear H. cbn [a_data].
  apply Forall_forall. intros v Hv. apply in_flat_map in Hv.
  destruct Hv as [outer [_ Hv]]. apply in_map_iff in Hv.
  destruct Hv as [j [<- _]].
  destruct (existsb _ (seq 0 n)); auto.
Qed.

(** X12. The masks are binary: whatever values the decoder returns, every
    entry of every mask [convert_coco_poly_mask] returns is 0 or 1. *)
Theorem masks_binary (RLEs : Type)
  (frPyObjects : seg_value -> nat -> nat -> result RLEs)
  (decode : RLEs -> result array)
  (segmentations : list seg_value) (height width : nat)
  (t : tensor (list Z)) :
  convert_coco_poly_mask frPyObjects decode segmentations height width
    = Return t ->
  Forall (fun mask => Forall (fun v => v = 0 \/ v = 1) mask) (rows t).
Proof.
  intros H.
  destruct (convert_masks_inv _ _ _ _ _ H) as [ms [rest [Hms [_ Hrows]]]].
  rewrite Hrows. apply Forall_map. apply mapM_Forall2 in Hms.
  clear - Hms. induction Hms as [|p m l ms Hm _ IH]; constructor; auto.
  unfold convert_one in Hm.
  bind_inv Hm as rles Hrles. bind_inv Hm as mask Hmask.
  eapply any_dim2_binary; eauto.
Qed.

Lemma masks_binary_witness :
  exists t,
    convert_coco_poly_mask sevens_frPyObjects sevens_decode [square] 1 2
      = Return t /\
    rows t = [[1; 1]] /\
    Forall (fun mask => Forall (fun v => v = 0 \/ v = 1) mask) (rows t).
Proof.
  eexists. split; [vm_compute; reflexivity|]. split; [reflexivity|].
  exact (@masks_binary _ sevens_frPyObjects sevens_decode [square] 1 2 _
           eq_refl).
Defined.

Lemma flat_map_singleton (A B : Type) (f : A -> list B) (g : A -> B)
  (l : list A) :
  (forall x, f x = [g x]) -> flat_map f l = map g l.
Proof.
  intros H. induction l as [|x l IH]; cbn [flat_map map]; auto.
  now rewrite H, IH.
Qed.

Lemma nth_map_seq (g : nat -> Z) (n p : nat) :
  (p < n)%nat -> nth p (map g (seq 0 n)) 0 = g p.
Proof.
  intros Hp. rewrite (nth_indep _ 0 (g 0%nat)) by
    (now rewrite length_map, length_seq).
  rewrite map_nth, seq_nth by assumption. reflexivity.
Qed.

Lemma nth_mod_256 (data : list Z) (i : nat) :
  nth i (map (fun v => v mod 256) data) 0 = nth i data 0 mod 256.
Proof. exact (map_nth (fun v => v mod 256) data 0 i). Qed.

(** [any(dim=2)] of a three-dimensional array is the union of the
    channels. *)
Lemma any_dim2_union (dt : dtype) (height width n : nat) (data : list Z) :
  exists m,
    any_dim2 (Array dt [height; width; n] data) = Return m /\
    a_shape m = [height; width] /\
    forall p, (p < height * width)%nat ->
      (nth p (a_data m) 0 = 1 <->
       exists k, (k < n)%nat /\ nth (p * n + k) data 0 <> 0) /\
      (nth p (a_data m) 0 = 0 <->
       forall k, (k < n)%nat -> nth (p * n + k) data 0 = 0).
Proof.
  unfold any_dim2. cbn [a_shape a_dtype a_data prod fold_right seq map].
  eexists. split; [reflexivity|]. cbn [a_shape a_data].
  split; [reflexivity|]. intros p Hp.
  rewrite flat_map_singleton with
    (g := fun outer =>
            if existsb (fun i =>
                 negb (nth ((outer * n + i) * 1 + 0) data 0 =? 0)) (seq 0 n)
            then 1 else 0) by reflexivity.
  rewrite nth_map_seq by assumption.
  destruct (existsb _ (seq 0 n)) eqn:E.
  - apply existsb_exists in E. destruct E as [k [Hk Hnz]].
    apply in_seq in Hk. apply negb_true_iff, Z.eqb_neq in Hnz.
    rewrite Nat.mul_1_r, Nat.add_0_r in Hnz.
    split; split; try reflexivity; try discriminate.
    + intros _. exists k. split; [lia | assumption].
    + intros H0. exfalso. apply Hnz. apply H0. lia.
  - split; split; try reflexivity; try discriminate.
    + intros [k [Hk Hnz]]. exfalso.
      assert (Ht : existsb (fun i =>
                      negb (nth ((p * n + i) * 1 + 0) data 0 =? 0))
                     (seq 0 n) = true).
      { apply existsb_exists. exists k. split; [apply in_seq; lia|].
        rewrite Nat.mul_1_r, Nat.add_0_r.
        now apply negb_true_iff, Z.eqb_neq. }
      congruence.
    + intros _ k Hk.
      destruct (Z.eq_dec (nth (p * n + k) data 0) 0) as [E0|N0]; auto.
      exfalso.
      assert (Ht : existsb (fun i =>
                      negb (nth ((p * n + i) * 1 + 0) data 0 =? 0))
                     (seq 0 n) = true).
      { apply existsb_exists. exists k. split; [apply in_seq; lia|].
        rewrite Nat.mul_1_r, Nat.add_0_r.
        now apply negb_true_iff, Z.eqb_neq. }
      congruence.
Qed.

(** X13. The mask of one object is the union of its decoded channels:
    when the toolkit returns an array of integers of shape [(h, w, n)],
    the pixel at flat position [p] of the mask is 1 exactly when one of
    the [n] channels is not 0 there once converted to uint8, that is
    modulo 256, and 0 otherwise. *)
Theorem mask_is_union_of_channels (RLEs : Type)
  (frPyObjects : seg_value -> nat -> nat -> result RLEs)
  (decode : RLEs -> result array)
  (polygons : seg_value) (height width n : nat) (rles : RLEs)
  (dt : dtype) (data : list Z) :
  dt <> float32 ->
  frPyObjects polygons height width = Return rles ->
  decode rles = Return (Array dt [height; width; n] data) ->
  exists m,
    convert_one frPyObjects decode polygons height width = Return m /\
    a_shape m = [height; width] /\
    forall p, (p < height * width)%nat ->
      (nth p (a_data m) 0 = 1 <->
       exists k, (k < n)%nat /\ nth (p * n + k) data 0 mod 256 <> 0) /\
      (nth p (a_data m) 0 = 0 <->
       forall k, (k < n)%nat -> nth (p * n + k) data 0 mod 256 = 0).
Proof.
  intros _ Hf Hd. unfold convert_one. rewrite Hf. cbn [bind Return].
  rewrite Hd.
  cbn [bind Return a_shape length Nat.ltb Nat.leb as_tensor_uint8 a_data].
  destruct (any_dim2_union uint8 height width n
              (map (fun v => v mod 256) data)) as (m & Hm & Hs & Hpx).
  exists m. split; [exact Hm|]. split; [exact Hs|].
  intros p Hp. destruct (Hpx p Hp) as [H1 H0]. split.
  - rewrite H1. split; intros [k [Hk Hnz]]; exists k; split; auto.
    + now rewrite <- nth_mod_256.
    + now rewrite nth_mod_256.
  - rewrite H0. split; intros H k Hk.
    + rewrite <- nth_mod_256. auto.
    + rewrite nth_mod_256. auto.
Qed.

Lemma mask_is_union_of_channels_witness :
  exists m,
    convert_one sevens_frPyObjects wrap_decode square 1 2 = Return m /\
    nth 0 (a_data m) 0 = 0 /\ nth 1 (a_data m) 0 = 1.
Proof.
  assert (Hdt : int64 <> float32) by discriminate.
  destruct (@mask_is_union_of_channels _ sevens_frPyObjects wrap_decode
              square 1 2 1 (1%nat, 2%nat) int64 [256; 3] Hdt eq_refl eq_refl)
    as (m & Hrun & _ & Hpx).
  exists m. split; [exact Hrun|].
  assert (Hlt0 : (0 < 1 * 2)%nat) by (cbn; lia).
  assert (Hlt1 : (1 < 1 * 2)%nat) by (cbn; lia).
  split.
  - apply (proj2 (Hpx 0%nat Hlt0)). intros k Hk.
    destruct k as [|k]; [reflexivity | lia].
  - apply (proj1 (Hpx 1%nat Hlt1)).
    exists 0%nat. split; [lia | discriminate].
Defined.

(* ================================================================== *)
(** * Properties of [collate_fn] *)

(** X14. [collate_fn] turns a batch of pairs [(img, target)] into the pair
    of all images and all targets, each in the order of the batch; the
    empty batch gives the empty tuple. *)
Theorem collate_fn_pairs (A B : Type) (batch : list (A * B)) :
  collate_fn (pair_batch batch)
  = match batch with
    | [] => []
    | _ :: _ => [map (fun p => inl (fst p)) batch;
                 map (fun p => inr (snd p)) batch]
    end.
Proof.
  unfold collate_fn, pair_batch.
  induction batch as [|p batch IH]; [reflexivity|].
  destruct batch as [|q batch]; [reflexivity|].
  cbn [map zip_star] in *. rewrite IH. reflexivity.
Qed.

Lemma zip_star_singletons (A : Type) (it : list A) :
  it <> [] -> zip_star (map (fun x => [x]) it) = [it].
Proof.
  induction it as [|x it IH]; [contradiction|]. intros _.
  destruct it as [|y it]; [reflexivity|].
  cbn [map zip_star] in *. rewrite IH by discriminate. reflexivity.
Qed.

Lemma zip_star_cons_columns (A : Type) (cols : list (list A)) :
  cols <> [] ->
  forall it, length it = length cols ->
  zip_star (zip_with cons it cols) = it :: zip_star cols.
Proof.
  induction cols as [|c cols IH]; [contradiction|]. intros _ it Hlen.
  destruct it as [|x it]; [discriminate|].
  destruct cols as [|c2 cols].
  - destruct it; [reflexivity | discriminate].
  - destruct it as [|y it]; [discriminate|].
    assert (Hne2 : c2 :: cols <> []) by discriminate.
    assert (Hlen2 : length (y :: it) = length (c2 :: cols))
      by (cbn in *; lia).
    specialize (IH Hne2 (y :: it) Hlen2).
    cbn [zip_with zip_star] in *. rewrite IH. reflexivity.
Qed.

Lemma zip_star_length (A : Type) (n : nat) (batch : list (list A)) :
  batch <> [] -> Forall (fun it => length it = n) batch ->
  length (zip_star batch) = n /\
  Forall (fun col => length col = length batch) (zip_star batch).
Proof.
  induction batch as [|it batch IH]; [contradiction|]. intros _ HF.
  inversion HF as [|? ? Hit Hrest]; subst.
  destruct batch as [|it2 batch].
  - cbn [zip_star]. rewrite length_map. split; [reflexivity|].
    apply Forall_map. apply Forall_forall. reflexivity.
  - assert (Hne2 : it2 :: batch <> []) by discriminate.
    destruct (IH Hne2 Hrest) as [Hl Hc].
    change (zip_star (it :: it2 :: batch))
      with (zip_with cons it (zip_star (it2 :: batch))).
    remember (zip_star (it2 :: batch)) as cols eqn:Ec.
    remember (length (it2 :: batch)) as m eqn:Em.
    change (length (it :: it2 :: batch)) with (S (length (it2 :: batch))).
    rewrite <- Em. clear Ec Em IH HF Hrest.
    revert cols Hl Hc. induction it as [|x it IHit]; intros cols Hl Hc.
    + destruct cols; [split; [reflexivity | constructor] | discriminate].
    + destruct cols as [|c cols]; [discriminate|].
      inversion Hc as [|? ? Hcl Hcr]; subst. cbn [zip_with length].
      assert (Hl' : length cols = length it) by (cbn in *; lia).
      destruct (IHit cols Hl' Hcr) as [IH1 IH2].
      split; [now rewrite IH1|]. constructor; [reflexivity | assumption].
Qed.

(** X15. On a batch of tuples of one length [n > 0], [collate_fn] is a
    transposition: it returns [n] tuples, each as long as the batch, and
    collating its result gives the batch back. *)
Theorem collate_fn_transposes (A : Type) (n : nat) (batch : list (list A)) :
  batch <> [] -> (0 < n)%nat ->
  Forall (fun item => length item = n) batch ->
  length (collate_fn batch) = n /\
  Forall (fun col => length col = length batch) (collate_fn batch) /\
  collate_fn (collate_fn batch) = batch.
Proof.
  unfold collate_fn. intros Hne Hn HF.
  destruct (zip_star_length Hne HF) as [Hl Hc].
  split; [exact Hl|]. split; [exact Hc|].
  clear Hl Hc. induction batch as [|it batch IH]; [contradiction|].
  inversion HF as [|? ? Hit Hrest]; subst.
  destruct batch as [|it2 batch].
  - cbn [zip_star]. apply zip_star_singletons. destruct it; [cbn in Hn; lia|].
    discriminate.
  - change (zip_star (it :: it2 :: batch))
      with (zip_with cons it (zip_star (it2 :: batch))).
    assert (Hne2 : it2 :: batch <> []) by discriminate.
    destruct (zip_star_length Hne2 Hrest) as [Hl _].
    rewrite zip_star_cons_columns.
    + now rewrite IH.
    + intros E. rewrite E in Hl. cbn in Hl. lia.
    + now rewrite Hl.
Qed.

Lemma collate_fn_transposes_witness :
  collate_fn [[1; 2; 3]; [4; 5; 6]] = [[1; 4]; [2; 5]; [3; 6]] /\
  collate_fn (collate_fn [[1; 2; 3]; [4; 5; 6]]) = [[1; 2; 3]; [4; 5; 6]].
Proof.
  split; [reflexivity|].
  refine (proj2 (proj2 (@collate_fn_transposes Z 3 [[1; 2; 3]; [4; 5; 6]]
                          _ _ _))).
  - discriminate.
  - lia.
  - repeat constructor.
Defined.

(* ================================================================== *)
(** * Properties of [__getitem__] and [get_height_and_width] *)

Lemma list_getitem_out_of_range (A : Type) (l : list A) (i : Z) :
  i < - Z.of_nat (length l) \/ Z.of_nat (length l) <= i ->
  list_getitem l i = Raise IndexError.
Proof.
  intros H. unfold list_getitem.
  destruct (i <? 0) eqn:Ei; [apply Z.ltb_lt in Ei | apply Z.ltb_ge in Ei].
  - destruct (0 <=? i + Z.of_nat (length l)) eqn:E0; [|reflexivity].
    apply Z.leb_le in E0. lia.
  - destruct (0 <=? i) eqn:E0; [|reflexivity]. cbn [andb].
    destruct (i <? Z.of_nat (length l)) eqn:E1; [|reflexivity].
    apply Z.ltb_lt in E1. lia.
Qed.

Lemma list_getitem_in_range (A : Type) (l : list A) (i : Z) :
  - Z.of_nat (length l) <= i < Z.of_nat (length l) ->
  exists x, list_getitem l i = Return x /\ In x l.
Proof.
  intros H. unfold list_getitem.
  set (j := if i <? 0 then i + Z.of_nat (length l) else i).
  assert (Hj : 0 <= j < Z.of_nat (length l)).
  { unfold j. destruct (i <? 0) eqn:Ei;
      [apply Z.ltb_lt in Ei | apply Z.ltb_ge in Ei]; lia. }
  assert (E0 : (0 <=? j) = true) by (apply Z.leb_le; lia).
  assert (E1 : (j <? Z.of_nat (length l)) = true) by (apply Z.ltb_lt; lia).
  rewrite E0, E1. cbn [andb].
  destruct (nth_error l (Z.to_nat j)) as [x|] eqn:E.
  - exists x. split; [reflexivity|]. eapply nth_error_In; eauto.
  - apply nth_error_None in E. lia.
Qed.

Lemma list_getitem_Return_In (A : Type) (l : list A) (i : Z) (x : A) :
  list_getitem l i = Return x ->
  In x l /\ - Z.of_nat (length l) <= i < Z.of_nat (length l).
Proof.
  intros H.
  destruct (Z_lt_dec i (- Z.of_nat (length l))) as [Hlo|Hlo];
    [rewrite list_getitem_out_of_range in H by auto; discriminate|].
  destruct (Z_le_dec (Z.of_nat (length l)) i) as [Hhi|Hhi];
    [rewrite list_getitem_out_of_range in H by auto; discriminate|].
  assert (Hr : - Z.of_nat (length l) <= i < Z.of_nat (length l)) by lia.
  split; [|exact Hr].
  destruct (list_getitem_in_range l Hr) as [y [Hy Hin]].
  rewrite Hy in H. inversion H. now subst.
Qed.

(** The ids a constructed dataset holds are ids of images of the file. *)
Lemma ids_are_image_ids (env : world) (root dataset years : string)
  (self : CocoDetection) (files : list (string * json_doc)) (img_id : Z) :
  __init__ env root dataset years = Return (self, files) ->
  In img_id (ids self) ->
  exists info, PyDict.get Z.eq_dec img_id (imgs (coco self)) = Some info.
Proof.
  intros Hinit Hin.
  assert (Hkey : In img_id (PyDict.keys (imgs (coco self)))).
  { destruct (init_inv _ _ _ _ Hinit) as [_ [[_ [_ Hids]]|[_ [_ Hids]]]];
      rewrite Hids in Hin.
    - rewrite remove_images_filter in Hin. apply filter_In in Hin.
      destruct Hin as [Hin _].
      eapply Permutation_in; [apply sorted_Permutation | exact Hin].
    - eapply Permutation_in; [apply sorted_Permutation | exact Hin]. }
  destruct (PyDict.get Z.eq_dec img_id (imgs (coco self))) as [info|] eqn:E.
  - now exists info.
  - apply PyDictFacts.get_None in E. contradiction.
Qed.

(** X16. An index outside [[-len, len)] raises [IndexError] in
    [__getitem__] and in [get_height_and_width], before the toolkit or
    the image library is asked anything. *)
Theorem index_out_of_range (loadImgs : COCO -> Z -> result (list image))
  (pil_image : Type) (Image_open_RGB : string -> result pil_image)
  (size : pil_image -> Z * Z) (RLEs : Type)
  (frPyObjects : seg_value -> nat -> nat -> result RLEs)
  (decode : RLEs -> result array)
  (self : CocoDetection)
  (transforms : option (pil_image -> target -> result (pil_image * target)))
  (index : Z) :
  index < - Z.of_nat (__len__ self) \/ Z.of_nat (__len__ self) <= index ->
  __getitem__ loadImgs Image_open_RGB size frPyObjects decode self
    transforms index = Raise IndexError /\
  get_height_and_width loadImgs self index = Raise IndexError.
Proof.
  intros H. unfold __getitem__, get_height_and_width, __len__ in *.
  rewrite (list_getitem_out_of_range _ H). split; reflexivity.
Qed.

Lemma index_out_of_range_witness :
  get_height_and_width sample_loadImgs stale_self 4 = Raise IndexError /\
  get_height_and_width sample_loadImgs stale_self (-5) = Raise IndexError.
Proof.
  split.
  - refine (proj2 (@index_out_of_range sample_loadImgs (Z * Z) sample_open
                     (fun s => s) _ Blank.frPyObjects Blank.decode
                     stale_self None 4 _)).
    right. cbn. lia.
  - reflexivity.
Defined.

(** X17. On a dataset object the constructor built, with the toolkit's
    [loadImgs], [get_height_and_width] returns for every index of
    [[-len, len)]: the pair (height, width), in this order, of the image
    record of the id at that index. *)
Theorem get_height_and_width_returns
  (loadImgs : COCO -> Z -> result (list image))
  (env : world) (root dataset years : string)
  (self : CocoDetection) (files : list (string * json_doc)) (index : Z) :
  loadImgs_contract loadImgs ->
  __init__ env root dataset years = Return (self, files) ->
  - Z.of_nat (__len__ self) <= index < Z.of_nat (__len__ self) ->
  exists img_id info,
    list_getitem (ids self) index = Return img_id /\
    PyDict.get Z.eq_dec img_id (imgs (coco self)) = Some info /\
    get_height_and_width loadImgs self index
    = Return (height info, width info).
Proof.
  intros Hc Hinit Hidx. unfold __len__ in Hidx.
  destruct (list_getitem_in_range (ids self) Hidx) as [img_id [Hget Hin]].
  destruct (ids_are_image_ids _ _ _ _ _ Hinit Hin) as [info Hinfo].
  exists img_id, info. split; [exact Hget|]. split; [exact Hinfo|].
  unfold get_height_and_width. rewrite Hget. cbn [bind Return].
  rewrite Hc, Hinfo. reflexivity.
Qed.

Lemma sample_loadImgs_contract : loadImgs_contract sample_loadImgs.
Proof. intros c img_id. reflexivity. Qed.

Lemma get_height_and_width_returns_witness :
  exists self files,
    __init__ sample_world "/data/coco" "val" "2017" = Return (self, files) /\
    get_height_and_width sample_loadImgs self (-1) = Return (4, 4).
Proof.
  destruct (@get_height_and_width_returns sample_loadImgs sample_world
              "/data/coco" "val" "2017" _ _ (-1) sample_loadImgs_contract
              eq_refl ltac:(cbn; lia))
    as (img_id & info & Hid & Hinfo & Hrun).
  do 2 eexists. split; [reflexivity|].
  vm_compute in Hid. injection Hid as <-.
  vm_compute in Hinfo. injection Hinfo as <-. exact Hrun.
Defined.

(** X18. What [__getitem__] returns: the image is the file that the
    record [loadImgs] gives for the id at the index names, opened under
    [img_root]; its width and height are positive; the target is the one
    [parse_targets] builds for that id from all annotations of the image
    and the size of the opened image, and its "image_id" is that id. The
    result is the pair of the image and this target, or what [transforms]
    makes of them. *)
Theorem getitem_returns (loadImgs : COCO -> Z -> result (list image))
  (pil_image : Type) (Image_open_RGB : string -> result pil_image)
  (size : pil_image -> Z * Z) (RLEs : Type)
  (frPyObjects : seg_value -> nat -> nat -> result RLEs)
  (decode : RLEs -> result array)
  (self : CocoDetection)
  (transforms : option (pil_image -> target -> result (pil_image * target)))
  (index : Z) (r : pil_image * target) :
  __getitem__ loadImgs Image_open_RGB size frPyObjects decode self
    transforms index = Return r ->
  exists img_id infos info img t,
    list_getitem (ids self) index = Return img_id /\
    In img_id (ids self) /\
    loadImgs (coco self) img_id = Return infos /\
    list_getitem infos 0 = Return info /\
    Image_open_RGB (path_join (img_root self) (file_name info)) = Return img /\
    0 < fst (size img) /\ 0 < snd (size img) /\
    parse_targets frPyObjects decode self img_id
      (loadAnns (coco self) (getAnnIds (coco self) img_id))
      (Some (fst (size img))) (Some (snd (size img))) = Return t /\
    PyDict.get string_dec "image_id" t
      = Some (VScalars (Tensor int64 [1%nat] [SInt img_id])) /\
    match transforms with
    | Some f => f img t = Return r
    | None => r = (img, t)
    end.
Proof.
  unfold __getitem__. intros H.
  bind_inv H as img_id Hid. bind_inv H as infos Hinfos.
  bind_inv H as info Hinfo. bind_inv H as img Himg.
  bind_inv H as t Ht.
  destruct (parse_targets_inv _ _ _ _ _ _ _ Ht)
    as (wz & hz & conv & cls & msk & area_t & iscrowd_t & Hw & Hwz & Hh & Hhz
        & _ & _ & _ & _ & _ & _ & _ & _ & Htarget).
  injection Hw as <-. injection Hh as <-.
  exists img_id, infos, info, img, t.
  split; [assumption|].
  split; [exact (proj1 (list_getitem_Return_In _ _ Hid))|].
  repeat (split; [assumption|]).
  split; [subst t; reflexivity|].
  destruct transforms as [f|]; [exact H | now inversion H].
Qed.

Lemma getitem_returns_witness :
  exists img t,
    __getitem__ sample_loadImgs sample_open (fun s => s)
      Blank.frPyObjects Blank.decode sample_self None 0 = Return (img, t) /\
    sample_open "/data/coco/train2017/a.jpg" = Return img /\
    PyDict.get string_dec "image_id" t
      = Some (VScalars (Tensor int64 [1%nat] [SInt 1])).
Proof.
  do 2 eexists. split; [vm_compute; reflexivity|].
  destruct (@getitem_returns sample_loadImgs (Z * Z) sample_open (fun s => s)
              _ Blank.frPyObjects Blank.decode sample_self None 0 _ eq_refl)
    as (img_id & infos & info & img & t & Hid & _ & Hinfos & Hinfo & Hopen
        & _ & _ & _ & Himg & Hr).
  vm_compute in Hid. injection Hid as <-.
  vm_compute in Hinfos. injection Hinfos as <-.
  vm_compute in Hinfo. injection Hinfo as <-.
  injection Hr as <- <-. split; [exact Hopen | exact Himg].
Defined.

(* ================================================================== *)
(** * Boxes inside the image, and boxes of no width *)

Lemma SFleb_ltb_false (x y : spec_float) :
  SFleb x y = true -> SFltb y x = false.
Proof.
  unfold SFleb, SFltb. rewrite (SFcompare_antisym x y).
  destruct (SFcompare x y) as [[ | | ]|]; cbn; auto; discriminate.
Qed.

Lemma clamp_inside (lo hi a : F32.t) :
  F32.leb lo a = true -> F32.leb a hi = true -> F32.clamp lo hi a = a.
Proof.
  unfold F32.clamp, F32.max, F32.min, F32.leb, F32.ltb. intros Hlo Hhi.
  rewrite (SFleb_ltb_false _ _ Hlo). now rewrite (SFleb_ltb_false _ _ Hhi).
Qed.

Lemma SFltb_irrefl (x : spec_float) : SFltb x x = false.
Proof.
  unfold SFltb. destruct (Float.is_nan x) eqn:E.
  - destruct x; try discriminate. reflexivity.
  - now rewrite SFcompare_refl.
Qed.

Lemma add_zero (X Z0 : F32.t) :
  is_zero Z0 = true ->
  F32.add X Z0 = X \/ (is_zero X = true /\ is_zero (F32.add X Z0) = true).
Proof.
  destruct Z0 as [s| | |]; try discriminate. intros _.
  destruct X as [sx|sx| |sx mx ex]; cbn; auto.
  right. destruct sx, s; auto.
Qed.

Lemma clamp_zero (hi c : F32.t) :
  nonneg_float hi -> is_zero c = true ->
  is_zero (F32.clamp (F32.of_Z 0) hi c) = true.
Proof.
  destruct c as [s| | |]; try discriminate. intros Hhi _.
  destruct hi as [sh|sh| |sh mh eh]; cbn in Hhi; subst; try contradiction;
    reflexivity.
Qed.

Lemma gtb_zero_zero (a b : F32.t) :
  is_zero a = true -> is_zero b = true -> F32.gtb a b = false.
Proof. destruct a, b; try discriminate. reflexivity. Qed.

(** A box whose width or height is zero does not pass the keep mask. *)
Lemma zero_size_invalid (w h : Z) (X Y BW BH : F32.t) :
  0 < w -> 0 < h ->
  is_zero BW = true \/ is_zero BH = true ->
  valid_row (clamped_box w h X Y BW BH) = false.
Proof.
  intros Hw Hh Hz. unfold clamped_box. rewrite valid_row_4.
  assert (Hnw : nonneg_float (F32.of_Z w)) by (apply of_Z_nonneg; lia).
  assert (Hnh : nonneg_float (F32.of_Z h)) by (apply of_Z_nonneg; lia).
  destruct Hz as [Hz|Hz].
  - apply andb_false_iff. right.
    destruct (add_zero X BW Hz) as [->|[HX HXZ]].
    + apply SFltb_irrefl.
    + apply gtb_zero_zero; now apply clamp_zero.
  - apply andb_false_iff. left.
    destruct (add_zero Y BH Hz) as [->|[HY HYZ]].
    + apply SFltb_irrefl.
    + apply gtb_zero_zero; now apply clamp_zero.
Qed.

Lemma as_float32_deterministic (o : pynum) (f g : F32.t) :
  as_float32 o = Return f -> as_float32 o = Return g -> f = g.
Proof. intros Hf Hg. rewrite Hf in Hg. now inversion Hg. Qed.

Lemma bbox_f32_unique (obj : annotation) (X Y BW BH X' Y' BW' BH' : F32.t) :
  bbox_f32 obj X Y BW BH -> bbox_f32 obj X' Y' BW' BH' ->
  X = X' /\ Y = Y' /\ BW = BW' /\ BH = BH'.
Proof.
  intros (x & y & bw & bh & Hb & Hx & Hy & Hw & Hh)
         (x' & y' & bw' & bh' & Hb' & Hx' & Hy' & Hw' & Hh').
  rewrite Hb in Hb'. inversion Hb'; subst.
  repeat split; eapply as_float32_deterministic; eauto.
Qed.

Lemma select_by_rows (A B : Type) (R : A -> B -> Prop) (p : B -> bool)
  (l : list A) (m : list B) :
  Forall2 R l m ->
  Forall (fun x => exists y, R x y /\ p y = true) (select (map p m) l).
Proof.
  induction 1 as [|x y l m Hxy _ IH]; cbn [map select]; [constructor|].
  destruct (p y) eqn:E; auto. constructor; eauto.
Qed.

(** X19. A box that lies inside the image is only converted, not moved:
    when [x], [x + bw] are within [[0, w]] and [y], [y + bh] within
    [[0, h]] (in the order of float32), the row of the annotation is
    [[x, y, x + bw, y + bh]]. *)
Theorem boxes_inside_unchanged (RLEs : Type)
  (frPyObjects : seg_value -> nat -> nat -> result RLEs)
  (decode : RLEs -> result array)
  (self : CocoDetection) (img_id : Z) (coco_targets : list annotation)
  (w h : option Z) (t : target) :
  parse_targets frPyObjects decode self img_id coco_targets w h = Return t ->
  exists wz hz conv,
    w = Some wz /\ h = Some hz /\
    convert_boxes (filter (fun obj => iscrowd obj =? 0) coco_targets) wz hz
      = Return conv /\
    Forall2 (fun obj row =>
               forall X Y BW BH,
                 bbox_f32 obj X Y BW BH ->
                 within 0 wz X -> within 0 wz (F32.add X BW) ->
                 within 0 hz Y -> within 0 hz (F32.add Y BH) ->
                 row = [X; Y; F32.add X BW; F32.add Y BH])
      (filter (fun obj => iscrowd obj =? 0) coco_targets) (rows conv).
Proof.
  intros Hrun.
  destruct (parse_targets_inv _ _ _ _ _ _ _ Hrun)
    as (wz & hz & conv & cls & msk & area_t & iscrowd_t & Hw & _ & Hh & _
        & Hconv & Hrows & _).
  destruct (convert_boxes_inv _ _ _ Hconv Hrows) as [_ [_ HF]].
  exists wz, hz, conv. repeat (split; [assumption|]).
  eapply Forall2_impl; [|exact HF]. cbv beta.
  intros obj row (X' & Y' & BW' & BH' & Hb' & ->) X Y BW BH Hb HX HXW HY HYH.
  destruct (bbox_f32_unique Hb' Hb) as (-> & -> & -> & ->).
  unfold clamped_box, within in *.
  destruct HX, HXW, HY, HYH.
  now rewrite !clamp_inside.
Qed.

Lemma boxes_inside_unchanged_witness :
  exists wz hz conv X Y BW BH,
    Some 8 = Some wz /\ Some 4 = Some hz /\
    convert_boxes (filter (fun obj => iscrowd obj =? 0) (sample_anns 1)) wz hz
      = Return conv /\
    bbox_f32 ann_dog X Y BW BH /\
    within 0 wz X /\ within 0 wz (F32.add X BW) /\
    within 0 hz Y /\ within 0 hz (F32.add Y BH) /\
    nth_error (rows conv) 0 = Some [X; Y; F32.add X BW; F32.add Y BH].
Proof.
  destruct (@boxes_inside_unchanged _ Blank.frPyObjects Blank.decode
              sample_self 1 (sample_anns 1) (Some 8) (Some 4) _ eq_refl)
    as (wz & hz & conv & Hw & Hh & Hconv & HF).
  assert (Hb : exists X Y BW BH, bbox_f32 ann_dog X Y BW BH /\
                 within 0 8 X /\ within 0 8 (F32.add X BW) /\
                 within 0 4 Y /\ within 0 4 (F32.add Y BH)).
  { do 4 eexists. split.
    - do 4 eexists. split; [reflexivity|].
      repeat split; vm_compute; reflexivity.
    - repeat split; vm_compute; reflexivity. }
  destruct Hb as (X & Y & BW & BH & Hb & HX & HXW & HY & HYH).
  exists wz, hz, conv, X, Y, BW, BH.
  injection Hw as <-. injection Hh as <-.
  repeat (split; [reflexivity || assumption|]).
  change (filter (fun obj => iscrowd obj =? 0) (sample_anns 1))
    with [ann_dog; ann_flat] in HF.
  inversion HF as [|obj row l rs Hrow _]; subst.
  now rewrite (Hrow X Y BW BH Hb HX HXW HY HYH).
Defined.

(** X20. An annotation of no extent is never returned: among the
    annotations that pass the keep mask none has a width or a height
    that is zero as a float32. *)
Theorem zero_size_annotations_dropped (RLEs : Type)
  (frPyObjects : seg_value -> nat -> nat -> result RLEs)
  (decode : RLEs -> result array)
  (self : CocoDetection) (img_id : Z) (coco_targets : list annotation)
  (w h : option Z) (t : target) :
  parse_targets frPyObjects decode self img_id coco_targets w h = Return t ->
  exists wz hz conv,
    w = Some wz /\ h = Some hz /\
    convert_boxes (filter (fun obj => iscrowd obj =? 0) coco_targets) wz hz
      = Return conv /\
    Forall (fun obj =>
              forall X Y BW BH,
                bbox_f32 obj X Y BW BH ->
                is_zero BW = false /\ is_zero BH = false)
      (select (keep_mask conv)
         (filter (fun obj => iscrowd obj =? 0) coco_targets)).
Proof.
  intros Hrun.
  destruct (parse_targets_inv _ _ _ _ _ _ _ Hrun)
    as (wz & hz & conv & cls & msk & area_t & iscrowd_t & Hw & Hwz & Hh & Hhz
        & Hconv & Hrows & _).
  destruct (convert_boxes_inv _ _ _ Hconv Hrows) as [_ [_ HF]].
  exists wz, hz, conv. repeat (split; [assumption|]).
  rewrite keep_mask_rows.
  eapply Forall_impl; [|exact (select_by_rows valid_row HF)]. cbv beta.
  intros obj (row & (X' & Y' & BW' & BH' & Hb' & ->) & Hvalid) X Y BW BH Hb.
  destruct (bbox_f32_unique Hb' Hb) as (-> & -> & -> & ->).
  destruct (is_zero BW) eqn:EW.
  - rewrite zero_size_invalid in Hvalid by auto. discriminate.
  - destruct (is_zero BH) eqn:EH; auto.
    rewrite zero_size_invalid in Hvalid by auto. discriminate.
Qed.

Lemma zero_size_annotations_dropped_witness :
  exists wz hz conv,
    Some 4 = Some wz /\ Some 4 = Some hz /\
    convert_boxes (filter (fun obj => iscrowd obj =? 0) (sample_anns 1)) wz hz
      = Return conv /\
    select (keep_mask conv)
      (filter (fun obj => iscrowd obj =? 0) (sample_anns 1)) = [ann_dog].
Proof.
  destruct (@zero_size_annotations_dropped _ Blank.frPyObjects Blank.decode
              sample_self 1 (sample_anns 1) (Some 4) (Some 4) _ eq_refl)
    as (wz & hz & conv & Hw & Hh & Hconv & _).
  exists wz, hz, conv. repeat (split; [assumption|]).
  injection Hw as <-. injection Hh as <-.
  vm_compute in Hconv. injection Hconv as <-. reflexivity.
Defined.
